(** * EMEXA quiz platform: status resolver, submission flow and notifications

    A shallow embedding of the quiz lifecycle logic of the EMEXA backend
    (teacherQuiz.js, teacherController.js, the notification controller) and
    of the quiz filter of the teacher drafts page (TeacherQuizDraft.jsx),
    followed by the properties the specification states about them.

    Conventions of the embedding.
    - A JavaScript [Date] is its time value: [Some t] with [t] the number of
      milliseconds since the epoch, or [None] for an Invalid Date.  The
      local time zone is UTC, so local and UTC fields coincide and a day
      always has 86400000 ms.
    - A JavaScript number that the code obtains by parsing is [Some z] or
      [None] for NaN (and for [undefined], which behaves as NaN in every
      place these values are used: relational operators and [setHours]).
    - The wall clock is an explicit argument [now]. *)

From Stdlib Require Import ZArith Lia Bool Ascii String.
From stdpp Require Import base option list strings gmap pretty sorting.

Local Open Scope Z_scope.

(** ** JavaScript dates and numbers *)

Module Js.

Definition Num := option Z.
Definition Date := option Z.

Definition msPerSecond : Z := 1000.
Definition msPerMinute : Z := 60000.
Definition msPerHour : Z := 3600000.
Definition msPerDay : Z := 86400000.

(** ECMAScript [Day(t)] and [MakeTime], [MakeDate]. *)
Definition Day (t : Z) : Z := t / msPerDay.

Definition MakeTime (h m s ms : Z) : Z :=
  h * msPerHour + m * msPerMinute + s * msPerSecond + ms.

Definition MakeDate (day time : Z) : Z := day * msPerDay + time.

(** [d.setHours(h, m, s, ms)]: same calendar day, new time of day. *)
Definition setHours (d : Date) (h m : Num) (s ms : Z) : Date :=
  match d, h, m with
  | Some t, Some h, Some m => Some (MakeDate (Day t) (MakeTime h m s ms))
  | _, _, _ => None
  end.

(** [d.setDate(d.getDate() + 1)]. *)
Definition addOneDay (d : Date) : Date :=
  match d with
  | Some t => Some (t + msPerDay)
  | None => None
  end.

(** Relational operators; every comparison with NaN is false. *)
Definition lt (a b : option Z) : bool :=
  match a, b with Some x, Some y => x <? y | _, _ => false end.
Definition le (a b : option Z) : bool :=
  match a, b with Some x, Some y => x <=? y | _, _ => false end.
Definition gt (a b : option Z) : bool := lt b a.
Definition ge (a b : option Z) : bool := le b a.
Definition seq (a b : option Z) : bool :=
  match a, b with Some x, Some y => x =? y | _, _ => false end.

(** Days from the civil date, the day number of [new Date('YYYY-MM-DD')]. *)
Definition daysFromCivil (y m d : Z) : Z :=
  let y' := if m <=? 2 then y - 1 else y in
  let era := y' / 400 in
  let yoe := y' - era * 400 in
  let mp := if 2 <? m then m - 3 else m + 9 in
  let doy := (153 * mp + 2) / 5 + d - 1 in
  let doe := yoe * 365 + yoe / 4 - yoe / 100 + doy in
  era * 146097 + doe - 719468.

Definition dateOf (y m d : Z) : Z := daysFromCivil y m d * msPerDay.

Definition dateTime (y m d hh mm : Z) : Z :=
  MakeDate (daysFromCivil y m d) (MakeTime hh mm 0 0).

(** [new Date('2099-12-31')]. *)
Definition farFuture : Date := Some (dateOf 2099 12 31).

(** *** Parsing a time of day: [s.split(':').map(Number)] *)

Definition isDigit (c : ascii) : bool :=
  let n := Z.of_N (N_of_ascii c) in (48 <=? n) && (n <=? 57).

Fixpoint digitsValue (acc : Z) (s : string) : option Z :=
  match s with
  | EmptyString => Some acc
  | String c s' =>
      if isDigit c
      then digitsValue (10 * acc + (Z.of_N (N_of_ascii c) - 48)) s'
      else None
  end.

(** [Number(s)] on a string of decimal digits; the empty string is 0.
    Any other string is NaN here: signs, blanks, fractions, exponents and
    radix prefixes, which [Number] also reads, are outside the "HH:MM"
    format of the schema. *)
Definition Number (s : string) : Num := digitsValue 0 s.

Fixpoint splitColon (cur : string) (s : string) : list string :=
  match s with
  | EmptyString => [String.rev cur]
  | String c s' =>
      if Ascii.eqb c ":"%char
      then String.rev cur :: splitColon EmptyString s'
      else splitColon (String c cur) s'
  end.

Definition split (s : string) : list string := splitColon EmptyString s.

(** [const [h, m] = s.split(':').map(Number)]: a missing second
    component is [undefined]. *)
Definition hourMinute (s : string) : Num * Num :=
  match Number <$> split s with
  | h :: m :: _ => (h, m)
  | [h] => (h, None)
  | [] => (None, None)
  end.

(** Truthiness of an optional string field: unset and [""] are falsy. *)
Definition truthy (s : option string) : bool :=
  match s with
  | Some EmptyString | None => false
  | Some _ => true
  end.

Definition str (s : option string) : string := default EmptyString s.

End Js.

(** ** The quiz document (models/teacherQuiz.js) *)

Inductive QuizStatus := Draft | Scheduled | Active | Closed.

Inductive TimeStatus := TsUnscheduled | TsUpcoming | TsActive | TsExpired.

Module TeacherQuiz.

Record QuizOption := { text : string; isCorrect : bool }.

Record Question := { questionText : string; options : list QuizOption }.

Record t := {
  _id : string;
  teacherId : string;
  title : string;
  subject : string;
  maxAttempts : Z;
  questions : list Question;
  isScheduled : bool;
  scheduleDate : option Z;
  startTime : option string;
  endTime : option string;
  dueDate : option Z;
  status : QuizStatus;
  isDeleted : bool
}.

(** The midnight test of the model's methods:
    [endHour < startHour || (endHour === startHour && endMinute <= startMinute)].
    [===] is only applied to hours, which are never [undefined]. *)
Definition spansMidnight (sh sm eh em : Js.Num) : bool :=
  Js.lt eh sh || (Js.seq eh sh && Js.le em sm).

Definition startDateTime (q : t) : Js.Date :=
  let '(sh, sm) := Js.hourMinute (Js.str (startTime q)) in
  Js.setHours (scheduleDate q) sh sm 0 0.

Definition endDateTime (q : t) : Js.Date :=
  let '(sh, sm) := Js.hourMinute (Js.str (startTime q)) in
  let '(eh, em) := Js.hourMinute (Js.str (endTime q)) in
  let e := Js.setHours (scheduleDate q) eh em 0 0 in
  if spansMidnight sh sm eh em then Js.addOneDay e else e.

(** [this.isScheduled && this.scheduleDate && this.startTime && this.endTime] *)
Definition hasSchedule (q : t) : bool :=
  isScheduled q && bool_decide (is_Some (scheduleDate q))
  && Js.truthy (startTime q) && Js.truthy (endTime q).

(** [teacherQuizSchema.methods.isCurrentlyActive] *)
Definition isCurrentlyActive (q : t) (now : Z) : bool :=
  if negb (hasSchedule q) then false
  else Js.ge (Some now) (startDateTime q) && Js.lt (Some now) (endDateTime q).

(** [teacherQuizSchema.methods.getTimeStatus] *)
Definition getTimeStatus (q : t) (now : Z) : TimeStatus :=
  if negb (hasSchedule q) then TsUnscheduled
  else if Js.lt (Some now) (startDateTime q) then TsUpcoming
  else if Js.ge (Some now) (startDateTime q) && Js.lt (Some now) (endDateTime q)
       then TsActive
  else TsExpired.

End TeacherQuiz.

(** ** Read-time status in the teacher controller (teacherController.js) *)

(** The end of the calendar day of a due date:
    [new Date(quiz.dueDate).setHours(23, 59, 59, 999)]. *)
Definition endOfDay (d : Z) : Js.Date := Js.setHours (Some d) (Some 23) (Some 59) 59 999.

(** The three-way status every listing derives from a window. *)
Definition statusOfWindow (now : Z) (start fin : Js.Date) : QuizStatus :=
  if Js.lt (Some now) start then Scheduled
  else if Js.ge (Some now) start && Js.lt (Some now) fin then Active
  else Closed.

Module getTeacherActivities.

(** Here the minute comparison is strict:
    [endHour < startHour || (endHour === startHour && endMinute < startMinute)]. *)
Definition spansMidnight (sh sm eh em : Js.Num) : bool :=
  Js.lt eh sh || (Js.seq eh sh && Js.lt em sm).

Definition endDateTime (q : TeacherQuiz.t) : Js.Date :=
  let '(sh, sm) := Js.hourMinute (Js.str (TeacherQuiz.startTime q)) in
  let '(eh, em) := Js.hourMinute (Js.str (TeacherQuiz.endTime q)) in
  let e := Js.setHours (TeacherQuiz.scheduleDate q) eh em 0 0 in
  if spansMidnight sh sm eh em then Js.addOneDay e else e.

Definition actualStatus (q : TeacherQuiz.t) (now : Z) : QuizStatus :=
  if TeacherQuiz.hasSchedule q
  then statusOfWindow now (TeacherQuiz.startDateTime q) (endDateTime q)
  else TeacherQuiz.status q.

End getTeacherActivities.

(** The end instant shared, statement for statement, by [getTeacherQuizzes]
    and [getQuizStats]: the due date wins over the end time. *)
Definition dueDateFirstEnd (q : TeacherQuiz.t) : Js.Date :=
  match TeacherQuiz.dueDate q with
  | Some d => endOfDay d
  | None =>
      if Js.truthy (TeacherQuiz.endTime q)
      then TeacherQuiz.endDateTime q
      else Js.farFuture
  end.

Module getTeacherQuizzes.

Definition endDateTime := dueDateFirstEnd.

Definition status (q : TeacherQuiz.t) (now : Z) : QuizStatus :=
  if TeacherQuiz.hasSchedule q
  then statusOfWindow now (TeacherQuiz.startDateTime q) (endDateTime q)
  else TeacherQuiz.status q.

End getTeacherQuizzes.

Module getQuizStats.

Record Flags := { isUpcoming : bool; isCurrentlyActive : bool; isExpired : bool }.

Definition endDateTime := dueDateFirstEnd.

Definition flags (q : TeacherQuiz.t) (now : Z) : Flags :=
  if TeacherQuiz.hasSchedule q
  then
    let start := TeacherQuiz.startDateTime q in
    let fin := endDateTime q in
    {| isUpcoming := Js.lt (Some now) start;
       isCurrentlyActive := Js.ge (Some now) start && Js.lt (Some now) fin;
       isExpired := Js.ge (Some now) fin |}
  else {| isUpcoming := false; isCurrentlyActive := false; isExpired := false |}.

Record Stats := { total : Z; drafts : Z; scheduled : Z; active : Z; closed : Z }.

Definition count (q : TeacherQuiz.t) (now : Z) (s : Stats) : Stats :=
  let f := flags q now in
  if TeacherQuiz.isScheduled q then
    if isUpcoming f then
      {| total := total s; drafts := drafts s; scheduled := scheduled s + 1;
         active := active s; closed := closed s |}
    else if isCurrentlyActive f then
      {| total := total s; drafts := drafts s; scheduled := scheduled s;
         active := active s + 1; closed := closed s |}
    else if isExpired f then
      {| total := total s; drafts := drafts s; scheduled := scheduled s;
         active := active s; closed := closed s + 1 |}
    else s
  else
    match TeacherQuiz.status q with
    | Draft =>
      {| total := total s; drafts := drafts s + 1; scheduled := scheduled s;
         active := active s; closed := closed s |}
    | Active =>
      {| total := total s; drafts := drafts s; scheduled := scheduled s;
         active := active s + 1; closed := closed s |}
    | Scheduled =>
      {| total := total s; drafts := drafts s; scheduled := scheduled s + 1;
         active := active s; closed := closed s |}
    | Closed =>
      {| total := total s; drafts := drafts s; scheduled := scheduled s;
         active := active s; closed := closed s + 1 |}
    end.

Definition formattedStats (allQuizzes : list TeacherQuiz.t) (now : Z) : Stats :=
  foldl (fun s q => count q now s)
    {| total := Z.of_nat (length allQuizzes); drafts := 0; scheduled := 0;
       active := 0; closed := 0 |}
    allQuizzes.

End getQuizStats.

Module getSharedQuizzes.

(** [endDateTime] stays [undefined] (outer [None]) without due date and
    end time. *)
Definition endDateTime (q : TeacherQuiz.t) : option Js.Date :=
  match TeacherQuiz.dueDate q with
  | Some d => Some (endOfDay d)
  | None =>
      if Js.truthy (TeacherQuiz.endTime q)
      then Some (TeacherQuiz.endDateTime q)
      else None
  end.

(** The pair [(timeStatus, isCurrentlyActive)] of one processed quiz. *)
Definition timeStatus (q : TeacherQuiz.t) (now : Z) : TimeStatus * bool :=
  if bool_decide (is_Some (TeacherQuiz.scheduleDate q))
     && Js.truthy (TeacherQuiz.startTime q)
  then
    let r1 := if Js.lt (Some now) (TeacherQuiz.startDateTime q)
              then (TsUpcoming, false) else (TsActive, true) in
    match endDateTime q with
    | Some fin => if Js.gt (Some now) fin then (TsExpired, false) else r1
    | None => r1
    end
  else (TsActive, true).

End getSharedQuizzes.

(** ** The quiz filter of the drafts page (TeacherQuizDraft.jsx) *)

Module TeacherQuizDraft.

Definition endDateTime (q : TeacherQuiz.t) : Js.Date :=
  match TeacherQuiz.dueDate q with
  | Some d =>
      if Js.truthy (TeacherQuiz.endTime q)
      then
        let '(eh, em) := Js.hourMinute (Js.str (TeacherQuiz.endTime q)) in
        Js.setHours (Some d) eh em 0 0
      else endOfDay d
  | None =>
      if Js.truthy (TeacherQuiz.endTime q)
      then TeacherQuiz.endDateTime q
      else Js.farFuture
  end.

Definition flags (q : TeacherQuiz.t) (now : Z) : getQuizStats.Flags :=
  if TeacherQuiz.isScheduled q
     && bool_decide (is_Some (TeacherQuiz.scheduleDate q))
     && Js.truthy (TeacherQuiz.startTime q)
  then
    let start := TeacherQuiz.startDateTime q in
    let fin := endDateTime q in
    {| getQuizStats.isUpcoming := Js.lt (Some now) start;
       getQuizStats.isCurrentlyActive :=
         Js.ge (Some now) start && Js.lt (Some now) fin;
       getQuizStats.isExpired := Js.ge (Some now) fin |}
  else {| getQuizStats.isUpcoming := false;
          getQuizStats.isCurrentlyActive := false;
          getQuizStats.isExpired := false |}.

End TeacherQuizDraft.

(** ** Documents of the other collections

    Free-text and metadata fields that no control flow reads (descriptions,
    instructor names, metadata objects, e-mail bodies) are left out. *)

Inductive Role := RoleStudent | RoleTeacher.

Inductive NotificationType :=
  | quiz_assigned | quiz_graded | quiz_abandoned
  | quiz_majority_complete | data_export | announcement.

#[global] Instance NotificationType_eq_dec : EqDecision NotificationType.
Proof. solve_decision. Defined.

Module Account.

Record NotificationSettings := {
  emailNotifications : option bool;
  inAppNotifications : option bool
}.

(** A document of the User, Student or Teacher collection. *)
Record t := {
  _id : string;
  name : option string;
  email : option string;
  notificationSettings : option NotificationSettings;
  semester : option string;
  year : option string
}.

End Account.

(** An element of the submitted [answers] array: [null], an integer, or
    any other JSON value (which is never [===] to an index or to [null]). *)
Inductive Answer := ANull | ANum (z : Z) | AOther.

Module QuizResult.

Record AnswerRow := {
  questionId : Z;
  userAnswer : Answer;
  correctAnswer : Z;
  isCorrect : bool
}.

Record t := {
  _id : nat;
  userId : string;
  quizId : string;
  score : Js.Num;
  correctAnswers : Z;
  totalQuestions : Z;
  timeTaken : Z;
  answers : list AnswerRow;
  submittedAt : Z;
  abandoned : bool
}.

End QuizResult.

Module Notification.

Record t := {
  _id : nat;
  recipientId : string;
  recipientRole : Role;
  type : NotificationType;
  title : string;
  quizId : option string;
  score : option string;
  status : string;
  isRead : bool;
  createdAt : Z
}.

Definition markRead (n : t) : t :=
  {| _id := _id n; recipientId := recipientId n; recipientRole := recipientRole n;
     type := type n; title := title n; quizId := quizId n; score := score n;
     status := status n; isRead := true; createdAt := createdAt n |}.

End Notification.

Inductive EmailKind :=
  | QuizAssignedMail | QuizSharedMail | QuizSubmittedMail | MajorityCompleteMail.

#[global] Instance EmailKind_eq_dec : EqDecision EmailKind.
Proof. solve_decision. Defined.

(** One call of the mail transport by [sendEmailNotification]. *)
Record Email := {
  mailUser : string;
  mailTo : string;
  mailKind : EmailKind;
  mailQuiz : string
}.

(** ** The document store and the mail transport *)

Record Db := {
  users : list Account.t;
  students : list Account.t;
  teachers : list Account.t;
  quizzes : list TeacherQuiz.t;
  quizResults : list QuizResult.t;
  notifications : list Notification.t;
  outbox : list Email;
  nextId : nat
}.

Definition setQuizzes (db : Db) (qs : list TeacherQuiz.t) : Db :=
  {| users := users db; students := students db; teachers := teachers db;
     quizzes := qs; quizResults := quizResults db;
     notifications := notifications db; outbox := outbox db; nextId := nextId db |}.

Definition setQuizResults (db : Db) (rs : list QuizResult.t) (n : nat) : Db :=
  {| users := users db; students := students db; teachers := teachers db;
     quizzes := quizzes db; quizResults := rs;
     notifications := notifications db; outbox := outbox db; nextId := n |}.

Definition setNotifications (db : Db) (ns : list Notification.t) (n : nat) : Db :=
  {| users := users db; students := students db; teachers := teachers db;
     quizzes := quizzes db; quizResults := quizResults db;
     notifications := ns; outbox := outbox db; nextId := n |}.

Definition setOutbox (db : Db) (ms : list Email) : Db :=
  {| users := users db; students := students db; teachers := teachers db;
     quizzes := quizzes db; quizResults := quizResults db;
     notifications := notifications db; outbox := ms; nextId := nextId db |}.

Definition findById (coll : list Account.t) (id : string) : option Account.t :=
  List.find (fun a => bool_decide (Account._id a = id)) coll.

(** [User.findById(id) || Student.findById(id) || Teacher.findById(id)] *)
Definition findAnyUser (db : Db) (id : string) : option Account.t :=
  match findById (users db) id with
  | Some u => Some u
  | None =>
      match findById (students db) id with
      | Some u => Some u
      | None => findById (teachers db) id
      end
  end.

(** [Notification.create]: the store assigns the identifier. *)
Definition createNotification (db : Db) (mk : nat -> Notification.t) : Db :=
  setNotifications db (notifications db ++ [mk (nextId db)]) (S (nextId db)).

(** notificationEmail.service.js, [sendEmailNotification]: nothing is
    sent for an unknown user; for a known one the mail goes out whatever
    the preference says, since the early return on a disabled preference is
    commented out in the source.  A failure of the transport is caught
    there, so the call never throws; [outbox] records the calls of the
    transport. *)
Definition sendEmailNotification
    (db : Db) (userId userEmail : string) (k : EmailKind) (quizTitle : string) : Db :=
  match findAnyUser db userId with
  | None => db
  | Some _ =>
      setOutbox db (outbox db ++
        [{| mailUser := userId; mailTo := userEmail; mailKind := k;
            mailQuiz := quizTitle |}])
  end.

(** ** Submitting a quiz (teacherController.js, [submitQuizAnswers]) *)

Inductive SubmitResponse :=
  | QuizNotFound
  | AlreadySubmitted (prior : QuizResult.t)
  | AttemptsExhausted (attemptsUsed maxAttempts : Z)
  | AttemptRecorded (attemptNumber maxAttempts : Z)
  | NotAvailable (timeStatus : TimeStatus)
  | Submitted (score : Js.Num) (correctAnswers totalQuestions : Z)
              (attemptNumber maxAttempts attemptsRemaining : Z).

Module submitQuizAnswers.

Definition duplicateWindow : Z := 5000.

Definition findQuiz (db : Db) (id : string) : option TeacherQuiz.t :=
  List.find (fun q => bool_decide (TeacherQuiz._id q = id)) (quizzes db).

Definition ofUserQuiz (userId id : string) (r : QuizResult.t) : bool :=
  bool_decide (QuizResult.userId r = userId)
  && bool_decide (QuizResult.quizId r = id).

(** STEP 1: a result of this user for this quiz in the last 5 seconds. *)
Definition recentSubmission (db : Db) (now : Z) (userId id : string)
    : option QuizResult.t :=
  List.find
    (fun r => ofUserQuiz userId id r
              && (now - duplicateWindow <=? QuizResult.submittedAt r))
    (quizResults db).

(** STEP 2: [QuizResult.countDocuments({ userId, quizId })]. *)
Definition existingAttempts (db : Db) (userId id : string) : Z :=
  Z.of_nat (length (List.filter (ofUserQuiz userId id) (quizResults db))).

Definition createResult (db : Db) (mk : nat -> QuizResult.t) : Db :=
  setQuizResults db (quizResults db ++ [mk (nextId db)]) (S (nextId db)).

(** [Math.round((n / d) * 100)] for [n >= 0], [d > 0], in exact
    arithmetic. *)
Definition roundPercent (n d : Z) : Z := (200 * n + d) / (2 * d).

(** [question.options.findIndex(opt => opt.isCorrect)], with [null] for -1. *)
Fixpoint findIndexCorrect (i : Z) (os : list TeacherQuiz.QuizOption) : option Z :=
  match os with
  | [] => None
  | o :: os' => if TeacherQuiz.isCorrect o then Some i else findIndexCorrect (i + 1) os'
  end.

(** [userAnswer === correctAnswer], [userAnswer] being [answers[index]]. *)
Definition answerMatches (a : option Answer) (correct : option Z) : bool :=
  match a, correct with
  | Some (ANum z), Some c => z =? c
  | Some ANull, None => true
  | _, _ => false
  end.

(** STEP 6: one row per question. *)
Fixpoint grade (index : nat) (qs : list TeacherQuiz.Question) (answers : list Answer)
    : list QuizResult.AnswerRow :=
  match qs with
  | [] => []
  | question :: qs' =>
      let userAnswer := answers !! index in
      let correctAnswer := findIndexCorrect 0 (TeacherQuiz.options question) in
      {| QuizResult.questionId := Z.of_nat index + 1;
         QuizResult.userAnswer := default (ANum (-1)) userAnswer;
         QuizResult.correctAnswer := default (-1) correctAnswer;
         QuizResult.isCorrect := answerMatches userAnswer correctAnswer |}
      :: grade (S index) qs' answers
  end.

Definition countCorrect (rows : list QuizResult.AnswerRow) : Z :=
  Z.of_nat (length (List.filter QuizResult.isCorrect rows)).

(** The score is NaN for a quiz without questions (0 / 0). *)
Definition scoreOf (correct total : Z) : Js.Num :=
  if total =? 0 then None else Some (roundPercent correct total).

Definition scoreText (s : Js.Num) : string :=
  (match s with Some z => pretty z | None => "NaN" end +:+ "/100")%string.

(** STEP 8: the in-app confirmation, unless one was created for this
    user and quiz in the last 5 seconds. *)
Definition recentGraded (db : Db) (now : Z) (userId id : string) : bool :=
  existsb
    (fun n => bool_decide (Notification.recipientId n = userId)
              && bool_decide (Notification.quizId n = Some id)
              && bool_decide (Notification.type n = quiz_graded)
              && (now - duplicateWindow <=? Notification.createdAt n))
    (notifications db).

Definition notifySubmission (db : Db) (now : Z) (userId id : string)
    (quiz : TeacherQuiz.t) (score : Js.Num) : Db :=
  if recentGraded db now userId id then db
  else createNotification db (fun nid =>
    {| Notification._id := nid; Notification.recipientId := userId;
       Notification.recipientRole := RoleStudent;
       Notification.type := quiz_graded;
       Notification.title := TeacherQuiz.title quiz;
       Notification.quizId := Some id;
       Notification.score := Some (scoreText score);
       Notification.status := "graded"; Notification.isRead := false;
       Notification.createdAt := now |}).

(** One of the two mail blocks that follow STEP 8. *)
Definition emailSubmission (db : Db) (userId : string) (quiz : TeacherQuiz.t) : Db :=
  match findById (students db) userId with
  | Some student =>
      if Js.truthy (Account.email student)
      then sendEmailNotification db userId (Js.str (Account.email student))
             QuizSubmittedMail (TeacherQuiz.title quiz)
      else db
  | None => db
  end.

(** STEP 9, the test
    [completionPercentage >= majorityThreshold &&
     completionPercentage - Math.round(((completedCount - 1) / totalStudents) * 100) > 0].
    Without students both percentages are Infinity or NaN, their
    difference is NaN and the test is false. *)
Definition majorityThreshold : Z := 50.

Definition majorityTest (completedCount totalStudents : Z) : bool :=
  if totalStudents =? 0 then false
  else
    let completionPercentage := roundPercent completedCount totalStudents in
    (majorityThreshold <=? completionPercentage)
    && (0 <? completionPercentage - roundPercent (completedCount - 1) totalStudents).

Definition completedCount (db : Db) (id : string) : Z :=
  Z.of_nat (length (List.filter
    (fun r => bool_decide (QuizResult.quizId r = id)) (quizResults db))).

Definition checkMajority (db : Db) (now : Z) (id : string) (quiz : TeacherQuiz.t) : Db :=
  let totalStudents := Z.of_nat (length (students db)) in
  if majorityTest (completedCount db id) totalStudents then
    match findById (teachers db) (TeacherQuiz.teacherId quiz) with
    | Some teacher =>
        if Js.truthy (Account.email teacher) then
          let db1 := sendEmailNotification db (TeacherQuiz.teacherId quiz)
                       (Js.str (Account.email teacher)) MajorityCompleteMail
                       (TeacherQuiz.title quiz) in
          createNotification db1 (fun nid =>
            {| Notification._id := nid;
               Notification.recipientId := TeacherQuiz.teacherId quiz;
               Notification.recipientRole := RoleTeacher;
               Notification.type := quiz_majority_complete;
               Notification.title :=
                 ("Majority Completion: " +:+ TeacherQuiz.title quiz)%string;
               Notification.quizId := Some id;
               Notification.score := None;
               Notification.status := "completed"; Notification.isRead := false;
               Notification.createdAt := now |})
        else db
    | None => db
    end
  else db.

(** STEP 4: an abandoned quiz is recorded as an attempt with score 0. *)
Definition recordAbandoned (db : Db) (now : Z) (id userId : string)
    (quiz : TeacherQuiz.t) (timeTaken : Z) : Db :=
  let db1 := createResult db (fun rid =>
    {| QuizResult._id := rid; QuizResult.userId := userId; QuizResult.quizId := id;
       QuizResult.score := Some 0; QuizResult.correctAnswers := 0;
       QuizResult.totalQuestions := Z.of_nat (length (TeacherQuiz.questions quiz));
       QuizResult.timeTaken := timeTaken; QuizResult.answers := [];
       QuizResult.submittedAt := now; QuizResult.abandoned := true |}) in
  createNotification db1 (fun nid =>
    {| Notification._id := nid; Notification.recipientId := userId;
       Notification.recipientRole := RoleStudent;
       Notification.type := quiz_abandoned;
       Notification.title := TeacherQuiz.title quiz;
       Notification.quizId := Some id; Notification.score := Some "0/100"%string;
       Notification.status := "abandoned"; Notification.isRead := false;
       Notification.createdAt := now |}).

(** STEPS 6 to 9 of a regular submission. *)
Definition recordSubmission (db : Db) (now : Z) (id userId : string)
    (quiz : TeacherQuiz.t) (answers : list Answer) (timeTaken : Z)
    : Js.Num * Z * Db :=
  let results := grade 0 (TeacherQuiz.questions quiz) answers in
  let correctAnswers := countCorrect results in
  let total := Z.of_nat (length (TeacherQuiz.questions quiz)) in
  let score := scoreOf correctAnswers total in
  let db1 := createResult db (fun rid =>
    {| QuizResult._id := rid; QuizResult.userId := userId; QuizResult.quizId := id;
       QuizResult.score := score; QuizResult.correctAnswers := correctAnswers;
       QuizResult.totalQuestions := total; QuizResult.timeTaken := timeTaken;
       QuizResult.answers := results; QuizResult.submittedAt := now;
       QuizResult.abandoned := false |}) in
  let db2 := notifySubmission db1 now userId id quiz score in
  let db3 := emailSubmission db2 userId quiz in
  let db4 := emailSubmission db3 userId quiz in
  (score, correctAnswers, checkMajority db4 now id quiz).

(** The handler: [id] is the route parameter, [userId] the authenticated
    user, [answers] the array of the request body.  Every reading of the
    clock in one call gives [now]. *)
Definition run (db : Db) (now : Z) (id userId : string)
    (answers : list Answer) (timeTaken : Z) (abandonedQuiz : bool)
    : SubmitResponse * Db :=
  match findQuiz db id with
  | None => (QuizNotFound, db)
  | Some quiz =>
      match recentSubmission db now userId id with
      | Some prior => (AlreadySubmitted prior, db)
      | None =>
          let attempts := existingAttempts db userId id in
          let limit := TeacherQuiz.maxAttempts quiz in
          if limit <=? attempts then (AttemptsExhausted attempts limit, db)
          else if abandonedQuiz then
            (AttemptRecorded (attempts + 1) limit,
             recordAbandoned db now id userId quiz timeTaken)
          else if negb (TeacherQuiz.isCurrentlyActive quiz now) then
            (NotAvailable (TeacherQuiz.getTimeStatus quiz now), db)
          else
            let '(score, correctAnswers, db') :=
              recordSubmission db now id userId quiz answers timeTaken in
            (Submitted score correctAnswers
               (Z.of_nat (length (TeacherQuiz.questions quiz)))
               (attempts + 1) limit (Z.max 0 (limit - (attempts + 1))),
             db')
      end
  end.

End submitQuizAnswers.

(** ** The notification controller *)

Module NotificationController.

Record Deduplicated := {
  uniqueNotifications : list Notification.t;
  duplicateIds : list nat
}.

(** The first branch of the loop:
    [type === 'quiz_assigned' && quizId && status !== 'graded']. *)
Definition isAssignment (n : Notification.t) : bool :=
  bool_decide (Notification.type n = quiz_assigned)
  && bool_decide (is_Some (Notification.quizId n))
  && negb (String.eqb (Notification.status n) "graded").

(** The second branch:
    [(type === 'quiz_graded' || (type === 'quiz_assigned' && status === 'graded')) && quizId]. *)
Definition isSubmission (n : Notification.t) : bool :=
  (bool_decide (Notification.type n = quiz_graded)
   || (bool_decide (Notification.type n = quiz_assigned)
       && String.eqb (Notification.status n) "graded"))
  && bool_decide (is_Some (Notification.quizId n)).

Definition quizIdStr (n : Notification.t) : string :=
  Js.str (Notification.quizId n).

(** [`${quizId}_${score || 'no-score'}`] *)
Definition submissionKey (n : Notification.t) : string :=
  (quizIdStr n +:+ "_" +:+
   (if Js.truthy (Notification.score n) then Js.str (Notification.score n)
    else "no-score"))%string.

Definition trackDuplicate (n : Notification.t) (ids : list nat) : list nat :=
  if Notification.isRead n then ids else Notification._id n :: ids.

(** The [for ... of] loop, with the two [Map]s as arguments; the pushes
    of the source build the two lists front to back. *)
Fixpoint dedupLoop (seenQuizAssignments seenQuizSubmissions : gmap string nat)
    (notifications : list Notification.t) : list Notification.t * list nat :=
  match notifications with
  | [] => ([], [])
  | notification :: rest =>
      if isAssignment notification then
        match seenQuizAssignments !! quizIdStr notification with
        | None =>
            let '(u, d) :=
              dedupLoop (<[quizIdStr notification := Notification._id notification]>
                           seenQuizAssignments)
                        seenQuizSubmissions rest in
            (notification :: u, d)
        | Some _ =>
            let '(u, d) := dedupLoop seenQuizAssignments seenQuizSubmissions rest in
            (u, trackDuplicate notification d)
        end
      else if isSubmission notification then
        match seenQuizSubmissions !! submissionKey notification with
        | None =>
            let '(u, d) :=
              dedupLoop seenQuizAssignments
                        (<[submissionKey notification := Notification._id notification]>
                           seenQuizSubmissions)
                        rest in
            (notification :: u, d)
        | Some _ =>
            let '(u, d) := dedupLoop seenQuizAssignments seenQuizSubmissions rest in
            (u, trackDuplicate notification d)
        end
      else
        let '(u, d) := dedupLoop seenQuizAssignments seenQuizSubmissions rest in
        (notification :: u, d)
  end.

Definition deduplicateNotifications (notifications : list Notification.t)
    : Deduplicated :=
  let '(u, d) := dedupLoop ∅ ∅ notifications in
  {| uniqueNotifications := u; duplicateIds := d |}.

(** [user?.notificationSettings?.inAppNotifications ?? true] *)
Definition inAppNotificationsEnabled (db : Db) (userId : string) : bool :=
  match findAnyUser db userId with
  | Some user =>
      match Account.notificationSettings user with
      | Some s => default true (Account.inAppNotifications s)
      | None => true
      end
  | None => true
  end.

(** [Notification.updateMany({ _id: { $in: ids } }, { $set: { isRead: true } })] *)
Definition markDuplicatesRead (db : Db) (ids : list nat) : Db :=
  setNotifications db
    (List.map (fun n => if bool_decide (Notification._id n ∈ ids)
                        then Notification.markRead n else n)
              (notifications db))
    (nextId db).

Definition newerFirst (a b : Notification.t) : Prop :=
  Notification.createdAt b <= Notification.createdAt a.

#[global] Instance newerFirst_dec a b : Decision (newerFirst a b).
Proof. unfold newerFirst. apply _. Defined.

Record NotificationList := {
  listed : list Notification.t;
  unreadCount : Z
}.

(** [getNotifications]; [unreadOnly] is [filter === 'unread'].  The
    order of equal [createdAt] values, which the store leaves open, is
    that of the merge sort. *)
Definition getNotifications (db : Db) (userId : string) (unreadOnly : bool)
    : NotificationList * Db :=
  if negb (inAppNotificationsEnabled db userId)
  then ({| listed := []; unreadCount := 0 |}, db)
  else
    let found :=
      List.filter
        (fun n => bool_decide (Notification.recipientId n = userId)
                  && (negb unreadOnly || negb (Notification.isRead n)))
        (notifications db) in
    let page := take 50 (merge_sort newerFirst found) in
    let r := deduplicateNotifications page in
    let db' := match duplicateIds r with
               | [] => db
               | ids => markDuplicatesRead db ids
               end in
    ({| listed := uniqueNotifications r;
        unreadCount :=
          Z.of_nat (length (List.filter (fun n => negb (Notification.isRead n))
                                        (uniqueNotifications r))) |},
     db').

(** [getUnreadCount] *)
Definition getUnreadCount (db : Db) (userId : string) : Z * Db :=
  if negb (inAppNotificationsEnabled db userId)
  then (0, db)
  else
    let found :=
      List.filter
        (fun n => bool_decide (Notification.recipientId n = userId)
                  && negb (Notification.isRead n))
        (notifications db) in
    let r := deduplicateNotifications found in
    let db' := match duplicateIds r with
               | [] => db
               | ids => markDuplicatesRead db ids
               end in
    (Z.of_nat (length (uniqueNotifications r)), db').

(** *** [createQuizNotification] *)

Record QuizData := {
  title : string;
  subject : option string;
  semester : option string;
  academicYear : option Z
}.

Inductive DispatchResult :=
  | Created (count : Z)
  | SkippedExisting (count : Z)
  | NoStudentsFound.

(** [Notification.countDocuments({ quizId, type: 'quiz_assigned' })] *)
Definition existingNotifications (db : Db) (quizId : string) : Z :=
  Z.of_nat (length (List.filter
    (fun n => bool_decide (Notification.quizId n = Some quizId)
              && bool_decide (Notification.type n = quiz_assigned))
    (notifications db))).

(** [yearStrings[parseInt(quizData.academicYear)]] *)
Definition yearStrings (y : Z) : option string :=
  if y =? 1 then Some "1st year"%string
  else if y =? 2 then Some "2nd year"%string
  else if y =? 3 then Some "3rd year"%string
  else if y =? 4 then Some "4th year"%string
  else None.

(** The filter on students; a falsy semester or year (unset, [""], 0)
    and a year outside 1..4 put no constraint. *)
Definition matchesFilter (data : QuizData) (s : Account.t) : bool :=
  (if Js.truthy (semester data)
   then bool_decide (Account.semester s = semester data) else true)
  && match academicYear data with
     | Some y =>
         if y =? 0 then true
         else match yearStrings y with
              | Some ys => bool_decide (Account.year s = Some ys)
              | None => true
              end
     | None => true
     end.

(** [student.notificationSettings?.emailNotifications ?? true] *)
Definition emailNotificationsEnabled (student : Account.t) : bool :=
  match Account.notificationSettings student with
  | Some s => default true (Account.emailNotifications s)
  | None => true
  end.

Definition assignmentFor (quizId : string) (data : QuizData) (now : Z)
    (student : Account.t) (nid : nat) : Notification.t :=
  {| Notification._id := nid; Notification.recipientId := Account._id student;
     Notification.recipientRole := RoleStudent;
     Notification.type := quiz_assigned;
     Notification.title := title data;
     Notification.quizId := Some quizId; Notification.score := None;
     Notification.status := "pending"; Notification.isRead := false;
     Notification.createdAt := now |}.

(** [Notification.insertMany(notifications)] *)
Definition insertMany (db : Db) (quizId : string) (data : QuizData) (now : Z)
    (sts : list Account.t) : Db :=
  foldl (fun d s => createNotification d (assignmentFor quizId data now s)) db sts.

Definition emailStudent (data : QuizData) (db : Db) (student : Account.t) : Db :=
  if emailNotificationsEnabled student && Js.truthy (Account.email student)
  then sendEmailNotification db (Account._id student)
         (Js.str (Account.email student)) QuizAssignedMail (title data)
  else db.

(** [createQuizNotification(quizId, quizData, teacherName)]; the teacher's
    name only enters the description. *)
Definition createQuizNotification (db : Db) (now : Z) (quizId : string)
    (quizData : QuizData) : DispatchResult * Db :=
  let existing := existingNotifications db quizId in
  if 0 <? existing then (SkippedExisting existing, db)
  else
    let sts := List.filter (matchesFilter quizData) (students db) in
    match sts with
    | [] => (NoStudentsFound, db)
    | _ =>
        let db1 := insertMany db quizId quizData now sts in
        let db2 := foldl (emailStudent quizData) db1 sts in
        (Created (Z.of_nat (length sts)), db2)
    end.

End NotificationController.

(** ** Scheduling a quiz (teacherController.js, [scheduleQuiz])

    The cohort fields of the quiz document and its expiry date, which only
    queries and the clean-up read, are left out. *)

Module scheduleQuiz.

Record Body := {
  scheduleDate : option Z;
  startTime : option string;
  endTime : option string;
  dueDate : option Z;
  semester : option string;
  academicYear : option Z;
  maxAttempts : option Z
}.

Inductive Response :=
  | MissingScheduleData
  | InvalidSemester
  | NoSuchQuiz
  | SaveFailed
  | ScheduledOk (notificationsSent : Z).

Definition validSemester (s : option string) : bool :=
  negb (Js.truthy s)
  || String.eqb (Js.str s) "1st semester" || String.eqb (Js.str s) "2nd semester".

Definition findQuiz (db : Db) (id : string) : option TeacherQuiz.t :=
  List.find (fun q => bool_decide (TeacherQuiz._id q = id)
                      && negb (TeacherQuiz.isDeleted q))
            (quizzes db).

(** The assignments to the quiz document before [quiz.save()]. *)
Definition update (q : TeacherQuiz.t) (b : Body) : TeacherQuiz.t :=
  {| TeacherQuiz._id := TeacherQuiz._id q;
     TeacherQuiz.teacherId := TeacherQuiz.teacherId q;
     TeacherQuiz.title := TeacherQuiz.title q;
     TeacherQuiz.subject := TeacherQuiz.subject q;
     TeacherQuiz.maxAttempts :=
       match maxAttempts b with
       | Some n => if n =? 0 then TeacherQuiz.maxAttempts q else n
       | None => TeacherQuiz.maxAttempts q
       end;
     TeacherQuiz.questions := TeacherQuiz.questions q;
     TeacherQuiz.isScheduled := true;
     TeacherQuiz.scheduleDate := scheduleDate b;
     TeacherQuiz.startTime := startTime b;
     TeacherQuiz.endTime := endTime b;
     TeacherQuiz.dueDate :=
       match dueDate b with
       | Some d => Some d
       | None => TeacherQuiz.dueDate q
       end;
     TeacherQuiz.status := Scheduled;
     TeacherQuiz.isDeleted := TeacherQuiz.isDeleted q |}.

(** The validation that [quiz.save()] runs before it writes.  Of the
    fields that the handler assigns, status is set to a member of its enum,
    semester was checked above, and maxAttempts has the schema's
    [enum: [1, 2, 3, 99]] (models/teacherQuiz.js). *)
Definition validMaxAttempts (n : Z) : bool :=
  (n =? 1) || (n =? 2) || (n =? 3) || (n =? 99).

Definition save (db : Db) (q : TeacherQuiz.t) : Db :=
  setQuizzes db
    (List.map (fun q0 => if bool_decide (TeacherQuiz._id q0 = TeacherQuiz._id q)
                         then q else q0)
              (quizzes db)).

(** [notificationResult.count || 0] *)
Definition countOf (r : NotificationController.DispatchResult) : Z :=
  match r with
  | NotificationController.Created n | NotificationController.SkippedExisting n => n
  | NotificationController.NoStudentsFound => 0
  end.

(** The teacher's own in-app notification; it has the type quiz_assigned
    and the quiz's identifier. *)
Definition notifyTeacher (db : Db) (now : Z) (q : TeacherQuiz.t) : Db :=
  createNotification db (fun nid =>
    {| Notification._id := nid;
       Notification.recipientId := TeacherQuiz.teacherId q;
       Notification.recipientRole := RoleTeacher;
       Notification.type := quiz_assigned;
       Notification.title := ("Quiz Shared: " +:+ TeacherQuiz.title q)%string;
       Notification.quizId := Some (TeacherQuiz._id q);
       Notification.score := None;
       Notification.status := "completed"; Notification.isRead := false;
       Notification.createdAt := now |}).

Definition emailTeacher (db : Db) (q : TeacherQuiz.t) : Db :=
  match findById (teachers db) (TeacherQuiz.teacherId q) with
  | Some teacher =>
      if Js.truthy (Account.email teacher)
      then sendEmailNotification db (TeacherQuiz.teacherId q)
             (Js.str (Account.email teacher)) QuizSharedMail (TeacherQuiz.title q)
      else db
  | None => db
  end.

(** The handler.  A validation error of [quiz.save()] is thrown before
    anything is written; the catch block answers 500 ([SaveFailed]). *)
Definition run (db : Db) (now : Z) (id : string) (b : Body) : Response * Db :=
  if negb (bool_decide (is_Some (scheduleDate b)) && Js.truthy (startTime b)
           && Js.truthy (endTime b))
  then (MissingScheduleData, db)
  else if negb (validSemester (semester b)) then (InvalidSemester, db)
  else
    match findQuiz db id with
    | None => (NoSuchQuiz, db)
    | Some q0 =>
        let quiz := update q0 b in
        if negb (validMaxAttempts (TeacherQuiz.maxAttempts quiz))
        then (SaveFailed, db)
        else
        let db1 := save db quiz in
        let '(notificationResult, db2) :=
          NotificationController.createQuizNotification db1 now (TeacherQuiz._id quiz)
            {| NotificationController.title := TeacherQuiz.title quiz;
               NotificationController.subject := Some (TeacherQuiz.subject quiz);
               NotificationController.semester := semester b;
               NotificationController.academicYear := academicYear b |} in
        let db3 := notifyTeacher db2 now quiz in
        let db4 := emailTeacher db3 quiz in
        (ScheduledOk (countOf notificationResult), db4)
    end.

End scheduleQuiz.

(** ** Deleting a quiz (teacherController.js, [deleteQuiz],
    [permanentDeleteQuiz], [getQuizById]) *)

(** [TeacherQuiz.findOne({ _id: id, isDeleted: false })] *)
Definition getQuizById (db : Db) (id : string) : option TeacherQuiz.t :=
  scheduleQuiz.findQuiz db id.

(** [Notification.deleteMany({ quizId: id })]: the store without the
    notifications of the quiz, and [deletedCount]. *)
Definition notificationsOfQuiz (db : Db) (id : string) : list Notification.t :=
  List.filter (fun n => bool_decide (Notification.quizId n = Some id)) (notifications db).

Definition deleteNotificationsOfQuiz (db : Db) (id : string) : Db :=
  setNotifications db
    (List.filter (fun n => negb (bool_decide (Notification.quizId n = Some id)))
                 (notifications db))
    (nextId db).

Module deleteQuiz.

Inductive Response :=
  | NotFound
  | Deleted (deletedNotifications : Z).

(** [quiz.isDeleted = true] *)
Definition markDeleted (q : TeacherQuiz.t) : TeacherQuiz.t :=
  {| TeacherQuiz._id := TeacherQuiz._id q;
     TeacherQuiz.teacherId := TeacherQuiz.teacherId q;
     TeacherQuiz.title := TeacherQuiz.title q;
     TeacherQuiz.subject := TeacherQuiz.subject q;
     TeacherQuiz.maxAttempts := TeacherQuiz.maxAttempts q;
     TeacherQuiz.questions := TeacherQuiz.questions q;
     TeacherQuiz.isScheduled := TeacherQuiz.isScheduled q;
     TeacherQuiz.scheduleDate := TeacherQuiz.scheduleDate q;
     TeacherQuiz.startTime := TeacherQuiz.startTime q;
     TeacherQuiz.endTime := TeacherQuiz.endTime q;
     TeacherQuiz.dueDate := TeacherQuiz.dueDate q;
     TeacherQuiz.status := TeacherQuiz.status q;
     TeacherQuiz.isDeleted := true |}.

Definition run (db : Db) (id : string) : Response * Db :=
  match scheduleQuiz.findQuiz db id with
  | None => (NotFound, db)
  | Some quiz =>
      let db1 := scheduleQuiz.save db (markDeleted quiz) in
      (Deleted (Z.of_nat (length (notificationsOfQuiz db1 id))),
       deleteNotificationsOfQuiz db1 id)
  end.

End deleteQuiz.

Module permanentDeleteQuiz.

(** [TeacherQuiz.findOneAndDelete({ _id: id })]: the first document with
    the identifier is removed. *)
Fixpoint removeFirst (id : string) (qs : list TeacherQuiz.t)
    : option TeacherQuiz.t * list TeacherQuiz.t :=
  match qs with
  | [] => (None, [])
  | q :: rest =>
      if bool_decide (TeacherQuiz._id q = id) then (Some q, rest)
      else let '(r, rest') := removeFirst id rest in (r, q :: rest')
  end.

Definition run (db : Db) (id : string) : deleteQuiz.Response * Db :=
  match removeFirst id (quizzes db) with
  | (None, _) => (deleteQuiz.NotFound, db)
  | (Some _, qs) =>
      let db1 := setQuizzes db qs in
      (deleteQuiz.Deleted (Z.of_nat (length (notificationsOfQuiz db1 id))),
       deleteNotificationsOfQuiz db1 id)
  end.

End permanentDeleteQuiz.

(** ** The rest of a processed quiz of [getSharedQuizzes]: the attempts *)

Module sharedQuizAttempts.

(** [quiz.maxAttempts || 1] *)
Definition limit (q : TeacherQuiz.t) : Z :=
  if TeacherQuiz.maxAttempts q =? 0 then 1 else TeacherQuiz.maxAttempts q.

Definition attemptsUsed (db : Db) (userId : string) (q : TeacherQuiz.t) : Z :=
  submitQuizAnswers.existingAttempts db userId (TeacherQuiz._id q).

Definition canAttempt (db : Db) (userId : string) (q : TeacherQuiz.t) : bool :=
  attemptsUsed db userId q <? limit q.

Definition attemptsRemaining (db : Db) (userId : string) (q : TeacherQuiz.t) : Z :=
  Z.max 0 (limit q - attemptsUsed db userId q).

End sharedQuizAttempts.

(** ** The latest submission (teacherController.js, [getQuizSubmission]) *)

Module getQuizSubmission.

Inductive Response :=
  | NoSubmission
  | NoQuiz
  | Found (submission : QuizResult.t) (quiz : TeacherQuiz.t).

Definition laterFirst (a b : QuizResult.t) : Prop :=
  QuizResult.submittedAt b <= QuizResult.submittedAt a.

#[global] Instance laterFirst_dec a b : Decision (laterFirst a b).
Proof. unfold laterFirst. apply _. Defined.

(** [QuizResult.findOne({ quizId, userId }).sort({ submittedAt: -1 })] *)
Definition latest (db : Db) (id userId : string) : option QuizResult.t :=
  head (merge_sort laterFirst
          (List.filter (submitQuizAnswers.ofUserQuiz userId id) (quizResults db))).

Definition run (db : Db) (id userId : string) : Response :=
  match latest db id userId with
  | None => NoSubmission
  | Some submission =>
      match submitQuizAnswers.findQuiz db id with
      | None => NoQuiz
      | Some quiz => Found submission quiz
      end
  end.

End getQuizSubmission.

(** ** Reading and removing notifications (notification controller,
    [markAsRead], [markAllAsRead], [deleteNotification]) *)

(** The filter [{ _id: notificationId, recipientId: userId }]. *)
Definition ownedBy (nid : nat) (userId : string) (n : Notification.t) : bool :=
  bool_decide (Notification._id n = nid)
  && bool_decide (Notification.recipientId n = userId).

Module markAsRead.

(** [Notification.findOneAndUpdate(filter, { isRead: true }, { new: true })] *)
Fixpoint updateFirst (nid : nat) (userId : string) (ns : list Notification.t)
    : option Notification.t * list Notification.t :=
  match ns with
  | [] => (None, [])
  | n :: rest =>
      if ownedBy nid userId n
      then (Some (Notification.markRead n), Notification.markRead n :: rest)
      else let '(r, rest') := updateFirst nid userId rest in (r, n :: rest')
  end.

(** [None] is the 404 answer. *)
Definition run (db : Db) (nid : nat) (userId : string) : option Notification.t * Db :=
  let '(r, ns) := updateFirst nid userId (notifications db) in
  (r, setNotifications db ns (nextId db)).

End markAsRead.

Module markAllAsRead.

(** [Notification.updateMany({ recipientId: userId, isRead: false }, { isRead: true })] *)
Definition run (db : Db) (userId : string) : Db :=
  setNotifications db
    (List.map (fun n => if bool_decide (Notification.recipientId n = userId)
                           && negb (Notification.isRead n)
                        then Notification.markRead n else n)
              (notifications db))
    (nextId db).

End markAllAsRead.

Module deleteNotification.

(** [Notification.findOneAndDelete(filter)] *)
Fixpoint removeFirst (nid : nat) (userId : string) (ns : list Notification.t)
    : option Notification.t * list Notification.t :=
  match ns with
  | [] => (None, [])
  | n :: rest =>
      if ownedBy nid userId n then (Some n, rest)
      else let '(r, rest') := removeFirst nid userId rest in (r, n :: rest')
  end.

(** [None] is the 404 answer. *)
Definition run (db : Db) (nid : nat) (userId : string) : option Notification.t * Db :=
  let '(r, ns) := removeFirst nid userId (notifications db) in
  (r, setNotifications db ns (nextId db)).

End deleteNotification.

(** ** Clock texts: [formatTime12Hour] of the notification controller (and
    [formatTime12H] of [scheduleQuiz]) *)

Module formatTime12Hour.

Fixpoint leadingDigits (s : string) : string :=
  match s with
  | EmptyString => EmptyString
  | String c s' => if Js.isDigit c then String c (leadingDigits s') else EmptyString
  end.

(** [parseInt(s)] on a string that starts with a decimal digit, or NaN.
    Leading blanks, a sign and a radix prefix, which [parseInt] also reads,
    are outside the "HH:MM" format. *)
Definition parseInt (s : string) : Js.Num :=
  match leadingDigits s with
  | EmptyString => None
  | d => Js.digitsValue 0 d
  end.

(** A number in a template literal. *)
Definition numText (n : Js.Num) : string :=
  match n with Some z => pretty z | None => "NaN" end.

(** [hourNum === 0 ? 12 : hourNum > 12 ? hourNum - 12 : hourNum] *)
Definition displayHour (hourNum : Js.Num) : Js.Num :=
  if Js.seq hourNum (Some 0) then Some 12
  else if Js.gt hourNum (Some 12) then (fun h => h - 12) <$> hourNum
  else hourNum.

Definition period (hourNum : Js.Num) : string :=
  if Js.ge hourNum (Some 12) then "PM" else "AM".

Definition run (time24 : option string) : string :=
  if negb (Js.truthy time24) then EmptyString
  else
    let parts := Js.split (Js.str time24) in
    let hourNum := parseInt (default EmptyString (parts !! 0%nat)) in
    let minutes := default "undefined"%string (parts !! 1%nat) in
    (numText (displayHour hourNum) +:+ ":" +:+ minutes +:+ " " +:+ period hourNum)%string.

End formatTime12Hour.

(** ** Removing stored duplicates (notification controller,
    [cleanupDuplicateNotifications]) *)

Module cleanupDuplicateNotifications.

(** The [$match] stage: quiz_assigned notifications that refer to a quiz. *)
Definition matched (n : Notification.t) : bool :=
  bool_decide (Notification.type n = quiz_assigned)
  && bool_decide (is_Some (Notification.quizId n)).

(** The [_id] of the [$group] stage. *)
Definition groupKey (n : Notification.t) : string * string :=
  (Notification.recipientId n, NotificationController.quizIdStr n).

Definition inGroup (k : string * string) (n : Notification.t) : bool :=
  matched n && bool_decide (groupKey n = k).

(** The groups with [count > 1], each with its members in the order of
    the collection; the groups come in the order of their first member (the
    store leaves the order of groups open, and the deletions below do not
    depend on it). *)
Definition duplicates (ns : list Notification.t) : list (list Notification.t) :=
  List.filter (fun g => (1 <? length g)%nat)
    ((fun k => List.filter (inGroup k) ns)
       <$> remove_dups (groupKey <$> List.filter matched ns)).

(** [notifications.sort((a, b) => new Date(a.createdAt) - new Date(b.createdAt))],
    a stable sort. *)
Fixpoint insertByAge (x : Notification.t) (l : list Notification.t)
    : list Notification.t :=
  match l with
  | [] => [x]
  | y :: l' =>
      if Notification.createdAt x <=? Notification.createdAt y
      then x :: y :: l'
      else y :: insertByAge x l'
  end.

Fixpoint sortByAge (l : list Notification.t) : list Notification.t :=
  match l with
  | [] => []
  | x :: l' => insertByAge x (sortByAge l')
  end.

(** [notifications.slice(1).map(n => n._id)] *)
Definition idsToDelete (g : list Notification.t) : list nat :=
  Notification._id <$> tail (sortByAge g).

(** [Notification.deleteMany({ _id: { $in: ids } })] with its
    [deletedCount]. *)
Definition deleteMany (db : Db) (ids : list nat) : Z * Db :=
  (Z.of_nat (length (List.filter
                       (fun n => bool_decide (Notification._id n ∈ ids))
                       (notifications db))),
   setNotifications db
     (List.filter (fun n => negb (bool_decide (Notification._id n ∈ ids)))
                  (notifications db))
     (nextId db)).

(** One turn of the loop over the groups. *)
Definition step (acc : Z * Db) (g : list Notification.t) : Z * Db :=
  match idsToDelete g with
  | [] => acc
  | ids => let '(k, db') := deleteMany acc.2 ids in (acc.1 + k, db')
  end.

(** The pair of [deletedCount] and the store after the clean-up. *)
Definition run (db : Db) : Z * Db :=
  foldl step (0, db) (duplicates (notifications db)).

End cleanupDuplicateNotifications.

(** * Properties *)

(** ** Sample documents and predicates used in the statements *)

Definition sampleQuiz (day : option Z) (st et : option string) (due : option Z)
    : TeacherQuiz.t :=
  {| TeacherQuiz._id := "quiz-1"; TeacherQuiz.teacherId := "teacher-1";
     TeacherQuiz.title := "Algebra"; TeacherQuiz.subject := "Mathematics";
     TeacherQuiz.maxAttempts := 2;
     TeacherQuiz.questions :=
       [ {| TeacherQuiz.questionText := "2 + 2";
            TeacherQuiz.options :=
              [ {| TeacherQuiz.text := "3"; TeacherQuiz.isCorrect := false |};
                {| TeacherQuiz.text := "4"; TeacherQuiz.isCorrect := true |} ] |} ];
     TeacherQuiz.isScheduled := true; TeacherQuiz.scheduleDate := day;
     TeacherQuiz.startTime := st; TeacherQuiz.endTime := et;
     TeacherQuiz.dueDate := due; TeacherQuiz.status := Scheduled;
     TeacherQuiz.isDeleted := false |}.

(** Scheduled for 2025-03-10 from 09:00 to 17:00, no due date. *)
Definition quizMarch10 : TeacherQuiz.t :=
  sampleQuiz (Some (Js.dateOf 2025 3 10)) (Some "09:00"%string) (Some "17:00"%string) None.

(** The same quiz, due on 2025-03-12. *)
Definition quizDueMarch12 : TeacherQuiz.t :=
  sampleQuiz (Some (Js.dateOf 2025 3 10)) (Some "09:00"%string) (Some "17:00"%string)
             (Some (Js.dateOf 2025 3 12)).

(** The same quiz with a due date before its schedule date. *)
Definition quizDueMarch8 : TeacherQuiz.t :=
  sampleQuiz (Some (Js.dateOf 2025 3 10)) (Some "09:00"%string) (Some "17:00"%string)
             (Some (Js.dateOf 2025 3 8)).

(** A scheduled quiz with a due date and no end time. *)
Definition quizNoEndTime : TeacherQuiz.t :=
  sampleQuiz (Some (Js.dateOf 2025 3 10)) (Some "09:00"%string) None
             (Some (Js.dateOf 2025 3 12)).

(** Start and end at the same time of day. *)
Definition quizSameTime : TeacherQuiz.t :=
  sampleQuiz (Some (Js.dateOf 2025 3 10)) (Some "09:00"%string) (Some "09:00"%string) None.

(** 22:00 to 02:00 on an arbitrary schedule date. *)
Definition quizOvernight (scheduleDate : Z) : TeacherQuiz.t :=
  sampleQuiz (Some scheduleDate) (Some "22:00"%string) (Some "02:00"%string) None.

(** Accounts and stores. *)
Definition sampleStudent (id : string) (mail : option string) (inApp : option bool)
    : Account.t :=
  {| Account._id := id; Account.name := Some "Student"%string; Account.email := mail;
     Account.notificationSettings :=
       Some {| Account.emailNotifications := None;
               Account.inAppNotifications := inApp |};
     Account.semester := Some "1st semester"%string;
     Account.year := Some "1st year"%string |}.

Definition sampleTeacher : Account.t :=
  {| Account._id := "teacher-1"; Account.name := Some "Teacher"%string;
     Account.email := Some "teacher@school.example"%string;
     Account.notificationSettings := None;
     Account.semester := None; Account.year := None |}.

Definition storeOf (sts : list Account.t) (ns : list Notification.t) : Db :=
  {| users := []; students := sts; teachers := [sampleTeacher];
     quizzes := [quizMarch10]; quizResults := []; notifications := ns;
     outbox := []; nextId := 100 |}.

(** Four students with addresses, one teacher, the quiz of 2025-03-10. *)
Definition classOfFour : Db :=
  storeOf
    [ sampleStudent "student-1" (Some "s1@school.example"%string) None;
      sampleStudent "student-2" (Some "s2@school.example"%string) None;
      sampleStudent "student-3" (Some "s3@school.example"%string) None;
      sampleStudent "student-4" (Some "s4@school.example"%string) None ]
    [].

(** A class whose only student has no address on record. *)
Definition classWithoutAddress : Db :=
  storeOf [ sampleStudent "student-1" None None ] [].

Definition sampleAssigned (nid : nat) (created : Z) : Notification.t :=
  {| Notification._id := nid; Notification.recipientId := "student-1";
     Notification.recipientRole := RoleStudent; Notification.type := quiz_assigned;
     Notification.title := "Algebra"; Notification.quizId := Some "quiz-1"%string;
     Notification.score := None; Notification.status := "pending";
     Notification.isRead := false; Notification.createdAt := created |}.

(** A student who switched in-app notifications off and has two unread
    notifications for the same assignment. *)
Definition mutedStore : Db :=
  storeOf [ sampleStudent "student-1" (Some "s1@school.example"%string) (Some false) ]
          [ sampleAssigned 1 (Js.dateTime 2025 3 9 8 0);
            sampleAssigned 2 (Js.dateTime 2025 3 9 8 5) ].

Definition noon : Z := Js.dateTime 2025 3 10 12 0.

(** The given students submit the quiz one after the other, ten seconds
    apart, each choosing option 1. *)
Definition submitInTurn (db : Db) (start : Z) (ids : list string) : Db :=
  (foldl (fun '(d, t) u =>
            ((submitQuizAnswers.run d t "quiz-1" u [ANum 1] 60 false).2, t + 10000))
         (db, start) ids).1.

Definition majorityNotices (db : Db) : nat :=
  length (List.filter
    (fun n => bool_decide (Notification.type n = quiz_majority_complete)
              && bool_decide (Notification.quizId n = Some "quiz-1"%string))
    (notifications db)).

Definition majorityMails (db : Db) : nat :=
  length (List.filter (fun m => bool_decide (mailKind m = MajorityCompleteMail))
                      (outbox db)).

(** Calls of the transport with a submission confirmation for a user. *)
Definition submissionMails (db : Db) (userId : string) : nat :=
  length (List.filter
    (fun m => bool_decide (mailKind m = QuizSubmittedMail)
              && bool_decide (mailUser m = userId))
    (outbox db)).

Definition gradedNotifications (db : Db) : nat :=
  length (List.filter (fun n => bool_decide (Notification.type n = quiz_graded))
                      (notifications db)).

(** The submitter has a student record with an address. *)
Definition hasStudentAddress (db : Db) (userId : string) : bool :=
  match findById (students db) userId with
  | Some student => Js.truthy (Account.email student)
  | None => false
  end.

Definition algebraData : NotificationController.QuizData :=
  {| NotificationController.title := "Algebra";
     NotificationController.subject := Some "Mathematics"%string;
     NotificationController.semester := Some "1st semester"%string;
     NotificationController.academicYear := Some 1 |}.

Definition march10Body : scheduleQuiz.Body :=
  {| scheduleQuiz.scheduleDate := Some (Js.dateOf 2025 3 10);
     scheduleQuiz.startTime := Some "09:00"%string;
     scheduleQuiz.endTime := Some "17:00"%string;
     scheduleQuiz.dueDate := None;
     scheduleQuiz.semester := Some "1st semester"%string;
     scheduleQuiz.academicYear := Some 1;
     scheduleQuiz.maxAttempts := Some 2 |}.

(** quiz_assigned notifications of a quiz addressed to a role. *)
Definition assignedTo (role : Role) (db : Db) : nat :=
  length (List.filter
    (fun n => bool_decide (Notification.type n = quiz_assigned)
              && match Notification.recipientRole n, role with
                 | RoleStudent, RoleStudent | RoleTeacher, RoleTeacher => true
                 | _, _ => false
                 end)
    (notifications db)).

Definition exactlyOne (f : getQuizStats.Flags) : bool :=
  match getQuizStats.isUpcoming f, getQuizStats.isCurrentlyActive f,
        getQuizStats.isExpired f with
  | true, false, false | false, true, false | false, false, true => true
  | _, _, _ => false
  end.

(** A time of day on the 24-hour clock. *)
Definition clockTime (h m : Z) : Prop := 0 <= h < 24 /\ 0 <= m < 60.


Definition bucketSum (s : getQuizStats.Stats) : Z :=
  getQuizStats.drafts s + getQuizStats.scheduled s
  + getQuizStats.active s + getQuizStats.closed s.

(** The bucket a listing status belongs to. *)
Definition bump (st : QuizStatus) (s : getQuizStats.Stats) : getQuizStats.Stats :=
  match st with
  | Draft =>
      {| getQuizStats.total := getQuizStats.total s;
         getQuizStats.drafts := getQuizStats.drafts s + 1;
         getQuizStats.scheduled := getQuizStats.scheduled s;
         getQuizStats.active := getQuizStats.active s;
         getQuizStats.closed := getQuizStats.closed s |}
  | Scheduled =>
      {| getQuizStats.total := getQuizStats.total s;
         getQuizStats.drafts := getQuizStats.drafts s;
         getQuizStats.scheduled := getQuizStats.scheduled s + 1;
         getQuizStats.active := getQuizStats.active s;
         getQuizStats.closed := getQuizStats.closed s |}
  | Active =>
      {| getQuizStats.total := getQuizStats.total s;
         getQuizStats.drafts := getQuizStats.drafts s;
         getQuizStats.scheduled := getQuizStats.scheduled s;
         getQuizStats.active := getQuizStats.active s + 1;
         getQuizStats.closed := getQuizStats.closed s |}
  | Closed =>
      {| getQuizStats.total := getQuizStats.total s;
         getQuizStats.drafts := getQuizStats.drafts s;
         getQuizStats.scheduled := getQuizStats.scheduled s;
         getQuizStats.active := getQuizStats.active s;
         getQuizStats.closed := getQuizStats.closed s + 1 |}
  end.

(** The answers of [submitQuizAnswers] that record an attempt. *)
Definition isRecorded (r : SubmitResponse) : bool :=
  match r with
  | AttemptRecorded _ _ | Submitted _ _ _ _ _ _ => true
  | _ => false
  end.

Definition abandonedNotifications (db : Db) : nat :=
  length (List.filter (fun n => bool_decide (Notification.type n = quiz_abandoned))
                      (notifications db)).

(** The keys under which the kept notifications of a list were entered
    into the two maps of [deduplicateNotifications]. *)
Definition assignmentKeys (l : list Notification.t) : list string :=
  NotificationController.quizIdStr <$> List.filter NotificationController.isAssignment l.

Definition submissionKeys (l : list Notification.t) : list string :=
  NotificationController.submissionKey
    <$> List.filter (fun n => negb (NotificationController.isAssignment n)
                              && NotificationController.isSubmission n) l.

(** Neither a quiz assignment nor a quiz result. *)
Definition isOtherKind (n : Notification.t) : bool :=
  negb (NotificationController.isAssignment n)
  && negb (NotificationController.isSubmission n).

(** The notifications of the other users. *)
Definition notOf (u : string) (ns : list Notification.t) : list Notification.t :=
  List.filter (fun n => negb (bool_decide (Notification.recipientId n = u))) ns.

(** The identifiers that the clean-up collects from the given groups. *)
Definition doomed (gs : list (list Notification.t)) : list nat :=
  mjoin (cleanupDuplicateNotifications.idsToDelete <$> gs).

(** The notifications that are not collected. *)
Definition survivors (ns : list Notification.t) : list Notification.t :=
  List.filter
    (fun n => negb (bool_decide
       (Notification._id n ∈ doomed (cleanupDuplicateNotifications.duplicates ns))))
    ns.

(** One student with four notifications of the same assignment, the second
    and the third created at the same instant, the oldest. *)
Definition duplicatedStore : Db :=
  storeOf [] [ sampleAssigned 1 50; sampleAssigned 2 40;
               sampleAssigned 3 40; sampleAssigned 4 60 ].


(** A student who is sent mail on an assignment: the preference is not
    switched off and there is an address. *)
Definition mailable (s : Account.t) : bool :=
  NotificationController.emailNotificationsEnabled s && Js.truthy (Account.email s).

(** A fresh quiz_assigned notification of the given quiz. *)
Definition freshAssignment (quizId : string) (now : Z) (n : Notification.t) : Prop :=
  Notification.type n = quiz_assigned /\ Notification.quizId n = Some quizId
  /\ Notification.isRead n = false /\ Notification.createdAt n = now.

(** A class of one student who already has a quiz_graded notification for
    the quiz, created two seconds before noon, and no recorded result. *)
Definition recentlyGradedStore : Db :=
  storeOf [ sampleStudent "student-1" (Some "s1@school.example"%string) None ]
          [ {| Notification._id := 1; Notification.recipientId := "student-1";
               Notification.recipientRole := RoleStudent;
               Notification.type := quiz_graded;
               Notification.title := "Algebra";
               Notification.quizId := Some "quiz-1"%string;
               Notification.score := Some "100/100"%string;
               Notification.status := "graded"; Notification.isRead := false;
               Notification.createdAt := noon - 2000 |} ].

(** ** Status resolver *)

Ltac zcases :=
  repeat match goal with
         | |- context [?a <? ?b] => destruct (Z.ltb_spec a b)
         | |- context [?a <=? ?b] => destruct (Z.leb_spec a b)
         | |- context [?a =? ?b] => destruct (Z.eqb_spec a b)
         end;
  simpl; try reflexivity; try lia.

Lemma Day_bounds t : Js.Day t * Js.msPerDay <= t < Js.Day t * Js.msPerDay + Js.msPerDay.
Proof.
  unfold Js.Day, Js.msPerDay.
  pose proof (Z.div_mod t 86400000 ltac:(lia)) as E.
  pose proof (Z.mod_pos_bound t 86400000 ltac:(lia)). lia.
Qed.

(** On the schedule's own window the model's three statuses are decided by
    the two instants alone. *)
Lemma getTimeStatus_window q now s e :
  TeacherQuiz.hasSchedule q = true ->
  TeacherQuiz.startDateTime q = Some s ->
  TeacherQuiz.endDateTime q = Some e ->
  TeacherQuiz.getTimeStatus q now =
    if now <? s then TsUpcoming else if now <? e then TsActive else TsExpired.
Proof.
  intros H Hs He. unfold TeacherQuiz.getTimeStatus.
  rewrite H, Hs, He. simpl. zcases.
Qed.

Lemma isCurrentlyActive_window q now s e :
  TeacherQuiz.hasSchedule q = true ->
  TeacherQuiz.startDateTime q = Some s ->
  TeacherQuiz.endDateTime q = Some e ->
  TeacherQuiz.isCurrentlyActive q now = (s <=? now) && (now <? e).
Proof.
  intros H Hs He. unfold TeacherQuiz.isCurrentlyActive.
  rewrite H, Hs, He. reflexivity.
Qed.

(** With clock times and no due date the window of the model is never
    empty: the end is after the start, on the same day or on the next. *)
Lemma model_window_nonempty q d sh sm eh em :
  TeacherQuiz.scheduleDate q = Some d ->
  Js.hourMinute (Js.str (TeacherQuiz.startTime q)) = (Some sh, Some sm) ->
  Js.hourMinute (Js.str (TeacherQuiz.endTime q)) = (Some eh, Some em) ->
  clockTime sh sm -> clockTime eh em ->
  exists s e, TeacherQuiz.startDateTime q = Some s
              /\ TeacherQuiz.endDateTime q = Some e /\ s < e.
Proof.
  intros Hd Hs He [Hsh Hsm] [Heh Hem].
  unfold TeacherQuiz.startDateTime, TeacherQuiz.endDateTime.
  rewrite Hd, Hs, He. simpl.
  unfold TeacherQuiz.spansMidnight, Js.MakeDate, Js.MakeTime, Js.msPerHour,
    Js.msPerMinute, Js.msPerSecond. simpl.
  destruct (Z.ltb_spec eh sh); simpl.
  - eexists _, _. split; [reflexivity|]. split; [reflexivity|].
    unfold Js.msPerDay. lia.
  - destruct (Z.eqb_spec eh sh); simpl.
    + destruct (Z.leb_spec em sm); simpl;
        (eexists _, _; split; [reflexivity|]; split; [reflexivity|];
         unfold Js.msPerDay; lia).
    + eexists _, _. split; [reflexivity|]. split; [reflexivity|]. lia.
Qed.

(** *** End instant with a due date *)

(** The drafts page takes the day of the due date and the end time. *)
Lemma draftPage_end_dueDate_endTime q d eh em :
  TeacherQuiz.dueDate q = Some d ->
  Js.truthy (TeacherQuiz.endTime q) = true ->
  Js.hourMinute (Js.str (TeacherQuiz.endTime q)) = (eh, em) ->
  TeacherQuizDraft.endDateTime q = Js.setHours (Some d) eh em 0 0.
Proof.
  intros Hd Ht He. unfold TeacherQuizDraft.endDateTime.
  rewrite Hd, Ht, He. reflexivity.
Qed.

(** The backend listings take the end of the day of the due date, whatever
    the end time is. *)
Lemma backend_end_dueDate q d :
  TeacherQuiz.dueDate q = Some d ->
  getTeacherQuizzes.endDateTime q = endOfDay d
  /\ getQuizStats.endDateTime q = endOfDay d
  /\ getSharedQuizzes.endDateTime q = Some (endOfDay d).
Proof.
  intros Hd.
  unfold getTeacherQuizzes.endDateTime, getQuizStats.endDateTime, dueDateFirstEnd,
    getSharedQuizzes.endDateTime.
  rewrite Hd. auto.
Qed.

(** C2: with scheduleDate 2025-03-10, 09:00 to 17:00 and dueDate
    2025-03-12, the backend listings ([getTeacherQuizzes], [getQuizStats],
    [getSharedQuizzes]) end the quiz at 2025-03-12T23:59:59.999 and still
    report it active at 18:00 of that day, where the drafts page ends it at
    2025-03-12T17:00, the day of the due date at the end time, as the claim
    states. *)
Theorem C2_backend_forces_end_of_day :
  let endOfMarch12 := Js.dateTime 2025 3 12 23 59 + 59999 in
  let sixPm := Js.dateTime 2025 3 12 18 0 in
  getTeacherQuizzes.endDateTime quizDueMarch12 = Some endOfMarch12
  /\ getQuizStats.endDateTime quizDueMarch12 = Some endOfMarch12
  /\ getSharedQuizzes.endDateTime quizDueMarch12 = Some (Some endOfMarch12)
  /\ TeacherQuizDraft.endDateTime quizDueMarch12 = Some (Js.dateTime 2025 3 12 17 0)
  /\ getTeacherQuizzes.status quizDueMarch12 sixPm = Active
  /\ getQuizStats.isExpired (TeacherQuizDraft.flags quizDueMarch12 sixPm) = true.
Proof. vm_compute. repeat split. Qed.

(** *** Exhaustive and exclusive statuses *)

(** C3, as amended: for a scheduled quiz whose scheduleDate, startTime and
    endTime are all present and whose computed end is not before its
    computed start, exactly one of isUpcoming, isCurrentlyActive and
    isExpired holds at every [now], and the model's time status is one of
    upcoming, active and expired. *)
Theorem C3_exactly_one_status q now s e :
  TeacherQuiz.hasSchedule q = true ->
  TeacherQuiz.startDateTime q = Some s ->
  getQuizStats.endDateTime q = Some e ->
  s <= e ->
  exactlyOne (getQuizStats.flags q now) = true
  /\ TeacherQuiz.getTimeStatus q now <> TsUnscheduled.
Proof.
  intros H Hs He Hle. split.
  - unfold getQuizStats.flags, exactlyOne. rewrite H, Hs, He. simpl. zcases.
  - unfold TeacherQuiz.getTimeStatus. rewrite H. simpl.
    repeat case_match; discriminate.
Qed.

Lemma C3_exactly_one_status_witness :
  exactlyOne (getQuizStats.flags quizMarch10 (Js.dateTime 2025 3 10 12 0)) = true
  /\ TeacherQuiz.getTimeStatus quizMarch10 (Js.dateTime 2025 3 10 12 0) <> TsUnscheduled.
Proof.
  apply (C3_exactly_one_status quizMarch10 (Js.dateTime 2025 3 10 12 0)
           (Js.dateTime 2025 3 10 9 0) (Js.dateTime 2025 3 10 17 0)).
  - reflexivity.
  - reflexivity.
  - reflexivity.
  - vm_compute. discriminate.
Defined.

(** C3 as stated fails: a scheduled quiz due before its schedule date is
    both upcoming and expired in between, and a scheduled quiz without an
    end time has none of the three flags. *)
Lemma C3_counterexample :
  TeacherQuiz.isScheduled quizDueMarch8 = true
  /\ getQuizStats.flags quizDueMarch8 (Js.dateTime 2025 3 9 12 0)
     = {| getQuizStats.isUpcoming := true;
          getQuizStats.isCurrentlyActive := false;
          getQuizStats.isExpired := true |}
  /\ exactlyOne (getQuizStats.flags quizDueMarch8 (Js.dateTime 2025 3 9 12 0)) = false
  /\ TeacherQuiz.isScheduled quizNoEndTime = true
  /\ getQuizStats.flags quizNoEndTime (Js.dateTime 2025 3 11 12 0)
     = {| getQuizStats.isUpcoming := false;
          getQuizStats.isCurrentlyActive := false;
          getQuizStats.isExpired := false |}
  /\ exactlyOne (getQuizStats.flags quizNoEndTime (Js.dateTime 2025 3 11 12 0)) = false.
Proof. vm_compute. repeat split. Qed.

(** *** The end boundary *)

(** In the model and in the statistics the end instant itself is expired. *)
Lemma model_expired_at_end q s e :
  TeacherQuiz.hasSchedule q = true ->
  TeacherQuiz.startDateTime q = Some s ->
  TeacherQuiz.endDateTime q = Some e ->
  s <= e ->
  TeacherQuiz.getTimeStatus q e = TsExpired
  /\ TeacherQuiz.isCurrentlyActive q e = false.
Proof.
  intros H Hs He Hle.
  rewrite (getTimeStatus_window q e s e H Hs He).
  rewrite (isCurrentlyActive_window q e s e H Hs He).
  split; zcases.
Qed.

Lemma stats_expired_at_end q e :
  TeacherQuiz.hasSchedule q = true ->
  getQuizStats.endDateTime q = Some e ->
  getQuizStats.isExpired (getQuizStats.flags q e) = true
  /\ getQuizStats.isCurrentlyActive (getQuizStats.flags q e) = false.
Proof.
  intros H He. unfold getQuizStats.flags. rewrite H, He. simpl.
  split; [zcases|]. rewrite Z.ltb_irrefl. apply andb_false_r.
Qed.

(** The student listing compares with [>]: at the end instant a started
    quiz is still listed as active. *)
Lemma shared_active_at_end q s e :
  is_Some (TeacherQuiz.scheduleDate q) ->
  Js.truthy (TeacherQuiz.startTime q) = true ->
  TeacherQuiz.startDateTime q = Some s ->
  getSharedQuizzes.endDateTime q = Some (Some e) ->
  s <= e ->
  getSharedQuizzes.timeStatus q e = (TsActive, true).
Proof.
  intros Hd Ht Hs He Hle. unfold getSharedQuizzes.timeStatus.
  rewrite (bool_decide_eq_true_2 _ Hd), Ht, Hs, He. simpl.
  unfold Js.gt. simpl. rewrite Z.ltb_irrefl. zcases.
Qed.

(** C4: scheduleDate 2025-03-10, 09:00 to 17:00, no dueDate, now =
    2025-03-10T17:00, the end instant.  The model's [getTimeStatus] and
    [isCurrentlyActive] and the statistics give expired and not active, as
    the claim states; [getSharedQuizzes] gives active. *)
Theorem C4_shared_listing_active_at_end :
  let fivePm := Js.dateTime 2025 3 10 17 0 in
  TeacherQuiz.endDateTime quizMarch10 = Some fivePm
  /\ getSharedQuizzes.endDateTime quizMarch10 = Some (Some fivePm)
  /\ getSharedQuizzes.timeStatus quizMarch10 fivePm = (TsActive, true)
  /\ TeacherQuiz.getTimeStatus quizMarch10 fivePm = TsExpired
  /\ TeacherQuiz.isCurrentlyActive quizMarch10 fivePm = false
  /\ getQuizStats.isExpired (getQuizStats.flags quizMarch10 fivePm) = true.
Proof. vm_compute. repeat split. Qed.

(** *** Windows that cross midnight *)

(** In the model an end time of day at or before the start time of day
    moves the end to the next day. *)
Lemma model_end_next_day q d sh sm eh em :
  TeacherQuiz.scheduleDate q = Some d ->
  Js.hourMinute (Js.str (TeacherQuiz.startTime q)) = (Some sh, Some sm) ->
  Js.hourMinute (Js.str (TeacherQuiz.endTime q)) = (Some eh, Some em) ->
  clockTime sh sm -> clockTime eh em ->
  eh * 60 + em <= sh * 60 + sm ->
  TeacherQuiz.endDateTime q
  = Some (Js.MakeDate (Js.Day d + 1) (Js.MakeTime eh em 0 0)).
Proof.
  intros Hd Hs He [Hsh Hsm] [Heh Hem] Hle.
  unfold TeacherQuiz.endDateTime. rewrite Hd, Hs, He.
  assert (TeacherQuiz.spansMidnight (Some sh) (Some sm) (Some eh) (Some em) = true) as ->.
  { unfold TeacherQuiz.spansMidnight. simpl. zcases. }
  simpl. f_equal. unfold Js.MakeDate, Js.msPerDay. lia.
Qed.

Lemma MakeDate_next_day day time :
  Js.MakeDate day time + Js.msPerDay = Js.MakeDate (day + 1) time.
Proof. unfold Js.MakeDate. lia. Qed.

(** The 22:00 to 02:00 quiz on any schedule date: every path ends it at
    02:00 of the next day and has it active at 01:00 of the next day. *)
Lemma overnight_quiz_next_day d :
  let nextDay h := Js.MakeDate (Js.Day d + 1) (Js.MakeTime h 0 0 0) in
  TeacherQuiz.endDateTime (quizOvernight d) = Some (nextDay 2)
  /\ getTeacherActivities.endDateTime (quizOvernight d) = Some (nextDay 2)
  /\ TeacherQuizDraft.endDateTime (quizOvernight d) = Some (nextDay 2)
  /\ TeacherQuiz.isCurrentlyActive (quizOvernight d) (nextDay 1) = true
  /\ getTeacherActivities.actualStatus (quizOvernight d) (nextDay 1) = Active
  /\ getQuizStats.isCurrentlyActive
       (TeacherQuizDraft.flags (quizOvernight d) (nextDay 1)) = true.
Proof.
  intros nextDay.
  assert (Js.hourMinute "22:00" = (Some 22, Some 0)) as E1 by reflexivity.
  assert (Js.hourMinute "02:00" = (Some 2, Some 0)) as E2 by reflexivity.
  assert (TeacherQuiz.endDateTime (quizOvernight d) = Some (nextDay 2)) as He.
  { apply (model_end_next_day _ d 22 0 2 0); try reflexivity; unfold clockTime; lia. }
  assert (getTeacherActivities.endDateTime (quizOvernight d) = Some (nextDay 2)) as Ha.
  { unfold getTeacherActivities.endDateTime.
    simpl TeacherQuiz.startTime. simpl TeacherQuiz.endTime.
    simpl TeacherQuiz.scheduleDate. simpl Js.str. rewrite E1, E2.
    change (getTeacherActivities.spansMidnight (Some 22) (Some 0) (Some 2) (Some 0))
      with true.
    cbv iota. unfold Js.setHours, Js.addOneDay. f_equal. apply MakeDate_next_day. }
  assert (TeacherQuiz.startDateTime (quizOvernight d)
          = Some (Js.MakeDate (Js.Day d) (Js.MakeTime 22 0 0 0))) as Hs by reflexivity.
  assert (Js.MakeDate (Js.Day d) (Js.MakeTime 22 0 0 0) <= nextDay 1
          /\ nextDay 1 < nextDay 2) as [H1 H2].
  { unfold nextDay, Js.MakeDate, Js.MakeTime, Js.msPerDay,
      Js.msPerHour, Js.msPerMinute, Js.msPerSecond. lia. }
  assert (TeacherQuizDraft.endDateTime (quizOvernight d) = Some (nextDay 2)) as Hf.
  { unfold TeacherQuizDraft.endDateTime.
    change (TeacherQuiz.dueDate (quizOvernight d)) with (@None Z).
    change (Js.truthy (TeacherQuiz.endTime (quizOvernight d))) with true.
    exact He. }
  repeat split; try assumption.
  - assert (TeacherQuiz.hasSchedule (quizOvernight d) = true) as Hg by reflexivity.
    rewrite (isCurrentlyActive_window _ _ _ _ Hg Hs He). zcases.
  - unfold getTeacherActivities.actualStatus, statusOfWindow.
    change (TeacherQuiz.hasSchedule (quizOvernight d)) with true.
    rewrite Hs, Ha. simpl. zcases.
  - unfold TeacherQuizDraft.flags.
    change (TeacherQuiz.isScheduled (quizOvernight d)) with true.
    change (Js.truthy (TeacherQuiz.startTime (quizOvernight d))) with true.
    rewrite Hs, Hf. simpl. zcases.
Qed.

(** C5: start and end both at 09:00 on 2025-03-10, no dueDate.  The end
    time of day is at the start time of day, and the model moves the end to
    2025-03-11T09:00 as the claim states; [getTeacherActivities] compares the
    minutes with [<], leaves the end at 2025-03-10T09:00 and reports the
    quiz closed at 10:00 while the model has it active. *)
Theorem C5_activities_equal_times_not_advanced :
  let tenAm := Js.dateTime 2025 3 10 10 0 in
  TeacherQuiz.endDateTime quizSameTime = Some (Js.dateTime 2025 3 11 9 0)
  /\ TeacherQuizDraft.endDateTime quizSameTime = Some (Js.dateTime 2025 3 11 9 0)
  /\ getTeacherActivities.endDateTime quizSameTime = Some (Js.dateTime 2025 3 10 9 0)
  /\ TeacherQuiz.isCurrentlyActive quizSameTime tenAm = true
  /\ getTeacherActivities.actualStatus quizSameTime tenAm = Closed.
Proof. vm_compute. repeat split. Qed.

(** ** Deduplication of notifications *)

(** Run from any state of the two maps, the loop keeps its own output
    whole and finds no duplicate in it. *)
Lemma dedupLoop_output_fixed (l : list Notification.t) :
  forall seenA seenS : gmap string nat,
    NotificationController.dedupLoop seenA seenS
      (NotificationController.dedupLoop seenA seenS l).1
    = ((NotificationController.dedupLoop seenA seenS l).1, []).
Proof.
  induction l as [|n rest IH]; intros seenA seenS; [reflexivity|].
  cbn [NotificationController.dedupLoop].
  destruct (NotificationController.isAssignment n) eqn:Ha.
  - destruct (seenA !! NotificationController.quizIdStr n) eqn:Hk.
    + specialize (IH seenA seenS).
      destruct (NotificationController.dedupLoop seenA seenS rest) as [u d].
      exact IH.
    + specialize (IH (<[NotificationController.quizIdStr n := Notification._id n]> seenA)
                     seenS).
      destruct (NotificationController.dedupLoop _ seenS rest) as [u d].
      cbn [fst] in *. cbn [NotificationController.dedupLoop].
      rewrite Ha, Hk, IH. reflexivity.
  - destruct (NotificationController.isSubmission n) eqn:Hs.
    + destruct (seenS !! NotificationController.submissionKey n) eqn:Hk.
      * specialize (IH seenA seenS).
        destruct (NotificationController.dedupLoop seenA seenS rest) as [u d].
        exact IH.
      * specialize (IH seenA
          (<[NotificationController.submissionKey n := Notification._id n]> seenS)).
        destruct (NotificationController.dedupLoop seenA _ rest) as [u d].
        cbn [fst] in *. cbn [NotificationController.dedupLoop].
        rewrite Ha, Hs, Hk, IH. reflexivity.
    + specialize (IH seenA seenS).
      destruct (NotificationController.dedupLoop seenA seenS rest) as [u d].
      cbn [fst] in *. cbn [NotificationController.dedupLoop].
      rewrite Ha, Hs, IH. reflexivity.
Qed.

(** C8: deduplicating the unique list that deduplication returned gives
    the same list and no duplicate identifiers, for every input list. *)
Theorem C8_deduplicate_idempotent (l : list Notification.t) :
  NotificationController.deduplicateNotifications
    (NotificationController.uniqueNotifications
       (NotificationController.deduplicateNotifications l))
  = {| NotificationController.uniqueNotifications :=
         NotificationController.uniqueNotifications
           (NotificationController.deduplicateNotifications l);
       NotificationController.duplicateIds := [] |}.
Proof.
  unfold NotificationController.deduplicateNotifications.
  pose proof (dedupLoop_output_fixed l ∅ ∅) as H.
  destruct (NotificationController.dedupLoop ∅ ∅ l) as [u d].
  cbn [fst NotificationController.uniqueNotifications] in *.
  rewrite H. reflexivity.
Qed.

(** ** Disabled in-app notifications *)

(** C10: when the stored inAppNotifications setting of the user is false,
    [getNotifications] answers with an empty list and unreadCount 0,
    [getUnreadCount] answers 0, and both leave the store as it was, so no
    duplicate is marked read. *)
Theorem C10_disabled_in_app_reads_nothing
    (db : Db) (userId : string) (unreadOnly : bool)
    (user : Account.t) (settings : Account.NotificationSettings) :
  findAnyUser db userId = Some user ->
  Account.notificationSettings user = Some settings ->
  Account.inAppNotifications settings = Some false ->
  NotificationController.getNotifications db userId unreadOnly
  = ({| NotificationController.listed := [];
        NotificationController.unreadCount := 0 |}, db)
  /\ NotificationController.getUnreadCount db userId = (0, db).
Proof.
  intros Hu Hs Hf.
  assert (NotificationController.inAppNotificationsEnabled db userId = false) as Hoff.
  { unfold NotificationController.inAppNotificationsEnabled.
    rewrite Hu, Hs, Hf. reflexivity. }
  unfold NotificationController.getNotifications, NotificationController.getUnreadCount.
  rewrite Hoff. split; reflexivity.
Qed.

(** ** The attempt limit *)

(** C7: for a quiz with maxAttempts 2 and a user with two recorded results
    for it, none of them in the last 5 seconds, a further submission,
    abandoned or not, is answered with the attempts-exhausted error carrying
    the counts 2 and 2, and the store is unchanged: no result is written. *)
Theorem C7_third_attempt_rejected
    (db : Db) (now : Z) (id userId : string) (answers : list Answer)
    (timeTaken : Z) (abandonedQuiz : bool) (quiz : TeacherQuiz.t) :
  submitQuizAnswers.findQuiz db id = Some quiz ->
  TeacherQuiz.maxAttempts quiz = 2 ->
  submitQuizAnswers.existingAttempts db userId id = 2 ->
  submitQuizAnswers.recentSubmission db now userId id = None ->
  submitQuizAnswers.run db now id userId answers timeTaken abandonedQuiz
  = (AttemptsExhausted 2 2, db).
Proof.
  intros Hq Hmax Hcount Hrecent.
  unfold submitQuizAnswers.run.
  rewrite Hq, Hrecent, Hmax, Hcount. reflexivity.
Qed.

(** ** Dispatch of quiz assignments *)

Lemma existingNotifications_nonneg db quizId :
  0 <= NotificationController.existingNotifications db quizId.
Proof. unfold NotificationController.existingNotifications. lia. Qed.

Lemma existingNotifications_ext db db' quizId :
  notifications db = notifications db' ->
  NotificationController.existingNotifications db quizId
  = NotificationController.existingNotifications db' quizId.
Proof. unfold NotificationController.existingNotifications. intros ->. reflexivity. Qed.

Lemma existingNotifications_create db quizId data now student :
  NotificationController.existingNotifications
    (createNotification db (NotificationController.assignmentFor quizId data now student))
    quizId
  = NotificationController.existingNotifications db quizId + 1.
Proof.
  unfold NotificationController.existingNotifications, createNotification.
  cbn [notifications setNotifications].
  rewrite List.filter_app, length_app. cbn [List.filter].
  cbn [NotificationController.assignmentFor Notification.quizId Notification.type].
  rewrite !bool_decide_eq_true_2 by reflexivity.
  cbn [andb length]. lia.
Qed.

Lemma existingNotifications_insertMany sts :
  forall db quizId data now,
    NotificationController.existingNotifications
      (NotificationController.insertMany db quizId data now sts) quizId
    = NotificationController.existingNotifications db quizId + Z.of_nat (length sts).
Proof.
  induction sts as [|s sts IH]; intros db quizId data now.
  - cbn. lia.
  - unfold NotificationController.insertMany in *. cbn [foldl].
    rewrite IH, existingNotifications_create. cbn [length]. lia.
Qed.

Lemma sendEmailNotification_notifications db u a k t :
  notifications (sendEmailNotification db u a k t) = notifications db.
Proof. unfold sendEmailNotification. destruct (findAnyUser db u); reflexivity. Qed.

Lemma emailStudents_notifications data sts :
  forall db,
    notifications (foldl (NotificationController.emailStudent data) db sts)
    = notifications db.
Proof.
  induction sts as [|s sts IH]; intros db; [reflexivity|].
  cbn [foldl]. rewrite IH. unfold NotificationController.emailStudent.
  destruct (_ && _); [apply sendEmailNotification_notifications | reflexivity].
Qed.

(** The guard: with an existing quiz_assigned notification for the quiz
    nothing is created or sent. *)
Lemma createQuizNotification_skips db now quizId data :
  0 < NotificationController.existingNotifications db quizId ->
  NotificationController.createQuizNotification db now quizId data
  = (NotificationController.SkippedExisting
       (NotificationController.existingNotifications db quizId), db).
Proof.
  intros H. unfold NotificationController.createQuizNotification.
  destruct (Z.ltb_spec 0 (NotificationController.existingNotifications db quizId));
    [reflexivity | lia].
Qed.

(** A call that created [n] notifications leaves exactly [n] quiz_assigned
    notifications for the quiz. *)
Lemma createQuizNotification_created db now quizId data n db' :
  NotificationController.createQuizNotification db now quizId data
  = (NotificationController.Created n, db') ->
  0 < n /\ NotificationController.existingNotifications db' quizId = n.
Proof.
  unfold NotificationController.createQuizNotification.
  destruct (Z.ltb_spec 0 (NotificationController.existingNotifications db quizId))
    as [|Hz]; [discriminate|].
  destruct (List.filter _ (students db)) as [|s sts] eqn:Hsts; [discriminate|].
  remember (s :: sts) as matched eqn:Hm.
  intros H. apply pair_equal_spec in H as [Hn <-]. injection Hn as <-.
  split; [subst matched; cbn [length]; lia|].
  rewrite (existingNotifications_ext _
             (NotificationController.insertMany db quizId data now matched))
    by apply emailStudents_notifications.
  rewrite existingNotifications_insertMany.
  pose proof (existingNotifications_nonneg db quizId). lia.
Qed.

Lemma insertMany_length sts :
  forall db quizId data now,
    length (notifications (NotificationController.insertMany db quizId data now sts))
    = (length (notifications db) + length sts)%nat.
Proof.
  induction sts as [|s sts IH]; intros db quizId data now.
  - cbn. lia.
  - unfold NotificationController.insertMany in *. cbn [foldl].
    rewrite IH. unfold createNotification. cbn [notifications setNotifications].
    rewrite length_app. cbn [length]. lia.
Qed.

(** The first call for a quiz without quiz_assigned notifications and with
    matching students creates one notification per matching student. *)
Lemma createQuizNotification_creates db now quizId data :
  NotificationController.existingNotifications db quizId = 0 ->
  List.filter (NotificationController.matchesFilter data) (students db) <> [] ->
  let matching :=
    List.filter (NotificationController.matchesFilter data) (students db) in
  let first := NotificationController.createQuizNotification db now quizId data in
  first.1 = NotificationController.Created (Z.of_nat (length matching))
  /\ NotificationController.existingNotifications first.2 quizId
     = Z.of_nat (length matching)
  /\ length (notifications first.2)
     = (length (notifications db) + length matching)%nat.
Proof.
  intros Hz Hne. cbn zeta.
  unfold NotificationController.createQuizNotification. rewrite Hz. cbn [Z.ltb Z.compare].
  destruct (List.filter _ (students db)) as [|s sts] eqn:Hsts; [congruence|].
  cbn [fst snd]. split; [reflexivity|].
  rewrite (existingNotifications_ext _
             (NotificationController.insertMany db quizId data now (s :: sts)))
    by apply emailStudents_notifications.
  rewrite existingNotifications_insertMany, Hz, emailStudents_notifications,
    insertMany_length.
  split; [lia | reflexivity].
Qed.

(** C6: the guard of [createQuizNotification] and its repetition.  If a
    quiz_assigned notification exists for the quiz, the call returns
    success with skipped and the count of the existing ones and leaves
    notifications and outbox as they were.  Of two calls in a row for the
    same quiz the second changes nothing, and when the first created [n]
    notifications the second reports skipped with that count [n].  The
    first call does create: for a quiz without quiz_assigned notifications
    and with students matching its semester and year, it answers with the
    number of matching students as the count; afterwards the quiz has that
    many quiz_assigned notifications and the store that many notifications
    more, and the second call reports skipped with this count and adds
    none. *)
Theorem C6_dispatch_idempotent
    (db : Db) (now now' : Z) (quizId : string) (data : NotificationController.QuizData) :
  (0 < NotificationController.existingNotifications db quizId ->
   NotificationController.createQuizNotification db now quizId data
   = (NotificationController.SkippedExisting
        (NotificationController.existingNotifications db quizId), db))
  /\ (let first := NotificationController.createQuizNotification db now quizId data in
      let second :=
        NotificationController.createQuizNotification first.2 now' quizId data in
      second.2 = first.2
      /\ forall n, first.1 = NotificationController.Created n ->
                   second.1 = NotificationController.SkippedExisting n)
  /\ (let matching :=
        List.filter (NotificationController.matchesFilter data) (students db) in
      let first := NotificationController.createQuizNotification db now quizId data in
      NotificationController.existingNotifications db quizId = 0 ->
      matching <> [] ->
      first.1 = NotificationController.Created (Z.of_nat (length matching))
      /\ NotificationController.existingNotifications first.2 quizId
         = Z.of_nat (length matching)
      /\ length (notifications first.2)
         = (length (notifications db) + length matching)%nat
      /\ NotificationController.createQuizNotification first.2 now' quizId data
         = (NotificationController.SkippedExisting (Z.of_nat (length matching)),
            first.2)).
Proof.
  split; [apply createQuizNotification_skips|]. split.
  - cbn zeta.
    destruct (NotificationController.createQuizNotification db now quizId data)
      as [r1 db1] eqn:H1.
    cbn [fst snd]. destruct r1 as [n | n | ].
    + destruct (createQuizNotification_created _ _ _ _ _ _ H1) as [Hpos Hn].
      rewrite createQuizNotification_skips by lia. cbn [fst snd].
      split; [reflexivity|]. intros m [= <-]. rewrite Hn. reflexivity.
    + assert (db1 = db /\ 0 < NotificationController.existingNotifications db quizId)
        as [-> Hpos].
      { revert H1. unfold NotificationController.createQuizNotification.
        destruct (Z.ltb_spec 0 (NotificationController.existingNotifications db quizId)).
        - intros [= <- <-]. auto.
        - destruct (List.filter _ (students db)); discriminate. }
      rewrite createQuizNotification_skips by assumption.
      split; [reflexivity | discriminate].
    + revert H1. unfold NotificationController.createQuizNotification.
      destruct (0 <? _) eqn:Hz; [discriminate|].
      destruct (List.filter _ (students db)) eqn:Hsts; [|discriminate].
      intros [= <-]. rewrite Hz, Hsts. split; [reflexivity | discriminate].
  - cbn zeta. intros Hz Hne.
    destruct (createQuizNotification_creates db now quizId data Hz Hne)
      as (F1 & F2 & F3).
    split; [exact F1|]. split; [exact F2|]. split; [exact F3|].
    assert (Hpos : 0 < NotificationController.existingNotifications
                         (NotificationController.createQuizNotification
                            db now quizId data).2 quizId).
    { rewrite F2.
      destruct (List.filter (NotificationController.matchesFilter data) (students db));
        [congruence | cbn [length]; lia]. }
    rewrite (createQuizNotification_skips _ now' quizId data Hpos), F2. reflexivity.
Qed.

Lemma C6_dispatch_idempotent_witness :
  let first :=
    NotificationController.createQuizNotification classOfFour noon "quiz-1" algebraData in
  first.1 = NotificationController.Created 4
  /\ NotificationController.existingNotifications first.2 "quiz-1" = 4
  /\ length (notifications first.2) = 4%nat
  /\ NotificationController.createQuizNotification first.2 (noon + 1000) "quiz-1"
       algebraData
     = (NotificationController.SkippedExisting 4, first.2).
Proof.
  intros first.
  apply (proj2 (proj2 (C6_dispatch_idempotent classOfFour noon (noon + 1000)
                         "quiz-1" algebraData))).
  - vm_compute. reflexivity.
  - vm_compute. discriminate.
Defined.

(** Through [scheduleQuiz] the guard holds the students' notifications at
    four, while every call adds a quiz_assigned notification for the teacher,
    which the next call counts with the others. *)
Example scheduleQuiz_twice :
  let '(r1, db1) := scheduleQuiz.run classOfFour noon "quiz-1" march10Body in
  let '(r2, db2) := scheduleQuiz.run db1 (noon + 1000) "quiz-1" march10Body in
  r1 = scheduleQuiz.ScheduledOk 4 /\ r2 = scheduleQuiz.ScheduledOk 5
  /\ assignedTo RoleStudent db1 = 4%nat /\ assignedTo RoleStudent db2 = 4%nat
  /\ assignedTo RoleTeacher db1 = 1%nat /\ assignedTo RoleTeacher db2 = 2%nat.
Proof. vm_compute. repeat split. Qed.

Lemma C7_third_attempt_rejected_witness :
  let twice := submitInTurn classOfFour noon ["student-1"; "student-1"]%string in
  submitQuizAnswers.run twice (noon + 20000) "quiz-1" "student-1" [ANum 1] 60 false
  = (AttemptsExhausted 2 2, twice).
Proof.
  intros twice.
  apply (C7_third_attempt_rejected twice (noon + 20000) "quiz-1" "student-1"
           [ANum 1] 60 false quizMarch10); vm_compute; reflexivity.
Defined.

Lemma C10_disabled_in_app_reads_nothing_witness :
  NotificationController.getNotifications mutedStore "student-1" false
  = ({| NotificationController.listed := [];
        NotificationController.unreadCount := 0 |}, mutedStore)
  /\ NotificationController.getUnreadCount mutedStore "student-1" = (0, mutedStore).
Proof.
  apply (C10_disabled_in_app_reads_nothing mutedStore "student-1" false
           (sampleStudent "student-1" (Some "s1@school.example"%string) (Some false))
           {| Account.emailNotifications := None;
              Account.inAppNotifications := Some false |});
    reflexivity.
Defined.

(** With in-app notifications on, the same store is read with its
    duplicate collapsed and marked read. *)
Example enabled_read_marks_duplicate :
  let db := storeOf [ sampleStudent "student-1" None None ] (notifications mutedStore) in
  let '(r, db') := NotificationController.getNotifications db "student-1" false in
  (Notification._id <$> NotificationController.listed r) = [2%nat]
  /\ NotificationController.unreadCount r = 1
  /\ (Notification.isRead <$> notifications db') = [true; false].
Proof. vm_compute. repeat split. Qed.

(** ** Majority completion *)

(** In a class of at most 100 students the test of STEP 9 holds at every
    count from one half of the class on. *)
Lemma majorityTest_from_half_on (c t : Z) :
  0 < t <= 100 -> t <= 2 * c ->
  submitQuizAnswers.majorityTest c t = true.
Proof.
  intros Ht Hc. unfold submitQuizAnswers.majorityTest,
    submitQuizAnswers.roundPercent, submitQuizAnswers.majorityThreshold.
  destruct (Z.eqb_spec t 0); [lia|].
  assert (50 <= (200 * c + t) / (2 * t)).
  { apply Z.div_le_lower_bound; lia. }
  assert ((200 * (c - 1) + t) / (2 * t) + 1 <= (200 * c + t) / (2 * t)).
  { replace ((200 * (c - 1) + t) / (2 * t) + 1)
      with ((200 * (c - 1) + t + 1 * (2 * t)) / (2 * t))
      by (rewrite Z.div_add by lia; reflexivity).
    apply Z.div_le_mono; lia. }
  apply andb_true_intro. split; [apply Z.leb_le | apply Z.ltb_lt]; lia.
Qed.

(** C1: four students, one quiz, each student submits once.  The second
    submission brings the completion to 50% and notifies the teacher; the
    third (75%) and the fourth (100%) notify the teacher again, so three
    notifications and three mails go out where the claim allows one. *)
Theorem C1_majority_notice_repeats :
  let after k :=
    submitInTurn classOfFour noon
      (take k ["student-1"; "student-2"; "student-3"; "student-4"]%string) in
  (majorityNotices <$> (after <$> [1; 2; 3; 4]%nat)) = [0; 1; 2; 3]%nat
  /\ (majorityMails <$> (after <$> [1; 2; 3; 4]%nat)) = [0; 1; 2; 3]%nat
  /\ Z.of_nat (length (quizResults (after 4%nat))) = 4.
Proof. vm_compute. repeat split. Qed.

(** ** Confirmation of a submission *)

Lemma findAnyUser_student db u st :
  findById (students db) u = Some st -> is_Some (findAnyUser db u).
Proof.
  intros H. unfold findAnyUser.
  destruct (findById (users db) u); [eauto|]. rewrite H. eauto.
Qed.

(** One mail block: one call of the transport for a submitter with a
    student record and an address, none otherwise; nothing else changes. *)
Lemma emailSubmission_effect db u quiz :
  submissionMails (submitQuizAnswers.emailSubmission db u quiz) u
  = (submissionMails db u + (if hasStudentAddress db u then 1 else 0))%nat
  /\ students (submitQuizAnswers.emailSubmission db u quiz) = students db
  /\ notifications (submitQuizAnswers.emailSubmission db u quiz) = notifications db.
Proof.
  unfold submitQuizAnswers.emailSubmission, hasStudentAddress.
  destruct (findById (students db) u) as [st|] eqn:Hst; [|repeat split; lia].
  destruct (Js.truthy (Account.email st)); [|repeat split; lia].
  unfold sendEmailNotification.
  destruct (findAnyUser_student _ _ _ Hst) as [x ->].
  repeat split. unfold submissionMails. cbn [outbox setOutbox].
  rewrite List.filter_app, length_app. cbn [List.filter mailKind mailUser].
  rewrite !bool_decide_eq_true_2 by reflexivity. reflexivity.
Qed.

Lemma notifySubmission_effect db now u id quiz score :
  outbox (submitQuizAnswers.notifySubmission db now u id quiz score) = outbox db
  /\ students (submitQuizAnswers.notifySubmission db now u id quiz score) = students db
  /\ gradedNotifications (submitQuizAnswers.notifySubmission db now u id quiz score)
     = (gradedNotifications db
        + (if submitQuizAnswers.recentGraded db now u id then 0 else 1))%nat.
Proof.
  unfold submitQuizAnswers.notifySubmission.
  destruct (submitQuizAnswers.recentGraded db now u id); [repeat split; lia|].
  repeat split. unfold gradedNotifications, createNotification.
  cbn [notifications setNotifications].
  rewrite List.filter_app, length_app. cbn [List.filter Notification.type].
  rewrite bool_decide_eq_true_2 by reflexivity. cbn [length]. lia.
Qed.

Lemma checkMajority_effect db now id quiz u :
  submissionMails (submitQuizAnswers.checkMajority db now id quiz) u = submissionMails db u
  /\ gradedNotifications (submitQuizAnswers.checkMajority db now id quiz)
     = gradedNotifications db.
Proof.
  unfold submitQuizAnswers.checkMajority.
  destruct (submitQuizAnswers.majorityTest _ _); [|split; reflexivity].
  destruct (findById (teachers db) (TeacherQuiz.teacherId quiz)) as [teacher|];
    [|split; reflexivity].
  destruct (Js.truthy (Account.email teacher)); [|split; reflexivity].
  unfold sendEmailNotification, submissionMails, gradedNotifications, createNotification.
  destruct (findAnyUser db (TeacherQuiz.teacherId quiz));
    cbn [outbox notifications setOutbox setNotifications];
    rewrite ?List.filter_app, ?length_app;
    cbn [List.filter Notification.type mailKind];
    change (bool_decide (quiz_majority_complete = quiz_graded)) with false;
    change (bool_decide (MajorityCompleteMail = QuizSubmittedMail)) with false;
    cbn [andb length]; split; lia.
Qed.

(** STEPS 6 to 9 together. *)
Lemma recordSubmission_effect db now id u quiz answers timeTaken :
  let db' := (submitQuizAnswers.recordSubmission db now id u quiz answers timeTaken).2 in
  submissionMails db' u
  = (submissionMails db u + (if hasStudentAddress db u then 2 else 0))%nat
  /\ gradedNotifications db'
     = (gradedNotifications db
        + (if submitQuizAnswers.recentGraded db now u id then 0 else 1))%nat.
Proof.
  unfold submitQuizAnswers.recordSubmission. cbn [snd].
  set (db1 := submitQuizAnswers.createResult db _).
  set (db2 := submitQuizAnswers.notifySubmission db1 now u id quiz _).
  set (db3 := submitQuizAnswers.emailSubmission db2 u quiz).
  set (db4 := submitQuizAnswers.emailSubmission db3 u quiz).
  destruct (checkMajority_effect db4 now id quiz u) as [-> ->].
  destruct (emailSubmission_effect db3 u quiz) as (M4 & S4 & N4).
  destruct (emailSubmission_effect db2 u quiz) as (M3 & S3 & N3).
  destruct (notifySubmission_effect db1 now u id quiz
              (submitQuizAnswers.scoreOf
                 (submitQuizAnswers.countCorrect
                    (submitQuizAnswers.grade 0 (TeacherQuiz.questions quiz) answers))
                 (Z.of_nat (length (TeacherQuiz.questions quiz)))))
    as (O2 & S2 & G2).
  fold db2 in O2, S2, G2. fold db3 in M3, S3, N3. fold db4 in M4, S4, N4.
  assert (hasStudentAddress db3 u = hasStudentAddress db u
          /\ hasStudentAddress db2 u = hasStudentAddress db u) as [A3 A2].
  { unfold hasStudentAddress. rewrite S3, S2. split; reflexivity. }
  assert (submissionMails db2 u = submissionMails db u) as M2.
  { unfold submissionMails. rewrite O2. reflexivity. }
  assert (gradedNotifications db4 = gradedNotifications db2) as G4.
  { unfold gradedNotifications. rewrite N4, N3. reflexivity. }
  split.
  - rewrite M4, M3, A3, A2, M2. destruct (hasStudentAddress db u); lia.
  - rewrite G4. exact G2.
Qed.

(** C9, as amended: a successful regular submission calls the mail
    transport twice with the confirmation when the submitter has a student
    record with an address, and not at all otherwise; it creates exactly one
    quiz_graded notification, or none at all when a quiz_graded notification
    of the user for the quiz was created in the last 5 seconds. *)
Theorem C9_confirmation_mail_twice
    (db db' : Db) (now : Z) (id userId : string) (answers : list Answer)
    (timeTaken : Z) (score : Js.Num) (c t a m r : Z) :
  submitQuizAnswers.run db now id userId answers timeTaken false
  = (Submitted score c t a m r, db') ->
  submissionMails db' userId
  = (submissionMails db userId + (if hasStudentAddress db userId then 2 else 0))%nat
  /\ gradedNotifications db'
     = (gradedNotifications db
        + (if submitQuizAnswers.recentGraded db now userId id then 0 else 1))%nat.
Proof.
  unfold submitQuizAnswers.run.
  destruct (submitQuizAnswers.findQuiz db id) as [quiz|]; [|discriminate].
  destruct (submitQuizAnswers.recentSubmission db now userId id); [discriminate|].
  destruct (_ <=? _); [discriminate|]. cbn [negb].
  destruct (negb (TeacherQuiz.isCurrentlyActive quiz now)); [discriminate|].
  pose proof (recordSubmission_effect db now id userId quiz answers timeTaken) as H.
  destruct (submitQuizAnswers.recordSubmission db now id userId quiz answers timeTaken)
    as [[s0 c0] db0].
  cbn [snd] in H. intros [= _ _ _ _ _ _ <-]. exact H.
Qed.

Lemma C9_confirmation_mail_twice_witness :
  let db' := (submitQuizAnswers.run classOfFour noon "quiz-1" "student-1"
                [ANum 1] 60 false).2 in
  submissionMails db' "student-1" = 2%nat
  /\ gradedNotifications db' = 1%nat.
Proof.
  intros db'.
  apply (C9_confirmation_mail_twice classOfFour db' noon "quiz-1" "student-1"
           [ANum 1] 60 (Some 100) 1 1 1 2 1).
  vm_compute. reflexivity.
Defined.

(** The guard of the in-app confirmation: with a quiz_graded notification
    of the user for the quiz from the last 5 seconds the submission is
    accepted, both mails go out and no notification is added. *)
Example recent_confirmation_is_not_repeated :
  let '(response, db') :=
    submitQuizAnswers.run recentlyGradedStore noon "quiz-1" "student-1"
      [ANum 1] 60 false in
  response = Submitted (Some 100) 1 1 1 2 1
  /\ submissionMails db' "student-1" = 2%nat
  /\ gradedNotifications recentlyGradedStore = 1%nat
  /\ gradedNotifications db' = 1%nat.
Proof. vm_compute. repeat split. Qed.

(** C9 as stated fails: the only student of this class has no address on
    record; the submission succeeds and no confirmation mail is sent. *)
Lemma C9_counterexample :
  let '(response, db') :=
    submitQuizAnswers.run classWithoutAddress noon "quiz-1" "student-1"
      [ANum 1] 60 false in
  response = Submitted (Some 100) 1 1 1 2 1
  /\ submissionMails db' "student-1" = 0%nat.
Proof. vm_compute. split; reflexivity. Qed.

(** ** Further checks of the resolver *)

(** The quiz of 2025-03-10, 09:00 to 17:00, through its day. *)
Example march10_through_the_day :
  (TeacherQuiz.getTimeStatus quizMarch10 <$>
     [Js.dateTime 2025 3 10 8 59; Js.dateTime 2025 3 10 9 0;
      Js.dateTime 2025 3 10 12 0; Js.dateTime 2025 3 10 16 59;
      Js.dateTime 2025 3 10 17 0])
  = [TsUpcoming; TsActive; TsActive; TsActive; TsExpired].
Proof. vm_compute. reflexivity. Qed.

(** An unscheduled quiz keeps its stored status in the listings and has no
    time status. *)
Lemma unscheduled_keeps_stored_status q now :
  TeacherQuiz.isScheduled q = false ->
  getTeacherQuizzes.status q now = TeacherQuiz.status q
  /\ getTeacherActivities.actualStatus q now = TeacherQuiz.status q
  /\ TeacherQuiz.getTimeStatus q now = TsUnscheduled
  /\ TeacherQuiz.isCurrentlyActive q now = false.
Proof.
  intros H.
  assert (TeacherQuiz.hasSchedule q = false) as Hg.
  { unfold TeacherQuiz.hasSchedule. rewrite H. reflexivity. }
  unfold getTeacherQuizzes.status, getTeacherActivities.actualStatus,
    TeacherQuiz.getTimeStatus, TeacherQuiz.isCurrentlyActive.
  rewrite Hg. repeat split.
Qed.

(** A time string that is not of the form "HH:MM" makes the window
    invalid: the quiz is then neither upcoming nor active. *)
Example malformed_time_is_expired :
  TeacherQuiz.getTimeStatus
    (sampleQuiz (Some (Js.dateOf 2025 3 10)) (Some "nine"%string) (Some "17:00"%string) None)
    noon
  = TsExpired.
Proof. vm_compute. reflexivity. Qed.

(** * Further properties of the code *)

(** ** The model's two status methods *)

Lemma lt_excludes_ge (a b : option Z) : Js.lt a b = true -> Js.ge a b = false.
Proof.
  destruct a as [x|], b as [y|]; cbn; try discriminate.
  intros H. apply Z.ltb_lt in H. apply Z.leb_gt. exact H.
Qed.

Lemma isCurrentlyActive_getTimeStatus (q : TeacherQuiz.t) (now : Z) :
  TeacherQuiz.isCurrentlyActive q now = true
  <-> TeacherQuiz.getTimeStatus q now = TsActive.
Proof.
  unfold TeacherQuiz.isCurrentlyActive, TeacherQuiz.getTimeStatus.
  destruct (TeacherQuiz.hasSchedule q); cbn [negb]; [|split; discriminate].
  destruct (Js.lt (Some now) (TeacherQuiz.startDateTime q)) eqn:Hlt.
  - rewrite (lt_excludes_ge _ _ Hlt). cbn. split; discriminate.
  - destruct (Js.ge (Some now) (TeacherQuiz.startDateTime q)
              && Js.lt (Some now) (TeacherQuiz.endDateTime q));
      split; (reflexivity || discriminate).
Qed.

(** X1: [isCurrentlyActive] holds exactly when [getTimeStatus] is active,
    for every quiz and instant, also with missing or malformed schedule
    fields. *)
Theorem X1_active_iff_time_status (q : TeacherQuiz.t) (now : Z) :
  TeacherQuiz.isCurrentlyActive q now = true
  <-> TeacherQuiz.getTimeStatus q now = TsActive.
Proof. exact (isCurrentlyActive_getTimeStatus q now). Qed.



(** X3: on a server whose local time is UTC, the zone that this embedding
    fixes for [setHours] and [setDate], so that every local day has 24
    hours: with times of day on the 24-hour clock (and no regard to a due
    date, which the model's methods do not read) the window of
    [isCurrentlyActive] starts on the schedule date, is never empty and
    never longer than 24 hours.  In a zone with daylight saving the code's
    window can be an hour longer or shorter across a change of the clock;
    the statement does not cover that. *)
Theorem X3_model_window_within_a_day
    (q : TeacherQuiz.t) (d sh sm eh em : Z) :
  TeacherQuiz.scheduleDate q = Some d ->
  Js.hourMinute (Js.str (TeacherQuiz.startTime q)) = (Some sh, Some sm) ->
  Js.hourMinute (Js.str (TeacherQuiz.endTime q)) = (Some eh, Some em) ->
  clockTime sh sm -> clockTime eh em ->
  exists s e,
    TeacherQuiz.startDateTime q = Some s /\ TeacherQuiz.endDateTime q = Some e
    /\ Js.Day s = Js.Day d /\ s < e <= s + Js.msPerDay.
Proof.
  intros Hd Hs He [Hsh Hsm] [Heh Hem].
  unfold TeacherQuiz.startDateTime, TeacherQuiz.endDateTime.
  rewrite Hd, Hs, He. cbn [Js.setHours].
  exists (Js.MakeDate (Js.Day d) (Js.MakeTime sh sm 0 0)).
  assert (Js.Day (Js.MakeDate (Js.Day d) (Js.MakeTime sh sm 0 0)) = Js.Day d) as HD.
  { unfold Js.Day at 1, Js.MakeDate, Js.MakeTime, Js.msPerDay, Js.msPerHour,
      Js.msPerMinute, Js.msPerSecond.
    symmetry. apply (Z.div_unique _ _ _ (sh * 3600000 + sm * 60000 + 0 * 1000 + 0)); lia. }
  unfold TeacherQuiz.spansMidnight. cbn [Js.lt Js.seq Js.le].
  destruct (Z.ltb_spec eh sh); cbn [orb andb Js.addOneDay].
  - eexists. repeat split; try reflexivity; try exact HD;
      unfold Js.MakeDate, Js.MakeTime, Js.msPerDay, Js.msPerHour, Js.msPerMinute,
        Js.msPerSecond; lia.
  - destruct (Z.eqb_spec eh sh); cbn [orb andb].
    + destruct (Z.leb_spec em sm); cbn [Js.addOneDay];
        (eexists; repeat split; try reflexivity; try exact HD;
         unfold Js.MakeDate, Js.MakeTime, Js.msPerDay, Js.msPerHour, Js.msPerMinute,
           Js.msPerSecond; lia).
    + eexists. repeat split; try reflexivity; try exact HD;
        unfold Js.MakeDate, Js.MakeTime, Js.msPerDay, Js.msPerHour, Js.msPerMinute,
          Js.msPerSecond; lia.
Qed.

Lemma X3_model_window_within_a_day_witness :
  exists s e,
    TeacherQuiz.startDateTime quizSameTime = Some s
    /\ TeacherQuiz.endDateTime quizSameTime = Some e
    /\ Js.Day s = Js.Day (Js.dateOf 2025 3 10) /\ s < e <= s + Js.msPerDay.
Proof.
  apply (X3_model_window_within_a_day quizSameTime (Js.dateOf 2025 3 10) 9 0 9 0);
    try reflexivity; unfold clockTime; lia.
Defined.

(** ** Listings and statistics *)

Lemma count_step q now s :
  getQuizStats.total (getQuizStats.count q now s) = getQuizStats.total s
  /\ bucketSum s <= bucketSum (getQuizStats.count q now s) <= bucketSum s + 1.
Proof.
  unfold getQuizStats.count, bucketSum.
  destruct (TeacherQuiz.isScheduled q).
  - destruct (getQuizStats.isUpcoming _); [cbn; lia|].
    destruct (getQuizStats.isCurrentlyActive _); [cbn; lia|].
    destruct (getQuizStats.isExpired _); cbn; lia.
  - destruct (TeacherQuiz.status q); cbn; lia.
Qed.

Lemma count_fold l now :
  forall s,
    getQuizStats.total (foldl (fun s q => getQuizStats.count q now s) s l)
    = getQuizStats.total s
    /\ bucketSum (foldl (fun s q => getQuizStats.count q now s) s l)
       <= bucketSum s + Z.of_nat (length l).
Proof.
  induction l as [|q l IH]; intros s; cbn [foldl length]; [lia|].
  destruct (IH (getQuizStats.count q now s)) as [Ht Hb].
  destruct (count_step q now s) as [Ht' Hb']. lia.
Qed.

(** X4: in the statistics of [getQuizStats] the total is the number of
    quizzes, and drafts, scheduled, active and closed together never count
    more than the total: no quiz is counted in two buckets. *)
Theorem X4_stats_buckets_within_total (allQuizzes : list TeacherQuiz.t) (now : Z) :
  getQuizStats.total (getQuizStats.formattedStats allQuizzes now)
  = Z.of_nat (length allQuizzes)
  /\ bucketSum (getQuizStats.formattedStats allQuizzes now)
     <= getQuizStats.total (getQuizStats.formattedStats allQuizzes now).
Proof.
  unfold getQuizStats.formattedStats.
  destruct (count_fold allQuizzes now
              {| getQuizStats.total := Z.of_nat (length allQuizzes);
                 getQuizStats.drafts := 0; getQuizStats.scheduled := 0;
                 getQuizStats.active := 0; getQuizStats.closed := 0 |}) as [Ht Hb].
  rewrite Ht. unfold bucketSum in *.
  cbn [getQuizStats.total getQuizStats.drafts getQuizStats.scheduled
       getQuizStats.active getQuizStats.closed] in *.
  split; [reflexivity | lia].
Qed.

(** X5: a quiz that is not scheduled, or that is scheduled with all its
    fields and valid instants, is counted by [getQuizStats] in the bucket of
    the status that [getTeacherQuizzes] lists for it at the same instant. *)
Theorem X5_stats_count_the_listed_status
    (q : TeacherQuiz.t) (now : Z) (st : getQuizStats.Stats) :
  TeacherQuiz.isScheduled q = false
  \/ (TeacherQuiz.hasSchedule q = true
      /\ is_Some (TeacherQuiz.startDateTime q)
      /\ is_Some (getQuizStats.endDateTime q)) ->
  getQuizStats.count q now st = bump (getTeacherQuizzes.status q now) st.
Proof.
  intros [Hu | (Hg & [s Hs] & [e He])].
  - unfold getQuizStats.count, getTeacherQuizzes.status, TeacherQuiz.hasSchedule.
    rewrite Hu. cbn. destruct (TeacherQuiz.status q); reflexivity.
  - assert (TeacherQuiz.isScheduled q = true) as Hsch.
    { unfold TeacherQuiz.hasSchedule in Hg.
      destruct (TeacherQuiz.isScheduled q); [reflexivity | discriminate]. }
    unfold getQuizStats.count, getQuizStats.flags, getTeacherQuizzes.status,
      statusOfWindow.
    unfold getTeacherQuizzes.endDateTime, getQuizStats.endDateTime in *.
    rewrite Hsch, Hg, Hs, He. cbn. zcases.
Qed.

Lemma X5_stats_count_the_listed_status_witness :
  getQuizStats.count quizDueMarch12 noon
    {| getQuizStats.total := 1; getQuizStats.drafts := 0; getQuizStats.scheduled := 0;
       getQuizStats.active := 0; getQuizStats.closed := 0 |}
  = bump (getTeacherQuizzes.status quizDueMarch12 noon)
      {| getQuizStats.total := 1; getQuizStats.drafts := 0; getQuizStats.scheduled := 0;
         getQuizStats.active := 0; getQuizStats.closed := 0 |}.
Proof.
  apply (X5_stats_count_the_listed_status quizDueMarch12 noon).
  right. vm_compute. repeat split; eexists; reflexivity.
Defined.

(** X6: the time status that [getSharedQuizzes] computes for the entry of
    a quiz.  For a quiz without a due date, at every instant at which the
    model's [isCurrentlyActive] holds (the test of [submitQuizAnswers]) the
    computed entry has timeStatus active and isCurrentlyActive true.  Which
    quizzes the handler selects for its list (scheduled, not deleted, of the
    student's cohort) is not part of the statement: a soft-deleted quiz
    meets the hypotheses and is not listed. *)
Theorem X6_entry_of_submittable_quiz_is_active (q : TeacherQuiz.t) (now : Z) :
  TeacherQuiz.dueDate q = None ->
  TeacherQuiz.isCurrentlyActive q now = true ->
  getSharedQuizzes.timeStatus q now = (TsActive, true).
Proof.
  intros Hdue Hact. unfold TeacherQuiz.isCurrentlyActive in Hact.
  destruct (TeacherQuiz.hasSchedule q) eqn:Hg; [|discriminate]. cbn [negb] in Hact.
  apply andb_prop in Hact as [Hge Hlt].
  unfold TeacherQuiz.hasSchedule in Hg.
  apply andb_prop in Hg as [Hg Het]. apply andb_prop in Hg as [Hg Hst].
  apply andb_prop in Hg as [_ Hsd].
  unfold getSharedQuizzes.timeStatus, getSharedQuizzes.endDateTime.
  rewrite Hsd, Hst, Hdue, Het. cbn [andb].
  destruct (Js.lt (Some now) (TeacherQuiz.startDateTime q)) eqn:Hup.
  { rewrite (lt_excludes_ge _ _ Hup) in Hge. discriminate. }
  assert (Js.gt (Some now) (TeacherQuiz.endDateTime q) = false) as ->.
  { unfold Js.gt. destruct (TeacherQuiz.endDateTime q) as [e|]; cbn in *;
      [|reflexivity]. apply Z.ltb_lt in Hlt. apply Z.ltb_ge. lia. }
  reflexivity.
Qed.

Lemma X6_entry_of_submittable_quiz_is_active_witness :
  getSharedQuizzes.timeStatus quizMarch10 noon = (TsActive, true).
Proof.
  apply (X6_entry_of_submittable_quiz_is_active quizMarch10 noon); reflexivity.
Defined.

(** ** Attempts *)

Lemma notify_mail_keep_results db now u id quiz score :
  quizResults (submitQuizAnswers.notifySubmission db now u id quiz score) = quizResults db
  /\ quizResults (submitQuizAnswers.emailSubmission db u quiz) = quizResults db
  /\ quizResults (submitQuizAnswers.checkMajority db now id quiz) = quizResults db
  /\ quizzes (submitQuizAnswers.notifySubmission db now u id quiz score) = quizzes db
  /\ quizzes (submitQuizAnswers.emailSubmission db u quiz) = quizzes db
  /\ quizzes (submitQuizAnswers.checkMajority db now id quiz) = quizzes db.
Proof.
  unfold submitQuizAnswers.notifySubmission, submitQuizAnswers.emailSubmission,
    submitQuizAnswers.checkMajority, sendEmailNotification, createNotification.
  repeat split; repeat case_match; reflexivity.
Qed.

(** What a recording call adds to the results. *)
Lemma recordAbandoned_results db now id u quiz timeTaken :
  exists r,
    quizResults (submitQuizAnswers.recordAbandoned db now id u quiz timeTaken)
    = quizResults db ++ [r]
    /\ QuizResult.userId r = u /\ QuizResult.quizId r = id
    /\ QuizResult.submittedAt r = now
    /\ quizzes (submitQuizAnswers.recordAbandoned db now id u quiz timeTaken)
       = quizzes db.
Proof.
  unfold submitQuizAnswers.recordAbandoned, submitQuizAnswers.createResult,
    createNotification.
  eexists. cbn. repeat split.
Qed.

Lemma recordSubmission_results db now id u quiz answers timeTaken :
  exists r,
    quizResults (submitQuizAnswers.recordSubmission db now id u quiz answers timeTaken).2
    = quizResults db ++ [r]
    /\ QuizResult.userId r = u /\ QuizResult.quizId r = id
    /\ QuizResult.submittedAt r = now
    /\ quizzes (submitQuizAnswers.recordSubmission db now id u quiz answers timeTaken).2
       = quizzes db.
Proof.
  unfold submitQuizAnswers.recordSubmission. cbn [snd].
  set (db1 := submitQuizAnswers.createResult db _).
  set (sc := submitQuizAnswers.scoreOf _ _).
  set (db2 := submitQuizAnswers.notifySubmission db1 now u id quiz sc).
  set (db3 := submitQuizAnswers.emailSubmission db2 u quiz).
  set (db4 := submitQuizAnswers.emailSubmission db3 u quiz).
  destruct (notify_mail_keep_results db4 now u id quiz sc) as (_ & _ & R5 & _ & _ & Q5).
  destruct (notify_mail_keep_results db3 now u id quiz sc) as (_ & R4 & _ & _ & Q4 & _).
  destruct (notify_mail_keep_results db2 now u id quiz sc) as (_ & R3 & _ & _ & Q3 & _).
  destruct (notify_mail_keep_results db1 now u id quiz sc) as (R2 & _ & _ & Q2 & _ & _).
  fold db2 in R2, Q2. fold db3 in R3, Q3. fold db4 in R4, Q4.
  rewrite R5, R4, R3, R2, Q5, Q4, Q3, Q2.
  eexists. cbn. repeat split.
Qed.

(** Every call either changes nothing, or records an attempt: it adds one
    result of the caller for the quiz, stamped with the call's instant, and
    then only below the limit. *)
Lemma run_results db now id u answers timeTaken ab r db' :
  submitQuizAnswers.run db now id u answers timeTaken ab = (r, db') ->
  quizzes db' = quizzes db
  /\ ((db' = db /\ isRecorded r = false)
      \/ exists quiz res,
           submitQuizAnswers.findQuiz db id = Some quiz
           /\ submitQuizAnswers.existingAttempts db u id < TeacherQuiz.maxAttempts quiz
           /\ quizResults db' = quizResults db ++ [res]
           /\ QuizResult.userId res = u /\ QuizResult.quizId res = id
           /\ QuizResult.submittedAt res = now
           /\ isRecorded r = true).
Proof.
  unfold submitQuizAnswers.run.
  destruct (submitQuizAnswers.findQuiz db id) as [quiz|] eqn:Hq;
    [|intros [= <- <-]; auto].
  destruct (submitQuizAnswers.recentSubmission db now u id);
    [intros [= <- <-]; auto|].
  destruct (Z.leb_spec (TeacherQuiz.maxAttempts quiz)
              (submitQuizAnswers.existingAttempts db u id)) as [|Hlt];
    [intros [= <- <-]; auto|].
  destruct ab.
  - intros [= <- <-].
    destruct (recordAbandoned_results db now id u quiz timeTaken)
      as (res & Hr & Hu & Hi & Ht & Hqs).
    split; [exact Hqs|]. right. exists quiz, res.
    repeat split; assumption.
  - destruct (negb (TeacherQuiz.isCurrentlyActive quiz now));
      [intros [= <- <-]; auto|].
    destruct (recordSubmission_results db now id u quiz answers timeTaken)
      as (res & Hr & Hu & Hi & Ht & Hqs).
    destruct (submitQuizAnswers.recordSubmission db now id u quiz answers timeTaken)
      as [[s c] db0].
    cbn [snd] in *. intros [= <- <-].
    split; [exact Hqs|]. right. exists quiz, res.
    repeat split; assumption.
Qed.

Lemma existingAttempts_snoc db db' res u id :
  quizResults db' = quizResults db ++ [res] ->
  submitQuizAnswers.existingAttempts db' u id
  = submitQuizAnswers.existingAttempts db u id
    + (if submitQuizAnswers.ofUserQuiz u id res then 1 else 0).
Proof.
  intros H. unfold submitQuizAnswers.existingAttempts.
  rewrite H, List.filter_app, length_app. cbn [List.filter].
  destruct (submitQuizAnswers.ofUserQuiz u id res); cbn [length]; lia.
Qed.

(** X7: [submitQuizAnswers] keeps the attempt limit.  After any call, for
    every user and every quiz, the number of recorded results is within the
    quiz's maxAttempts if it was before the call; abandoned attempts count. *)
Theorem X7_attempts_stay_within_limit
    (db db' : Db) (now : Z) (id u : string) (answers : list Answer)
    (timeTaken : Z) (ab : bool) (r : SubmitResponse)
    (u' id' : string) (quiz' : TeacherQuiz.t) :
  submitQuizAnswers.run db now id u answers timeTaken ab = (r, db') ->
  submitQuizAnswers.findQuiz db id' = Some quiz' ->
  submitQuizAnswers.existingAttempts db u' id' <= TeacherQuiz.maxAttempts quiz' ->
  submitQuizAnswers.findQuiz db' id' = Some quiz'
  /\ submitQuizAnswers.existingAttempts db' u' id' <= TeacherQuiz.maxAttempts quiz'.
Proof.
  intros Hrun Hq' Hle.
  destruct (run_results _ _ _ _ _ _ _ _ _ Hrun) as [Hqs Hres].
  split. { unfold submitQuizAnswers.findQuiz. rewrite Hqs. exact Hq'. }
  destruct Hres as [[-> _] | (quiz & res & Hq & Hlt & Happ & Hu & Hi & _)].
  - exact Hle.
  - rewrite (existingAttempts_snoc db db' res u' id' Happ).
    unfold submitQuizAnswers.ofUserQuiz. rewrite Hu, Hi.
    destruct (bool_decide (u = u')) eqn:Eu; cbn [andb]; [|lia].
    destruct (bool_decide (id = id')) eqn:Ei; cbn [andb]; [|lia].
    apply bool_decide_eq_true_1 in Eu, Ei. subst u' id'.
    rewrite Hq in Hq'. injection Hq' as <-. lia.
Qed.

Lemma X7_attempts_stay_within_limit_witness :
  let once := submitQuizAnswers.run classOfFour noon "quiz-1" "student-1" [ANum 1] 60 true in
  submitQuizAnswers.findQuiz once.2 "quiz-1" = Some quizMarch10
  /\ submitQuizAnswers.existingAttempts once.2 "student-1" "quiz-1" <= 2.
Proof.
  intros once.
  apply (X7_attempts_stay_within_limit classOfFour once.2 noon "quiz-1" "student-1"
           [ANum 1] 60 true once.1 "student-1" "quiz-1" quizMarch10).
  - reflexivity.
  - reflexivity.
  - vm_compute. discriminate.
Defined.




(** X9: an abandoned quiz is recorded whenever the user is below the limit
    and has no result in the last 5 seconds, whether or not the quiz is
    scheduled, started or over: the answer carries the next attempt number,
    the user's count grows by one, one quiz_abandoned notification is
    created and no mail is sent. *)
Theorem X9_abandoned_attempt_always_counts
    (db : Db) (now : Z) (id u : string) (answers : list Answer) (timeTaken : Z)
    (quiz : TeacherQuiz.t) :
  submitQuizAnswers.findQuiz db id = Some quiz ->
  submitQuizAnswers.recentSubmission db now u id = None ->
  submitQuizAnswers.existingAttempts db u id < TeacherQuiz.maxAttempts quiz ->
  let out := submitQuizAnswers.run db now id u answers timeTaken true in
  out.1 = AttemptRecorded (submitQuizAnswers.existingAttempts db u id + 1)
            (TeacherQuiz.maxAttempts quiz)
  /\ submitQuizAnswers.existingAttempts out.2 u id
     = submitQuizAnswers.existingAttempts db u id + 1
  /\ abandonedNotifications out.2 = S (abandonedNotifications db)
  /\ outbox out.2 = outbox db.
Proof.
  intros Hq Hrecent Hlt. cbn zeta. unfold submitQuizAnswers.run.
  rewrite Hq, Hrecent.
  destruct (Z.leb_spec (TeacherQuiz.maxAttempts quiz)
              (submitQuizAnswers.existingAttempts db u id)); [lia|].
  cbn [fst snd]. split; [reflexivity|].
  destruct (recordAbandoned_results db now id u quiz timeTaken)
    as (res & Hr & Hu & Hi & _ & _).
  split.
  - rewrite (existingAttempts_snoc _ _ res u id Hr).
    unfold submitQuizAnswers.ofUserQuiz.
    rewrite Hu, Hi, !bool_decide_eq_true_2 by reflexivity. reflexivity.
  - unfold submitQuizAnswers.recordAbandoned, submitQuizAnswers.createResult,
      createNotification, abandonedNotifications.
    cbn [notifications outbox setNotifications setQuizResults].
    rewrite List.filter_app, length_app. cbn [List.filter Notification.type].
    rewrite bool_decide_eq_true_2 by reflexivity. cbn [length].
    split; [lia | reflexivity].
Qed.

Lemma X9_abandoned_attempt_always_counts_witness :
  let evening := Js.dateTime 2025 3 10 20 0 in
  let out := submitQuizAnswers.run classOfFour evening "quiz-1" "student-1" [] 5 true in
  TeacherQuiz.getTimeStatus quizMarch10 evening = TsExpired
  /\ out.1 = AttemptRecorded 1 2
  /\ submitQuizAnswers.existingAttempts out.2 "student-1" "quiz-1" = 1
  /\ abandonedNotifications out.2 = 1%nat
  /\ outbox out.2 = [].
Proof.
  intros evening out. split; [reflexivity|].
  apply (X9_abandoned_attempt_always_counts classOfFour evening "quiz-1" "student-1"
           [] 5 quizMarch10).
  - reflexivity.
  - reflexivity.
  - vm_compute. reflexivity.
Defined.

(** X10: a call of [submitQuizAnswers] that does not answer with a
    recorded attempt (quiz not found, repeated click, attempts exhausted,
    quiz not available) changes nothing in the store; and the time status in
    a not-available answer is never active. *)
Theorem X10_rejected_submission_writes_nothing
    (db db' : Db) (now : Z) (id u : string) (answers : list Answer)
    (timeTaken : Z) (ab : bool) (r : SubmitResponse) :
  submitQuizAnswers.run db now id u answers timeTaken ab = (r, db') ->
  (isRecorded r = false -> db' = db)
  /\ (forall ts, r = NotAvailable ts -> ts <> TsActive).
Proof.
  intros Hrun. split.
  - intros Hno.
    destruct (run_results _ _ _ _ _ _ _ _ _ Hrun)
      as [_ [[-> _] | (quiz & res & _ & _ & _ & _ & _ & _ & Hyes)]];
      [reflexivity|]. rewrite Hno in Hyes. discriminate.
  - intros ts ->. revert Hrun. unfold submitQuizAnswers.run.
    destruct (submitQuizAnswers.findQuiz db id) as [quiz|]; [|discriminate].
    destruct (submitQuizAnswers.recentSubmission db now u id); [discriminate|].
    destruct (_ <=? _); [discriminate|].
    destruct ab; [discriminate|].
    destruct (TeacherQuiz.isCurrentlyActive quiz now) eqn:Hact; cbn [negb].
    + destruct (submitQuizAnswers.recordSubmission _ _ _ _ _ _ _) as [[? ?] ?].
      discriminate.
    + intros [= <- _] Hts. apply isCurrentlyActive_getTimeStatus in Hts.
      rewrite Hts in Hact. discriminate.
Qed.

Lemma X10_rejected_submission_writes_nothing_witness :
  let early := Js.dateTime 2025 3 10 8 0 in
  (submitQuizAnswers.run classOfFour early "quiz-1" "student-1" [ANum 1] 60 false).2
  = classOfFour.
Proof.
  intros early.
  apply (X10_rejected_submission_writes_nothing classOfFour _ early "quiz-1"
           "student-1" [ANum 1] 60 false (NotAvailable TsUpcoming));
    reflexivity.
Defined.

(** ** Grading *)

Lemma grade_facts qs answers :
  forall index,
    length (submitQuizAnswers.grade index qs answers) = length qs
    /\ 0 <= submitQuizAnswers.countCorrect (submitQuizAnswers.grade index qs answers)
       <= Z.of_nat (length qs)
    /\ (QuizResult.questionId <$> submitQuizAnswers.grade index qs answers)
       = (fun k => Z.of_nat k + 1) <$> seq index (length qs).
Proof.
  induction qs as [|question qs IH]; intros index.
  - repeat split; try reflexivity; cbn; lia.
  - destruct (IH (S index)) as (Hlen & Hc & Hids).
    cbn [submitQuizAnswers.grade length]. split; [rewrite Hlen; reflexivity|].
    split.
    + unfold submitQuizAnswers.countCorrect in *. cbn [List.filter QuizResult.isCorrect].
      destruct (submitQuizAnswers.answerMatches _ _); cbn [length]; lia.
    + cbn [fmap list_fmap seq QuizResult.questionId]. f_equal. exact Hids.
Qed.

Lemma grade_surplus qs answers extra :
  forall index,
    (index + length qs <= length answers)%nat ->
    submitQuizAnswers.grade index qs (answers ++ extra)
    = submitQuizAnswers.grade index qs answers.
Proof.
  induction qs as [|question qs IH]; intros index Hlen; [reflexivity|].
  cbn [submitQuizAnswers.grade length] in *.
  rewrite lookup_app_l by lia. rewrite IH by lia. reflexivity.
Qed.

(** X11: STEP 6 of [submitQuizAnswers] grades one row per question,
    numbered from 1, whatever the length of the submitted array; the number
    of correct answers lies between 0 and the number of questions; answers
    beyond the last question are ignored. *)
Theorem X11_one_row_per_question
    (qs : list TeacherQuiz.Question) (answers extra : list Answer) :
  length (submitQuizAnswers.grade 0 qs answers) = length qs
  /\ (QuizResult.questionId <$> submitQuizAnswers.grade 0 qs answers)
     = (fun k => Z.of_nat k + 1) <$> seq 0 (length qs)
  /\ 0 <= submitQuizAnswers.countCorrect (submitQuizAnswers.grade 0 qs answers)
     <= Z.of_nat (length qs)
  /\ ((length qs <= length answers)%nat ->
      submitQuizAnswers.grade 0 qs (answers ++ extra)
      = submitQuizAnswers.grade 0 qs answers).
Proof.
  destruct (grade_facts qs answers 0%nat) as (Hlen & Hc & Hids).
  repeat split; try assumption; try lia.
  intros H. apply grade_surplus. lia.
Qed.

Lemma X11_one_row_per_question_witness :
  submitQuizAnswers.grade 0 (TeacherQuiz.questions quizMarch10) ([ANum 1] ++ [ANum 0; ANull])
  = submitQuizAnswers.grade 0 (TeacherQuiz.questions quizMarch10) [ANum 1].
Proof.
  apply (X11_one_row_per_question (TeacherQuiz.questions quizMarch10) [ANum 1]
           [ANum 0; ANull]).
  cbn. lia.
Defined.

(** X12: an accepted submission is answered consistently: the quiz is in
    its window at that instant, the correct answers are between 0 and the
    number of questions reported as total, the attempt number is between 1
    and maxAttempts, and the remaining attempts are maxAttempts minus the
    attempt number. *)
Theorem X12_accepted_answer_is_consistent
    (db db' : Db) (now : Z) (id u : string) (answers : list Answer)
    (timeTaken : Z) (ab : bool) (score : Js.Num) (c t a m k : Z) :
  submitQuizAnswers.run db now id u answers timeTaken ab
  = (Submitted score c t a m k, db') ->
  exists quiz,
    submitQuizAnswers.findQuiz db id = Some quiz
    /\ TeacherQuiz.isCurrentlyActive quiz now = true
    /\ t = Z.of_nat (length (TeacherQuiz.questions quiz))
    /\ m = TeacherQuiz.maxAttempts quiz
    /\ 0 <= c <= t /\ 1 <= a <= m /\ k = m - a.
Proof.
  unfold submitQuizAnswers.run.
  destruct (submitQuizAnswers.findQuiz db id) as [quiz|]; [|discriminate].
  destruct (submitQuizAnswers.recentSubmission db now u id); [discriminate|].
  destruct (Z.leb_spec (TeacherQuiz.maxAttempts quiz)
              (submitQuizAnswers.existingAttempts db u id)) as [|Hlt]; [discriminate|].
  destruct ab; [discriminate|].
  destruct (TeacherQuiz.isCurrentlyActive quiz now) eqn:Hact; cbn [negb];
    [|discriminate].
  unfold submitQuizAnswers.recordSubmission.
  intros [= _ <- <- <- <- <-].
  exists quiz.
  destruct (grade_facts (TeacherQuiz.questions quiz) answers 0%nat) as (_ & Hc & _).
  assert (0 <= submitQuizAnswers.existingAttempts db u id)
    by (unfold submitQuizAnswers.existingAttempts; lia).
  repeat split; try reflexivity; try assumption; try lia.
Qed.

Lemma X12_accepted_answer_is_consistent_witness :
  exists quiz,
    submitQuizAnswers.findQuiz classOfFour "quiz-1" = Some quiz
    /\ TeacherQuiz.isCurrentlyActive quiz noon = true
    /\ 1 = Z.of_nat (length (TeacherQuiz.questions quiz))
    /\ 2 = TeacherQuiz.maxAttempts quiz
    /\ 0 <= 1 <= 1 /\ 1 <= 1 <= 2 /\ 1 = 2 - 1.
Proof.
  apply (X12_accepted_answer_is_consistent classOfFour
           (submitQuizAnswers.run classOfFour noon "quiz-1" "student-1" [ANum 1] 60 false).2
           noon "quiz-1" "student-1" [ANum 1] 60 false (Some 100)).
  reflexivity.
Defined.

(** ** The attempts shown in the student listing *)

(** X13: for a quiz with maxAttempts at least 1 the attempt fields of
    [getSharedQuizzes] foretell [submitQuizAnswers]: canAttempt holds exactly
    when attemptsRemaining is positive; when it does not hold, every
    submission is turned down without a write; when it holds, there is no
    result in the last 5 seconds and the quiz is in its window or the attempt
    is abandoned, the submission is recorded. *)
Theorem X13_can_attempt_foretells_submission
    (db : Db) (now : Z) (u : string) (q : TeacherQuiz.t)
    (answers : list Answer) (timeTaken : Z) (ab : bool) :
  submitQuizAnswers.findQuiz db (TeacherQuiz._id q) = Some q ->
  1 <= TeacherQuiz.maxAttempts q ->
  let out := submitQuizAnswers.run db now (TeacherQuiz._id q) u answers timeTaken ab in
  (sharedQuizAttempts.canAttempt db u q = true
   <-> 0 < sharedQuizAttempts.attemptsRemaining db u q)
  /\ (sharedQuizAttempts.canAttempt db u q = false ->
      isRecorded out.1 = false /\ out.2 = db)
  /\ (sharedQuizAttempts.canAttempt db u q = true ->
      submitQuizAnswers.recentSubmission db now u (TeacherQuiz._id q) = None ->
      ab = true \/ TeacherQuiz.isCurrentlyActive q now = true ->
      isRecorded out.1 = true).
Proof.
  intros Hq Hmax. cbn zeta.
  unfold sharedQuizAttempts.canAttempt, sharedQuizAttempts.attemptsRemaining,
    sharedQuizAttempts.attemptsUsed, sharedQuizAttempts.limit.
  destruct (Z.eqb_spec (TeacherQuiz.maxAttempts q) 0) as [|_]; [lia|].
  unfold submitQuizAnswers.run. rewrite Hq.
  split; [|split].
  - rewrite Z.ltb_lt. lia.
  - intros Hno. apply Z.ltb_ge in Hno.
    destruct (submitQuizAnswers.recentSubmission db now u (TeacherQuiz._id q));
      [split; reflexivity|].
    destruct (Z.leb_spec (TeacherQuiz.maxAttempts q)
                (submitQuizAnswers.existingAttempts db u (TeacherQuiz._id q)));
      [split; reflexivity | lia].
  - intros Hyes Hrecent Hopen. apply Z.ltb_lt in Hyes. rewrite Hrecent.
    destruct (Z.leb_spec (TeacherQuiz.maxAttempts q)
                (submitQuizAnswers.existingAttempts db u (TeacherQuiz._id q)));
      [lia|].
    destruct ab; [reflexivity|].
    destruct Hopen as [|Hact]; [discriminate|]. rewrite Hact. cbn [negb].
    destruct (submitQuizAnswers.recordSubmission _ _ _ _ _ _ _) as [[? ?] ?].
    reflexivity.
Qed.

Lemma X13_can_attempt_foretells_submission_witness :
  let twice := submitInTurn classOfFour noon ["student-1"; "student-1"]%string in
  let out := submitQuizAnswers.run twice (noon + 60000) "quiz-1" "student-1" [ANum 1] 60 false in
  (sharedQuizAttempts.canAttempt twice "student-1" quizMarch10 = true
   <-> 0 < sharedQuizAttempts.attemptsRemaining twice "student-1" quizMarch10)
  /\ (sharedQuizAttempts.canAttempt twice "student-1" quizMarch10 = false ->
      isRecorded out.1 = false /\ out.2 = twice)
  /\ (sharedQuizAttempts.canAttempt twice "student-1" quizMarch10 = true ->
      submitQuizAnswers.recentSubmission twice (noon + 60000) "student-1" "quiz-1" = None ->
      false = true \/ TeacherQuiz.isCurrentlyActive quizMarch10 (noon + 60000) = true ->
      isRecorded out.1 = true).
Proof.
  intros twice out.
  apply (X13_can_attempt_foretells_submission twice (noon + 60000) "student-1"
           quizMarch10 [ANum 1] 60 false).
  - reflexivity.
  - vm_compute. discriminate.
Defined.

(** ** Deleting a quiz *)

Lemma find_by_key_unique {A K} `{EqDecision K} (f : A -> K) (l : list A) (x : A) :
  NoDup (f <$> l) -> x ∈ l ->
  List.find (fun y => bool_decide (f y = f x)) l = Some x.
Proof.
  induction l as [|y l IH]; intros Hnd Hin; [inversion Hin|].
  cbn in *. apply NoDup_cons in Hnd as [Hy Hnd].
  apply elem_of_cons in Hin as [-> | Hin].
  - rewrite bool_decide_eq_true_2 by reflexivity. reflexivity.
  - rewrite bool_decide_eq_false_2; [apply IH; assumption|].
    intros E. apply Hy. rewrite E. apply list_elem_of_fmap_2. exact Hin.
Qed.

Lemma scheduleQuiz_findQuiz_Some db id quiz :
  scheduleQuiz.findQuiz db id = Some quiz ->
  quiz ∈ quizzes db /\ TeacherQuiz._id quiz = id /\ TeacherQuiz.isDeleted quiz = false.
Proof.
  unfold scheduleQuiz.findQuiz. intros H. apply List.find_some in H as [Hin Hb].
  apply andb_prop in Hb as [Hid Hdel]. apply bool_decide_eq_true_1 in Hid.
  apply negb_true_iff in Hdel. split; [apply list_elem_of_In; exact Hin | auto].
Qed.

(** After the save of the soft delete no document with the identifier is
    undeleted, and the first one is the deleted copy. *)
Lemma save_markDeleted db quiz :
  quiz ∈ quizzes db ->
  scheduleQuiz.findQuiz (scheduleQuiz.save db (deleteQuiz.markDeleted quiz))
    (TeacherQuiz._id quiz) = None
  /\ submitQuizAnswers.findQuiz (scheduleQuiz.save db (deleteQuiz.markDeleted quiz))
       (TeacherQuiz._id quiz) = Some (deleteQuiz.markDeleted quiz).
Proof.
  unfold scheduleQuiz.findQuiz, submitQuizAnswers.findQuiz, scheduleQuiz.save.
  cbn [quizzes setQuizzes deleteQuiz.markDeleted TeacherQuiz._id].
  induction (quizzes db) as [|q0 l IH]; intros Hin; [inversion Hin|].
  cbn [List.map List.find].
  destruct (bool_decide (TeacherQuiz._id q0 = TeacherQuiz._id quiz)) eqn:E.
  - cbn [TeacherQuiz._id TeacherQuiz.isDeleted].
    rewrite bool_decide_eq_true_2 by reflexivity. cbn [andb negb].
    split; [|reflexivity].
    clear. induction l as [|q1 l IH]; [reflexivity|]. cbn [List.map List.find].
    destruct (bool_decide (TeacherQuiz._id q1 = TeacherQuiz._id quiz)) eqn:E1.
    + cbn [TeacherQuiz._id TeacherQuiz.isDeleted].
      rewrite bool_decide_eq_true_2 by reflexivity. exact IH.
    + rewrite E1. exact IH.
  - rewrite E. cbn [andb]. apply IH.
    apply elem_of_cons in Hin as [-> | Hin]; [|exact Hin].
    rewrite bool_decide_eq_true_2 in E by reflexivity. discriminate.
Qed.

Lemma deleteQuiz_run_Deleted db id n db' :
  deleteQuiz.run db id = (deleteQuiz.Deleted n, db') ->
  exists quiz,
    scheduleQuiz.findQuiz db id = Some quiz
    /\ n = Z.of_nat (length (notificationsOfQuiz db id))
    /\ db' = deleteNotificationsOfQuiz
               (scheduleQuiz.save db (deleteQuiz.markDeleted quiz)) id.
Proof.
  unfold deleteQuiz.run.
  destruct (scheduleQuiz.findQuiz db id) as [quiz|]; [|discriminate].
  intros [= <- <-]. exists quiz. repeat split.
Qed.

(** X14: the soft delete of [deleteQuiz] does not stop submissions.  With
    unique quiz identifiers, [submitQuizAnswers] gives the same answer for a
    deleted quiz as it gave before the deletion, since it looks the quiz up
    without regard to isDeleted. *)
Theorem X14_deleted_quiz_still_takes_submissions
    (db db' : Db) (id : string) (n : Z) (now : Z) (u : string)
    (answers : list Answer) (timeTaken : Z) (ab : bool) :
  NoDup (TeacherQuiz._id <$> quizzes db) ->
  deleteQuiz.run db id = (deleteQuiz.Deleted n, db') ->
  (submitQuizAnswers.run db' now id u answers timeTaken ab).1
  = (submitQuizAnswers.run db now id u answers timeTaken ab).1.
Proof.
  intros Hnd Hdel.
  destruct (deleteQuiz_run_Deleted _ _ _ _ Hdel) as (quiz & Hq & _ & ->).
  destruct (scheduleQuiz_findQuiz_Some _ _ _ Hq) as (Hin & <- & _).
  destruct (save_markDeleted db quiz Hin) as [_ Hfind'].
  assert (submitQuizAnswers.findQuiz db (TeacherQuiz._id quiz) = Some quiz) as Hfind.
  { unfold submitQuizAnswers.findQuiz.
    apply (find_by_key_unique TeacherQuiz._id); assumption. }
  unfold submitQuizAnswers.run.
  change (submitQuizAnswers.findQuiz
            (deleteNotificationsOfQuiz
               (scheduleQuiz.save db (deleteQuiz.markDeleted quiz))
               (TeacherQuiz._id quiz)) (TeacherQuiz._id quiz))
    with (submitQuizAnswers.findQuiz
            (scheduleQuiz.save db (deleteQuiz.markDeleted quiz)) (TeacherQuiz._id quiz)).
  rewrite Hfind, Hfind'.
  change (submitQuizAnswers.recentSubmission (deleteNotificationsOfQuiz _ _) now u
            (TeacherQuiz._id quiz))
    with (submitQuizAnswers.recentSubmission db now u (TeacherQuiz._id quiz)).
  change (submitQuizAnswers.existingAttempts (deleteNotificationsOfQuiz _ _) u
            (TeacherQuiz._id quiz))
    with (submitQuizAnswers.existingAttempts db u (TeacherQuiz._id quiz)).
  change (TeacherQuiz.maxAttempts (deleteQuiz.markDeleted quiz))
    with (TeacherQuiz.maxAttempts quiz).
  change (TeacherQuiz.isCurrentlyActive (deleteQuiz.markDeleted quiz) now)
    with (TeacherQuiz.isCurrentlyActive quiz now).
  change (TeacherQuiz.getTimeStatus (deleteQuiz.markDeleted quiz) now)
    with (TeacherQuiz.getTimeStatus quiz now).
  destruct (submitQuizAnswers.recentSubmission db now u (TeacherQuiz._id quiz));
    [reflexivity|].
  destruct (_ <=? _); [reflexivity|].
  destruct ab; [reflexivity|].
  destruct (negb (TeacherQuiz.isCurrentlyActive quiz now)); [reflexivity|].
  unfold submitQuizAnswers.recordSubmission. reflexivity.
Qed.

Lemma X14_deleted_quiz_still_takes_submissions_witness :
  (submitQuizAnswers.run (deleteQuiz.run classOfFour "quiz-1").2 noon "quiz-1"
     "student-1" [ANum 1] 60 false).1
  = Submitted (Some 100) 1 1 1 2 1.
Proof.
  apply (X14_deleted_quiz_still_takes_submissions classOfFour
           (deleteQuiz.run classOfFour "quiz-1").2 "quiz-1" 0 noon "student-1"
           [ANum 1] 60 false).
  - apply (bool_decide_unpack _). vm_compute. exact I.
  - reflexivity.
Defined.

Lemma length_filter_split {A} (f : A -> bool) (l : list A) :
  (length (List.filter f l) + length (List.filter (fun x => negb (f x)) l))%nat
  = length l.
Proof.
  induction l as [|x l IH]; [reflexivity|]. cbn.
  destruct (f x); cbn; lia.
Qed.

Lemma filter_filter_other (ns : list Notification.t) (id id' : string) :
  id' <> id ->
  List.filter (fun n => bool_decide (Notification.quizId n = Some id'))
    (List.filter (fun n => negb (bool_decide (Notification.quizId n = Some id))) ns)
  = List.filter (fun n => bool_decide (Notification.quizId n = Some id')) ns.
Proof.
  intros Hne. induction ns as [|n ns IH]; [reflexivity|]. cbn.
  destruct (bool_decide (Notification.quizId n = Some id)) eqn:E; cbn.
  - apply bool_decide_eq_true_1 in E.
    rewrite bool_decide_eq_false_2 by (rewrite E; congruence). exact IH.
  - destruct (bool_decide (Notification.quizId n = Some id')); [f_equal|]; exact IH.
Qed.

Lemma filter_filter_same (ns : list Notification.t) (id : string) :
  List.filter (fun n => bool_decide (Notification.quizId n = Some id))
    (List.filter (fun n => negb (bool_decide (Notification.quizId n = Some id))) ns)
  = [].
Proof.
  induction ns as [|n ns IH]; [reflexivity|]. cbn.
  destruct (bool_decide (Notification.quizId n = Some id)) eqn:E; cbn;
    [|rewrite E]; exact IH.
Qed.

(** X15: [deleteQuiz] removes the notifications of the deleted quiz and
    no other: afterwards none refers to the quiz (so the guard of the
    dispatch finds none), the reported number is the number removed, the
    notifications of every other quiz are as before and no submitted result
    is touched. *)
Theorem X15_delete_removes_the_quiz_notifications
    (db db' : Db) (id : string) (n : Z) :
  deleteQuiz.run db id = (deleteQuiz.Deleted n, db') ->
  notificationsOfQuiz db' id = []
  /\ NotificationController.existingNotifications db' id = 0
  /\ n = Z.of_nat (length (notificationsOfQuiz db id))
  /\ Z.of_nat (length (notifications db')) + n = Z.of_nat (length (notifications db))
  /\ (forall id', id' <> id -> notificationsOfQuiz db' id' = notificationsOfQuiz db id')
  /\ quizResults db' = quizResults db.
Proof.
  intros Hdel.
  destruct (deleteQuiz_run_Deleted _ _ _ _ Hdel) as (quiz & _ & -> & ->).
  unfold notificationsOfQuiz, deleteNotificationsOfQuiz, scheduleQuiz.save,
    NotificationController.existingNotifications.
  cbn [notifications setNotifications setQuizzes quizResults].
  split; [apply filter_filter_same|].
  split.
  { pose proof (filter_filter_same (notifications db) id) as H0.
    assert (forall l : list Notification.t,
              List.filter (fun n => bool_decide (Notification.quizId n = Some id)) l = [] ->
              List.filter (fun n => bool_decide (Notification.quizId n = Some id)
                                    && bool_decide (Notification.type n = quiz_assigned)) l
              = []) as Hsub.
    { induction l as [|x l IH]; [reflexivity|]. cbn.
      destruct (bool_decide (Notification.quizId x = Some id)); [discriminate|].
      cbn [andb]. exact IH. }
    rewrite (Hsub _ H0). reflexivity. }
  split; [reflexivity|].
  split.
  { pose proof (length_filter_split
                  (fun n => bool_decide (Notification.quizId n = Some id))
                  (notifications db)). lia. }
  split; [intros id' Hne; apply filter_filter_other; exact Hne | reflexivity].
Qed.

Lemma X15_delete_removes_the_quiz_notifications_witness :
  let dispatched :=
    (NotificationController.createQuizNotification classOfFour noon "quiz-1" algebraData).2 in
  let db' := (deleteQuiz.run dispatched "quiz-1").2 in
  notificationsOfQuiz db' "quiz-1" = []
  /\ NotificationController.existingNotifications db' "quiz-1" = 0
  /\ 4 = Z.of_nat (length (notificationsOfQuiz dispatched "quiz-1"))
  /\ Z.of_nat (length (notifications db')) + 4 = Z.of_nat (length (notifications dispatched))
  /\ (forall id', id' <> "quiz-1"%string ->
        notificationsOfQuiz db' id' = notificationsOfQuiz dispatched id')
  /\ quizResults db' = quizResults dispatched.
Proof.
  intros dispatched db'.
  apply (X15_delete_removes_the_quiz_notifications dispatched db' "quiz-1" 4).
  reflexivity.
Defined.

(** X16: once [deleteQuiz] has deleted a quiz, the teacher's handlers no
    longer find it: [getQuizById] answers not found, a second [deleteQuiz]
    answers not found, and [scheduleQuiz] schedules nothing; each leaves the
    store unchanged. *)
Theorem X16_deleted_quiz_is_gone_for_the_teacher
    (db db' : Db) (id : string) (n : Z) (now : Z) (body : scheduleQuiz.Body) :
  deleteQuiz.run db id = (deleteQuiz.Deleted n, db') ->
  getQuizById db' id = None
  /\ deleteQuiz.run db' id = (deleteQuiz.NotFound, db')
  /\ (scheduleQuiz.run db' now id body).2 = db'
  /\ (forall k, (scheduleQuiz.run db' now id body).1 <> scheduleQuiz.ScheduledOk k).
Proof.
  intros Hdel.
  destruct (deleteQuiz_run_Deleted _ _ _ _ Hdel) as (quiz & Hq & _ & ->).
  destruct (scheduleQuiz_findQuiz_Some _ _ _ Hq) as (Hin & <- & _).
  destruct (save_markDeleted db quiz Hin) as [Hnone _].
  assert (scheduleQuiz.findQuiz
            (deleteNotificationsOfQuiz
               (scheduleQuiz.save db (deleteQuiz.markDeleted quiz))
               (TeacherQuiz._id quiz)) (TeacherQuiz._id quiz) = None) as Hgone
    by exact Hnone.
  unfold getQuizById, deleteQuiz.run, scheduleQuiz.run. rewrite Hgone.
  repeat split.
  - repeat case_match; reflexivity.
  - intros k. repeat case_match; discriminate.
Qed.

Lemma X16_deleted_quiz_is_gone_for_the_teacher_witness :
  let db' := (deleteQuiz.run classOfFour "quiz-1").2 in
  getQuizById db' "quiz-1" = None
  /\ deleteQuiz.run db' "quiz-1" = (deleteQuiz.NotFound, db')
  /\ (scheduleQuiz.run db' noon "quiz-1" march10Body).2 = db'
  /\ (forall k, (scheduleQuiz.run db' noon "quiz-1" march10Body).1
                <> scheduleQuiz.ScheduledOk k).
Proof.
  intros db'.
  apply (X16_deleted_quiz_is_gone_for_the_teacher classOfFour db' "quiz-1" 0 noon
           march10Body).
  reflexivity.
Defined.

Lemma removeFirst_unique (id : string) (qs : list TeacherQuiz.t) :
  NoDup (TeacherQuiz._id <$> qs) ->
  List.find (fun q => bool_decide (TeacherQuiz._id q = id))
            (permanentDeleteQuiz.removeFirst id qs).2 = None.
Proof.
  induction qs as [|q qs IH]; intros Hnd; [reflexivity|].
  cbn in Hnd. apply NoDup_cons in Hnd as [Hq Hnd].
  cbn [permanentDeleteQuiz.removeFirst].
  destruct (bool_decide (TeacherQuiz._id q = id)) eqn:E.
  - apply bool_decide_eq_true_1 in E. subst id. cbn [snd].
    clear IH Hnd. induction qs as [|q1 qs IH]; [reflexivity|]. cbn.
    rewrite bool_decide_eq_false_2.
    + apply IH. intros Hin. apply Hq. cbn. apply elem_of_cons. right. exact Hin.
    + intros E1. apply Hq. rewrite <- E1. cbn. apply elem_of_cons. left. reflexivity.
  - specialize (IH Hnd).
    destruct (permanentDeleteQuiz.removeFirst id qs) as [r rest]. cbn [snd] in *.
    cbn [List.find]. rewrite E. exact IH.
Qed.

(** X17: with unique quiz identifiers, after [permanentDeleteQuiz] has
    removed a quiz, [submitQuizAnswers] answers quiz not found for it and
    writes nothing; the notifications of the quiz are gone and the results
    already recorded for it stay in the store. *)
Theorem X17_permanent_delete_ends_submissions
    (db db' : Db) (id : string) (n : Z) (now : Z) (u : string)
    (answers : list Answer) (timeTaken : Z) (ab : bool) :
  NoDup (TeacherQuiz._id <$> quizzes db) ->
  permanentDeleteQuiz.run db id = (deleteQuiz.Deleted n, db') ->
  submitQuizAnswers.run db' now id u answers timeTaken ab = (QuizNotFound, db')
  /\ notificationsOfQuiz db' id = []
  /\ quizResults db' = quizResults db.
Proof.
  intros Hnd. unfold permanentDeleteQuiz.run.
  pose proof (removeFirst_unique id (quizzes db) Hnd) as Hgone.
  destruct (permanentDeleteQuiz.removeFirst id (quizzes db)) as [[q|] qs];
    [|discriminate].
  cbn [snd] in Hgone. intros [= _ <-].
  unfold submitQuizAnswers.run, submitQuizAnswers.findQuiz.
  cbn [quizzes deleteNotificationsOfQuiz setNotifications setQuizzes].
  rewrite Hgone. repeat split.
  unfold notificationsOfQuiz, deleteNotificationsOfQuiz.
  cbn [notifications setNotifications setQuizzes]. apply filter_filter_same.
Qed.

Lemma X17_permanent_delete_ends_submissions_witness :
  let once := (submitQuizAnswers.run classOfFour noon "quiz-1" "student-1"
                 [ANum 1] 60 false).2 in
  let db' := (permanentDeleteQuiz.run once "quiz-1").2 in
  submitQuizAnswers.run db' (noon + 60000) "quiz-1" "student-1" [ANum 1] 60 false
  = (QuizNotFound, db')
  /\ notificationsOfQuiz db' "quiz-1" = []
  /\ quizResults db' = quizResults once.
Proof.
  intros once db'.
  apply (X17_permanent_delete_ends_submissions once db' "quiz-1" 1).
  - apply (bool_decide_unpack _). vm_compute. exact I.
  - reflexivity.
Defined.

(** ** What deduplication keeps and drops *)

Lemma dedupLoop_facts (l : list Notification.t) :
  forall seenA seenS : gmap string nat,
    let out := NotificationController.dedupLoop seenA seenS l in
    out.1 `sublist_of` l
    /\ List.filter isOtherKind out.1 = List.filter isOtherKind l
    /\ (length out.1 + length out.2 <= length l)%nat
    /\ (Forall (fun n => Notification.isRead n = false) l ->
        (length out.1 + length out.2)%nat = length l)
    /\ Forall (fun i => exists n, n ∈ l /\ Notification._id n = i
                                  /\ Notification.isRead n = false) out.2.
Proof.
  induction l as [|n rest IH]; intros seenA seenS.
  - cbn. repeat split; auto.
  - cbn zeta. cbn [NotificationController.dedupLoop].
    assert (forall i : nat,
              (exists m, m ∈ rest /\ Notification._id m = i /\ Notification.isRead m = false) ->
              exists m, m ∈ n :: rest /\ Notification._id m = i
                        /\ Notification.isRead m = false) as Hup.
    { intros i (m & Hm & Hi & Hr). exists m. split; [right; exact Hm | auto]. }
    assert (forall (u : list Notification.t) (d : list nat) sA sS,
              (u, d) = NotificationController.dedupLoop sA sS rest ->
              (* kept *)
              ((n :: u) `sublist_of` (n :: rest)
               /\ (length (n :: u) + length d <= length (n :: rest))%nat
               /\ (Forall (fun n => Notification.isRead n = false) (n :: rest) ->
                   (length (n :: u) + length d)%nat = length (n :: rest))
               /\ Forall (fun i => exists m, m ∈ n :: rest /\ Notification._id m = i
                                             /\ Notification.isRead m = false) d)
              /\ (* dropped *)
              (u `sublist_of` (n :: rest)
               /\ (length u + length (NotificationController.trackDuplicate n d)
                   <= length (n :: rest))%nat
               /\ (Forall (fun n => Notification.isRead n = false) (n :: rest) ->
                   (length u + length (NotificationController.trackDuplicate n d))%nat
                   = length (n :: rest))
               /\ Forall (fun i => exists m, m ∈ n :: rest /\ Notification._id m = i
                                             /\ Notification.isRead m = false)
                         (NotificationController.trackDuplicate n d))
              /\ List.filter isOtherKind u = List.filter isOtherKind rest) as Hcase.
    { intros u d sA sS E. specialize (IH sA sS). cbn zeta in IH. rewrite <- E in IH.
      cbn [fst snd] in IH. destruct IH as (Hs & Ho & Hl & Hall & Hd).
      assert (Forall (fun i => exists m, m ∈ n :: rest /\ Notification._id m = i
                                         /\ Notification.isRead m = false) d) as Hd'.
      { eapply Forall_impl; [exact Hd | exact Hup]. }
      split; [|split; [|exact Ho]].
      - repeat split.
        + apply sublist_skip. exact Hs.
        + cbn [length]. lia.
        + intros HF. apply Forall_cons in HF as [_ HF]. cbn [length].
          rewrite <- (Hall HF). lia.
        + exact Hd'.
      - unfold NotificationController.trackDuplicate.
        destruct (Notification.isRead n) eqn:Hr.
        + repeat split.
          * apply sublist_cons. exact Hs.
          * cbn [length]. lia.
          * intros HF. apply Forall_cons in HF as [Hn _]. congruence.
          * exact Hd'.
        + repeat split.
          * apply sublist_cons. exact Hs.
          * cbn [length]. lia.
          * intros HF. apply Forall_cons in HF as [_ HF]. cbn [length].
            rewrite <- (Hall HF). lia.
          * apply Forall_cons. split; [|exact Hd'].
            exists n. split; [left|]; auto. }
    destruct (NotificationController.isAssignment n) eqn:Ha.
    + assert (isOtherKind n = false) as Hk
        by (unfold isOtherKind; rewrite Ha; reflexivity).
      destruct (seenA !! NotificationController.quizIdStr n).
      * destruct (NotificationController.dedupLoop seenA seenS rest) as [u d] eqn:E.
        destruct (Hcase u d _ _ (eq_sym E)) as (_ & (H1 & H2 & H3 & H4) & H5).
        cbn [fst snd]. repeat split; try assumption.
        cbn [List.filter]. rewrite Hk. exact H5.
      * destruct (NotificationController.dedupLoop _ seenS rest) as [u d] eqn:E.
        destruct (Hcase u d _ _ (eq_sym E)) as ((H1 & H2 & H3 & H4) & _ & H5).
        cbn [fst snd]. repeat split; try assumption.
        cbn [List.filter]. rewrite Hk. exact H5.
    + destruct (NotificationController.isSubmission n) eqn:Hs.
      * assert (isOtherKind n = false) as Hk
          by (unfold isOtherKind; rewrite Ha, Hs; reflexivity).
        destruct (seenS !! NotificationController.submissionKey n).
        -- destruct (NotificationController.dedupLoop seenA seenS rest) as [u d] eqn:E.
           destruct (Hcase u d _ _ (eq_sym E)) as (_ & (H1 & H2 & H3 & H4) & H5).
           cbn [fst snd]. repeat split; try assumption.
           cbn [List.filter]. rewrite Hk. exact H5.
        -- destruct (NotificationController.dedupLoop seenA _ rest) as [u d] eqn:E.
           destruct (Hcase u d _ _ (eq_sym E)) as ((H1 & H2 & H3 & H4) & _ & H5).
           cbn [fst snd]. repeat split; try assumption.
           cbn [List.filter]. rewrite Hk. exact H5.
      * assert (isOtherKind n = true) as Hk
          by (unfold isOtherKind; rewrite Ha, Hs; reflexivity).
        destruct (NotificationController.dedupLoop seenA seenS rest) as [u d] eqn:E.
        destruct (Hcase u d _ _ (eq_sym E)) as ((H1 & H2 & H3 & H4) & _ & H5).
        cbn [fst snd]. repeat split; try assumption.
        cbn [List.filter]. rewrite Hk. f_equal. exact H5.
Qed.

(** X18: [deduplicateNotifications] invents and reorders nothing and
    drops only quiz notifications: the unique list is a sublist of the
    input, every notification that is neither a quiz assignment nor a quiz
    result is kept, and every identifier reported as a duplicate is that of
    an unread notification of the input. *)
Theorem X18_dedup_keeps_a_sublist (l : list Notification.t) :
  let r := NotificationController.deduplicateNotifications l in
  NotificationController.uniqueNotifications r `sublist_of` l
  /\ List.filter isOtherKind (NotificationController.uniqueNotifications r)
     = List.filter isOtherKind l
  /\ Forall (fun i => exists n, n ∈ l /\ Notification._id n = i
                                /\ Notification.isRead n = false)
            (NotificationController.duplicateIds r).
Proof.
  cbn zeta. unfold NotificationController.deduplicateNotifications.
  pose proof (dedupLoop_facts l ∅ ∅) as H. cbn zeta in H.
  destruct (NotificationController.dedupLoop ∅ ∅ l) as [u d].
  cbn [fst snd NotificationController.uniqueNotifications
       NotificationController.duplicateIds] in *.
  destruct H as (H1 & H2 & _ & _ & H5). auto.
Qed.

(** X19: when every notification of the input is unread, as in
    [getUnreadCount], each one is either kept or reported as a duplicate:
    the unique list and the duplicate identifiers together are as many as
    the input.  In general they are at most as many. *)
Theorem X19_dedup_accounts_for_unread (l : list Notification.t) :
  let r := NotificationController.deduplicateNotifications l in
  (length (NotificationController.uniqueNotifications r)
   + length (NotificationController.duplicateIds r) <= length l)%nat
  /\ (Forall (fun n => Notification.isRead n = false) l ->
      (length (NotificationController.uniqueNotifications r)
       + length (NotificationController.duplicateIds r))%nat = length l).
Proof.
  cbn zeta. unfold NotificationController.deduplicateNotifications.
  pose proof (dedupLoop_facts l ∅ ∅) as H. cbn zeta in H.
  destruct (NotificationController.dedupLoop ∅ ∅ l) as [u d].
  cbn [fst snd NotificationController.uniqueNotifications
       NotificationController.duplicateIds] in *.
  destruct H as (_ & _ & H3 & H4 & _). auto.
Qed.

Lemma X19_dedup_accounts_for_unread_witness :
  let r := NotificationController.deduplicateNotifications (notifications mutedStore) in
  (length (NotificationController.uniqueNotifications r)
   + length (NotificationController.duplicateIds r))%nat = 2%nat.
Proof.
  intros r.
  apply (X19_dedup_accounts_for_unread (notifications mutedStore)).
  repeat constructor.
Defined.

Lemma dedupLoop_keys (l : list Notification.t) :
  forall seenA seenS : gmap string nat,
    let u := (NotificationController.dedupLoop seenA seenS l).1 in
    NoDup (assignmentKeys u)
    /\ Forall (fun k => seenA !! k = None) (assignmentKeys u)
    /\ NoDup (submissionKeys u)
    /\ Forall (fun k => seenS !! k = None) (submissionKeys u).
Proof.
  induction l as [|n rest IH]; intros seenA seenS.
  - cbn. repeat split; constructor.
  - cbn zeta. cbn [NotificationController.dedupLoop].
    destruct (NotificationController.isAssignment n) eqn:Ha.
    + destruct (seenA !! NotificationController.quizIdStr n) eqn:Hk.
      * specialize (IH seenA seenS). cbn zeta in IH.
        destruct (NotificationController.dedupLoop seenA seenS rest) as [u d].
        exact IH.
      * specialize (IH (<[NotificationController.quizIdStr n := Notification._id n]> seenA)
                       seenS). cbn zeta in IH.
        destruct (NotificationController.dedupLoop _ seenS rest) as [u d].
        cbn [fst] in *. destruct IH as (N1 & F1 & N2 & F2).
        unfold assignmentKeys, submissionKeys in *. cbn [List.filter].
        rewrite Ha. cbn [negb andb fmap list_fmap].
        repeat split; try assumption.
        -- apply NoDup_cons. split; [|exact N1].
           intros Hin. rewrite Forall_forall in F1. specialize (F1 _ Hin).
           rewrite lookup_insert_eq in F1. discriminate.
        -- apply Forall_cons. split; [exact Hk|].
           eapply Forall_impl; [exact F1|]. intros k Hn.
           apply lookup_insert_None in Hn as [Hn _]. exact Hn.
    + destruct (NotificationController.isSubmission n) eqn:Hs.
      * destruct (seenS !! NotificationController.submissionKey n) eqn:Hk.
        -- specialize (IH seenA seenS). cbn zeta in IH.
           destruct (NotificationController.dedupLoop seenA seenS rest) as [u d].
           exact IH.
        -- specialize (IH seenA
             (<[NotificationController.submissionKey n := Notification._id n]> seenS)).
           cbn zeta in IH.
           destruct (NotificationController.dedupLoop seenA _ rest) as [u d].
           cbn [fst] in *. destruct IH as (N1 & F1 & N2 & F2).
           unfold assignmentKeys, submissionKeys in *. cbn [List.filter].
           rewrite Ha, Hs. cbn [negb andb fmap list_fmap].
           repeat split; try assumption.
           ++ apply NoDup_cons. split; [|exact N2].
              intros Hin. rewrite Forall_forall in F2. specialize (F2 _ Hin).
              rewrite lookup_insert_eq in F2. discriminate.
           ++ apply Forall_cons. split; [exact Hk|].
              eapply Forall_impl; [exact F2|]. intros k Hn.
              apply lookup_insert_None in Hn as [Hn _]. exact Hn.
      * specialize (IH seenA seenS). cbn zeta in IH.
        destruct (NotificationController.dedupLoop seenA seenS rest) as [u d].
        cbn [fst] in *. unfold assignmentKeys, submissionKeys in *.
        cbn [List.filter]. rewrite Ha, Hs. cbn [negb andb]. exact IH.
Qed.

(** X20: in the unique list of [deduplicateNotifications] no two pending
    quiz assignments refer to the same quiz, and no two quiz results have
    the same quiz and score. *)
Theorem X20_dedup_output_has_distinct_keys (l : list Notification.t) :
  let u := NotificationController.uniqueNotifications
             (NotificationController.deduplicateNotifications l) in
  NoDup (assignmentKeys u) /\ NoDup (submissionKeys u).
Proof.
  cbn zeta. unfold NotificationController.deduplicateNotifications.
  pose proof (dedupLoop_keys l ∅ ∅) as H. cbn zeta in H.
  destruct (NotificationController.dedupLoop ∅ ∅ l) as [u d].
  cbn [fst NotificationController.uniqueNotifications] in *.
  destruct H as (N1 & _ & N2 & _). auto.
Qed.

(** ** Reading the unread count twice *)

Lemma filter_ids_NoDup (f : Notification.t -> bool) (l : list Notification.t) :
  NoDup (Notification._id <$> l) -> NoDup (Notification._id <$> List.filter f l).
Proof.
  induction l as [|n l IH]; intros Hnd; [constructor|].
  cbn in Hnd. apply NoDup_cons in Hnd as [Hn Hnd]. cbn [List.filter].
  destruct (f n); [|apply IH; exact Hnd].
  cbn. apply NoDup_cons. split; [|apply IH; exact Hnd].
  intros Hin. apply Hn. apply list_elem_of_fmap in Hin as (m & Hm & Hin).
  apply list_elem_of_fmap. exists m. split; [exact Hm|].
  apply list_elem_of_In in Hin. apply List.filter_In in Hin as [Hin _].
  apply list_elem_of_In. exact Hin.
Qed.

Lemma filter_not_in_fresh (d : list nat) (i : nat) (l : list Notification.t) :
  i ∉ Notification._id <$> l ->
  List.filter (fun n => negb (bool_decide (Notification._id n ∈ i :: d))) l
  = List.filter (fun n => negb (bool_decide (Notification._id n ∈ d))) l.
Proof.
  induction l as [|n l IH]; intros Hi; [reflexivity|].
  cbn in Hi. apply not_elem_of_cons in Hi as [Hne Hi]. cbn [List.filter].
  rewrite (IH Hi).
  assert (bool_decide (Notification._id n ∈ i :: d)
          = bool_decide (Notification._id n ∈ d)) as ->; [|reflexivity].
  apply bool_decide_ext. rewrite elem_of_cons. split; [|auto].
  intros [E|H]; [congruence | exact H].
Qed.

(** On unread notifications with distinct identifiers, the kept ones are
    those whose identifier is not reported. *)
Lemma dedupLoop_kept_are_unreported (l : list Notification.t) :
  forall seenA seenS : gmap string nat,
    NoDup (Notification._id <$> l) ->
    Forall (fun n => Notification.isRead n = false) l ->
    let out := NotificationController.dedupLoop seenA seenS l in
    List.filter (fun n => negb (bool_decide (Notification._id n ∈ out.2))) l = out.1.
Proof.
  induction l as [|n rest IH]; intros seenA seenS Hnd Hun; [reflexivity|].
  cbn in Hnd. apply NoDup_cons in Hnd as [Hn Hnd].
  apply Forall_cons in Hun as [Hr Hun].
  assert (forall sA sS,
            let out := NotificationController.dedupLoop sA sS rest in
            (* kept *)
            List.filter (fun m => negb (bool_decide (Notification._id m ∈ out.2)))
                        (n :: rest) = n :: out.1
            /\ (* dropped *)
            List.filter
              (fun m => negb (bool_decide
                                (Notification._id m
                                   ∈ NotificationController.trackDuplicate n out.2)))
              (n :: rest) = out.1) as Hcase.
  { intros sA sS. cbn zeta.
    pose proof (IH sA sS Hnd Hun) as Hrest. cbn zeta in Hrest.
    pose proof (dedupLoop_facts rest sA sS) as (_ & _ & _ & _ & Hd). 
    destruct (NotificationController.dedupLoop sA sS rest) as [u d].
    cbn [fst snd] in *.
    assert (Notification._id n ∉ d) as Hnotin.
    { intros Hin. rewrite Forall_forall in Hd.
      destruct (Hd _ Hin) as (m & Hm & Hi & _). apply Hn.
      apply list_elem_of_fmap. eauto. }
    split.
    - cbn [List.filter]. rewrite bool_decide_eq_false_2 by exact Hnotin.
      cbn [negb]. f_equal. exact Hrest.
    - unfold NotificationController.trackDuplicate. rewrite Hr.
      cbn [List.filter].
      rewrite bool_decide_eq_true_2 by (left; reflexivity). cbn [negb].
      rewrite filter_not_in_fresh by exact Hn. exact Hrest. }
  cbn zeta. cbn [NotificationController.dedupLoop].
  destruct (NotificationController.isAssignment n).
  - destruct (seenA !! NotificationController.quizIdStr n).
    + destruct (Hcase seenA seenS) as [_ H].
      destruct (NotificationController.dedupLoop seenA seenS rest). exact H.
    + destruct (Hcase (<[NotificationController.quizIdStr n := Notification._id n]> seenA)
                      seenS) as [H _].
      destruct (NotificationController.dedupLoop _ seenS rest). exact H.
  - destruct (NotificationController.isSubmission n).
    + destruct (seenS !! NotificationController.submissionKey n).
      * destruct (Hcase seenA seenS) as [_ H].
        destruct (NotificationController.dedupLoop seenA seenS rest). exact H.
      * destruct (Hcase seenA
                    (<[NotificationController.submissionKey n := Notification._id n]> seenS))
          as [H _].
        destruct (NotificationController.dedupLoop seenA _ rest). exact H.
    + destruct (Hcase seenA seenS) as [H _].
      destruct (NotificationController.dedupLoop seenA seenS rest). exact H.
Qed.

Lemma unread_after_marking (u : string) (ids : list nat) (ns : list Notification.t) :
  List.filter (fun n => bool_decide (Notification.recipientId n = u)
                        && negb (Notification.isRead n))
    (List.map (fun n => if bool_decide (Notification._id n ∈ ids)
                        then Notification.markRead n else n) ns)
  = List.filter (fun n => negb (bool_decide (Notification._id n ∈ ids)))
      (List.filter (fun n => bool_decide (Notification.recipientId n = u)
                             && negb (Notification.isRead n)) ns).
Proof.
  induction ns as [|n ns IH]; [reflexivity|]. cbn [List.map List.filter].
  destruct (bool_decide (Notification._id n ∈ ids)) eqn:E.
  - cbn [Notification.markRead Notification.recipientId Notification.isRead negb].
    rewrite andb_false_r.
    destruct (bool_decide (Notification.recipientId n = u) && negb (Notification.isRead n));
      cbn [List.filter]; rewrite ?E; exact IH.
  - destruct (bool_decide (Notification.recipientId n = u) && negb (Notification.isRead n));
      cbn [List.filter]; rewrite ?E; cbn [negb]; [f_equal|]; exact IH.
Qed.

(** X21: [getUnreadCount] settles after one call.  With distinct
    notification identifiers, a second call right after the first returns
    the same count and changes nothing more: the duplicates the first call
    marked read are not counted again. *)
Theorem X21_unread_count_settles (db : Db) (userId : string) :
  NoDup (Notification._id <$> notifications db) ->
  let first := NotificationController.getUnreadCount db userId in
  NotificationController.getUnreadCount first.2 userId = (first.1, first.2).
Proof.
  intros Hnd. cbn zeta. unfold NotificationController.getUnreadCount.
  destruct (NotificationController.inAppNotificationsEnabled db userId) eqn:Hen;
    cbn [negb fst snd]; [|rewrite Hen; reflexivity].
  set (P := fun n => bool_decide (Notification.recipientId n = userId)
                     && negb (Notification.isRead n)).
  set (found := List.filter P (notifications db)).
  unfold NotificationController.deduplicateNotifications.
  pose proof (dedupLoop_kept_are_unreported found ∅ ∅) as Hkept.
  pose proof (dedupLoop_output_fixed found ∅ ∅) as Hfix.
  destruct (NotificationController.dedupLoop ∅ ∅ found) as [U D] eqn:HUD.
  cbn [fst snd NotificationController.uniqueNotifications
       NotificationController.duplicateIds] in *.
  destruct D as [|i D].
  { cbn [fst snd]. rewrite Hen. cbn [negb]. fold P. fold found.
    rewrite HUD. reflexivity. }
  set (ids := i :: D) in *.
  assert (NotificationController.inAppNotificationsEnabled
            (NotificationController.markDuplicatesRead db ids) userId = true) as ->
    by exact Hen.
  cbn [negb].
  assert (List.filter P
            (notifications (NotificationController.markDuplicatesRead db ids)) = U) as ->.
  { unfold NotificationController.markDuplicatesRead.
    cbn [notifications setNotifications]. unfold P.
    rewrite unread_after_marking. fold P. fold found.
    apply Hkept.
    - apply filter_ids_NoDup. exact Hnd.
    - unfold found. apply Forall_forall. intros n Hin.
      apply list_elem_of_In in Hin. apply List.filter_In in Hin as [_ Hp].
      unfold P in Hp. apply andb_prop in Hp as [_ Hp].
      apply negb_true_iff in Hp. exact Hp. }
  rewrite Hfix. reflexivity.
Qed.

Lemma X21_unread_count_settles_witness :
  let db := storeOf [ sampleStudent "student-1" None None ] (notifications mutedStore) in
  let first := NotificationController.getUnreadCount db "student-1" in
  first.1 = 1 /\ first.2 <> db
  /\ NotificationController.getUnreadCount first.2 "student-1" = (first.1, first.2).
Proof.
  intros db first. split; [reflexivity|]. split; [vm_compute; discriminate|].
  apply (X21_unread_count_settles db "student-1").
  apply (bool_decide_unpack _). vm_compute. exact I.
Defined.

(** ** Marking as read *)

Lemma others_unread_after_markAll (u u' : string) (ns : list Notification.t) :
  u' <> u ->
  List.filter (fun n => bool_decide (Notification.recipientId n = u')
                        && negb (Notification.isRead n))
    (List.map (fun n => if bool_decide (Notification.recipientId n = u)
                           && negb (Notification.isRead n)
                        then Notification.markRead n else n) ns)
  = List.filter (fun n => bool_decide (Notification.recipientId n = u')
                          && negb (Notification.isRead n)) ns.
Proof.
  intros Hne. induction ns as [|n ns IH]; [reflexivity|]. cbn [List.map List.filter].
  destruct (bool_decide (Notification.recipientId n = u)) eqn:E; cbn [andb].
  - apply bool_decide_eq_true_1 in E.
    destruct (Notification.isRead n) eqn:Hr; cbn [negb];
      cbn [Notification.markRead Notification.recipientId Notification.isRead];
      rewrite ?Hr; rewrite (bool_decide_eq_false_2 (Notification.recipientId n = u'))
        by congruence; exact IH.
  - destruct (bool_decide (Notification.recipientId n = u') && negb (Notification.isRead n));
      [f_equal|]; exact IH.
Qed.

Lemma own_unread_after_markAll (u : string) (ns : list Notification.t) :
  List.filter (fun n => bool_decide (Notification.recipientId n = u)
                        && negb (Notification.isRead n))
    (List.map (fun n => if bool_decide (Notification.recipientId n = u)
                           && negb (Notification.isRead n)
                        then Notification.markRead n else n) ns)
  = [].
Proof.
  induction ns as [|n ns IH]; [reflexivity|]. cbn [List.map List.filter].
  destruct (bool_decide (Notification.recipientId n = u)) eqn:E; cbn [andb].
  - destruct (Notification.isRead n) eqn:Hr; cbn [negb];
      cbn [Notification.markRead Notification.recipientId Notification.isRead];
      rewrite ?Hr, ?E; cbn [negb andb]; exact IH.
  - rewrite E. cbn [andb]. exact IH.
Qed.

(** X22: after [markAllAsRead] the user's unread count is 0 and the
    unread filter of [getNotifications] lists nothing, neither call changing
    the store; the unread count of every other user is what it was. *)
Theorem X22_mark_all_leaves_nothing_unread (db : Db) (u : string) :
  let db' := markAllAsRead.run db u in
  NotificationController.getUnreadCount db' u = (0, db')
  /\ NotificationController.getNotifications db' u true
     = ({| NotificationController.listed := [];
           NotificationController.unreadCount := 0 |}, db')
  /\ (forall u', u' <> u ->
        (NotificationController.getUnreadCount db' u').1
        = (NotificationController.getUnreadCount db u').1).
Proof.
  cbn zeta.
  assert (List.filter (fun n => bool_decide (Notification.recipientId n = u)
                                && negb (Notification.isRead n))
            (notifications (markAllAsRead.run db u)) = []) as Hnone.
  { exact (own_unread_after_markAll u (notifications db)). }
  unfold NotificationController.getUnreadCount, NotificationController.getNotifications.
  split; [|split].
  - destruct (NotificationController.inAppNotificationsEnabled _ u); cbn [negb];
      [|reflexivity].
    rewrite !Hnone. reflexivity.
  - destruct (NotificationController.inAppNotificationsEnabled _ u); cbn [negb orb];
      [|reflexivity].
    rewrite !Hnone. reflexivity.
  - intros u' Hne.
    change (NotificationController.inAppNotificationsEnabled (markAllAsRead.run db u) u')
      with (NotificationController.inAppNotificationsEnabled db u').
    destruct (NotificationController.inAppNotificationsEnabled db u'); cbn [negb];
      [|reflexivity].
    unfold markAllAsRead.run. cbn [notifications setNotifications fst].
    rewrite (others_unread_after_markAll u u' (notifications db) Hne). reflexivity.
Qed.

Lemma X22_mark_all_leaves_nothing_unread_witness :
  let db := storeOf [ sampleStudent "student-1" None None ] (notifications mutedStore) in
  (NotificationController.getUnreadCount (markAllAsRead.run db "student-1") "student-2").1
  = (NotificationController.getUnreadCount db "student-2").1.
Proof.
  intros db.
  apply (X22_mark_all_leaves_nothing_unread db "student-1").
  discriminate.
Defined.

Lemma markDuplicatesRead_flags (ids : list nat) (ns : list Notification.t) :
  Forall2 (fun n n' => n' = n \/ n' = Notification.markRead n) ns
    (List.map (fun n => if bool_decide (Notification._id n ∈ ids)
                        then Notification.markRead n else n) ns).
Proof.
  induction ns as [|n ns IH]; [constructor|]. cbn [List.map].
  constructor; [|exact IH]. destruct (bool_decide _); auto.
Qed.

(** X23: [getNotifications] lists at most 50 notifications, all of them
    stored notifications of the user; the unread count it reports is at most
    the number listed; and the only change it makes to the store is to set
    isRead on notifications: none is created, removed or reordered, and
    results, quizzes and outbox are untouched. *)
Theorem X23_notification_page (db : Db) (u : string) (unreadOnly : bool) :
  let out := NotificationController.getNotifications db u unreadOnly in
  (length (NotificationController.listed out.1) <= 50)%nat
  /\ 0 <= NotificationController.unreadCount out.1
     <= Z.of_nat (length (NotificationController.listed out.1))
  /\ Forall (fun n => n ∈ notifications db /\ Notification.recipientId n = u)
            (NotificationController.listed out.1)
  /\ Forall2 (fun n n' => n' = n \/ n' = Notification.markRead n)
             (notifications db) (notifications out.2)
  /\ quizResults out.2 = quizResults db /\ quizzes out.2 = quizzes db
  /\ outbox out.2 = outbox db.
Proof.
  cbn zeta. unfold NotificationController.getNotifications.
  assert (Forall2 (fun n n' : Notification.t => n' = n \/ n' = Notification.markRead n)
            (notifications db) (notifications db)) as Hrefl.
  { induction (notifications db); constructor; auto. }
  destruct (NotificationController.inAppNotificationsEnabled db u); cbn [negb fst snd].
  2: { cbn [NotificationController.listed NotificationController.unreadCount length].
       repeat split; try lia; try constructor; auto. }
  set (found := List.filter _ (notifications db)).
  set (page := take 50 (merge_sort NotificationController.newerFirst found)).
  assert (NotificationController.uniqueNotifications
            (NotificationController.deduplicateNotifications page)
          `sublist_of` page) as Hsub.
  { unfold NotificationController.deduplicateNotifications.
    pose proof (dedupLoop_facts page ∅ ∅) as H. cbn zeta in H.
    destruct (NotificationController.dedupLoop ∅ ∅ page) as [u0 d0].
    apply H. }
  cbn [NotificationController.listed NotificationController.unreadCount].
  set (r := NotificationController.deduplicateNotifications page) in *.
  assert (length page <= 50)%nat as Hpage.
  { unfold page. rewrite length_take. lia. }
  split. { apply sublist_length in Hsub. lia. }
  split.
  { pose proof (List.filter_length_le (fun n => negb (Notification.isRead n))
                  (NotificationController.uniqueNotifications r)). lia. }
  split.
  { apply Forall_forall. intros n Hin.
    pose proof (elem_of_sublist _ _ _ Hin Hsub) as Hp.
    apply (subseteq_take 50) in Hp.
    rewrite merge_sort_Permutation in Hp.
    apply list_elem_of_In in Hp. apply List.filter_In in Hp as [Hin' Hb].
    apply andb_prop in Hb as [Hb _]. apply bool_decide_eq_true_1 in Hb.
    split; [apply list_elem_of_In; exact Hin' | exact Hb]. }
  destruct (NotificationController.duplicateIds r) as [|i ids].
  { repeat split. exact Hrefl. }
  unfold NotificationController.markDuplicatesRead.
  cbn [notifications setNotifications quizResults quizzes outbox].
  repeat split. apply markDuplicatesRead_flags.
Qed.

(** ** One's own notifications only *)

Lemma setNotifications_same db : setNotifications db (notifications db) (nextId db) = db.
Proof. destruct db. reflexivity. Qed.

Lemma updateFirst_facts (nid : nat) (u : string) (ns : list Notification.t) :
  let out := markAsRead.updateFirst nid u ns in
  notOf u out.2 = notOf u ns
  /\ length out.2 = length ns
  /\ (Forall (fun n => ownedBy nid u n = false) ns -> out = (None, ns))
  /\ (forall n, out.1 = Some n ->
        Notification._id n = nid /\ Notification.recipientId n = u
        /\ Notification.isRead n = true /\ n ∈ out.2).
Proof.
  induction ns as [|n ns IH]; cbn zeta.
  - cbn. split; [reflexivity|]. split; [reflexivity|]. split; [reflexivity|].
    intros n H. discriminate.
  - cbn [markAsRead.updateFirst]. cbn zeta in IH.
    destruct (ownedBy nid u n) eqn:Eo.
    + pose proof Eo as Eo'. unfold ownedBy in Eo'.
      apply andb_prop in Eo' as [Ei Eu].
      cbn [fst snd]. split; [|split; [|split]].
      * unfold notOf. cbn [List.filter Notification.markRead Notification.recipientId].
        rewrite Eu. reflexivity.
      * reflexivity.
      * intros HF. apply Forall_cons in HF as [Hn _]. congruence.
      * intros m [= <-]. apply bool_decide_eq_true_1 in Ei, Eu.
        repeat split; try assumption. left.
    + destruct (markAsRead.updateFirst nid u ns) as [r rest].
      cbn [fst snd] in *. destruct IH as (H1 & H2 & H3 & H4).
      split; [|split; [|split]].
      * unfold notOf in *. cbn [List.filter].
        destruct (bool_decide (Notification.recipientId n = u)); cbn [negb];
          [|f_equal]; exact H1.
      * cbn [length]. rewrite H2. reflexivity.
      * intros HF. apply Forall_cons in HF as [_ HF].
        specialize (H3 HF). injection H3 as -> ->. reflexivity.
      * intros m Hm. destruct (H4 m Hm) as (A & B & C & D).
        repeat split; try assumption. right. exact D.
Qed.

Lemma removeFirst_facts (nid : nat) (u : string) (ns : list Notification.t) :
  let out := deleteNotification.removeFirst nid u ns in
  notOf u out.2 = notOf u ns
  /\ (Forall (fun n => ownedBy nid u n = false) ns -> out = (None, ns))
  /\ (forall n, out.1 = Some n ->
        ownedBy nid u n = true /\ n ∈ ns /\ S (length out.2) = length ns).
Proof.
  induction ns as [|n ns IH]; cbn zeta.
  - cbn. split; [reflexivity|]. split; [reflexivity|]. intros n H. discriminate.
  - cbn [deleteNotification.removeFirst]. cbn zeta in IH.
    destruct (ownedBy nid u n) eqn:Eo.
    + cbn [fst snd]. split; [|split].
      * unfold notOf. cbn [List.filter]. unfold ownedBy in Eo.
        apply andb_prop in Eo as [_ Eu]. rewrite Eu. reflexivity.
      * intros HF. apply Forall_cons in HF as [Hn _]. congruence.
      * intros m [= <-]. repeat split; [exact Eo | left].
    + destruct (deleteNotification.removeFirst nid u ns) as [r rest].
      cbn [fst snd] in *. destruct IH as (H1 & H2 & H3).
      split; [|split].
      * unfold notOf in *. cbn [List.filter].
        destruct (bool_decide (Notification.recipientId n = u)); cbn [negb];
          [|f_equal]; exact H1.
      * intros HF. apply Forall_cons in HF as [_ HF].
        specialize (H2 HF). injection H2 as -> ->. reflexivity.
      * intros m Hm. destruct (H3 m Hm) as (A & B & C).
        repeat split; [exact A | right; exact B | cbn [length]; f_equal; exact C].
Qed.

(** With a notification of the caller under the identifier both handlers
    find one: the update returns it with isRead set, the removal takes it
    out of the list. *)
Lemma updateFirst_found (nid : nat) (u : string) (ns : list Notification.t) :
  (exists n0, n0 ∈ ns /\ ownedBy nid u n0 = true) ->
  exists m,
    (markAsRead.updateFirst nid u ns).1 = Some (Notification.markRead m)
    /\ m ∈ ns /\ ownedBy nid u m = true
    /\ Notification.markRead m ∈ (markAsRead.updateFirst nid u ns).2.
Proof.
  induction ns as [|n ns IH]; intros (n0 & Hin & Ho); [inversion Hin|].
  cbn [markAsRead.updateFirst]. destruct (ownedBy nid u n) eqn:Eo.
  - exists n. cbn [fst snd]. split; [reflexivity|]. split; [left|].
    split; [exact Eo | left].
  - apply elem_of_cons in Hin as [-> | Hin]; [congruence|].
    destruct IH as (m & H1 & H2 & H3 & H4); [exists n0; split; assumption|].
    destruct (markAsRead.updateFirst nid u ns) as [r rest]. cbn [fst snd] in *.
    exists m. split; [exact H1|]. split; [right; exact H2|].
    split; [exact H3 | right; exact H4].
Qed.

Lemma removeFirst_found (nid : nat) (u : string) (ns : list Notification.t) :
  (exists n0, n0 ∈ ns /\ ownedBy nid u n0 = true) ->
  exists d,
    (deleteNotification.removeFirst nid u ns).1 = Some d
    /\ ownedBy nid u d = true
    /\ ns ≡ₚ d :: (deleteNotification.removeFirst nid u ns).2.
Proof.
  induction ns as [|n ns IH]; intros (n0 & Hin & Ho); [inversion Hin|].
  cbn [deleteNotification.removeFirst]. destruct (ownedBy nid u n) eqn:Eo.
  - exists n. cbn [fst snd]. split; [reflexivity|]. split; [exact Eo | reflexivity].
  - apply elem_of_cons in Hin as [-> | Hin]; [congruence|].
    destruct IH as (d & H1 & H2 & H3); [exists n0; split; assumption|].
    destruct (deleteNotification.removeFirst nid u ns) as [r rest].
    cbn [fst snd] in *.
    exists d. split; [exact H1|]. split; [exact H2|].
    rewrite H3. apply Permutation_swap.
Qed.

(** X24: [markAsRead] and [deleteNotification] act on the caller's own
    notifications only.  Neither changes a notification of another user;
    when no notification with the given identifier belongs to the caller,
    both answer not found and change nothing; when one does, [markAsRead]
    returns a stored notification of the caller with that identifier, with
    isRead set, and stores it so, and [deleteNotification] returns one and
    the store is the old one without it.  [markAsRead] keeps the number of
    notifications; whatever the two return is owned by the caller. *)
Theorem X24_only_own_notifications (db : Db) (nid : nat) (u : string) :
  let marked := markAsRead.run db nid u in
  let deleted := deleteNotification.run db nid u in
  notOf u (notifications marked.2) = notOf u (notifications db)
  /\ notOf u (notifications deleted.2) = notOf u (notifications db)
  /\ (Forall (fun n => ownedBy nid u n = false) (notifications db) ->
      marked = (None, db) /\ deleted = (None, db))
  /\ ((exists n0, n0 ∈ notifications db /\ ownedBy nid u n0 = true) ->
      exists m d,
        marked.1 = Some (Notification.markRead m)
        /\ m ∈ notifications db /\ ownedBy nid u m = true
        /\ Notification.markRead m ∈ notifications marked.2
        /\ deleted.1 = Some d /\ ownedBy nid u d = true
        /\ notifications db ≡ₚ d :: notifications deleted.2)
  /\ length (notifications marked.2) = length (notifications db)
  /\ (forall n, marked.1 = Some n ->
        Notification._id n = nid /\ Notification.recipientId n = u
        /\ Notification.isRead n = true /\ n ∈ notifications marked.2)
  /\ (forall n, deleted.1 = Some n ->
        ownedBy nid u n = true /\ n ∈ notifications db
        /\ S (length (notifications deleted.2)) = length (notifications db)).
Proof.
  cbn zeta. unfold markAsRead.run, deleteNotification.run.
  pose proof (updateFirst_facts nid u (notifications db)) as HM.
  pose proof (removeFirst_facts nid u (notifications db)) as HD.
  pose proof (updateFirst_found nid u (notifications db)) as FM.
  pose proof (removeFirst_found nid u (notifications db)) as FD.
  cbn zeta in HM, HD.
  destruct (markAsRead.updateFirst nid u (notifications db)) as [r1 ns1].
  destruct (deleteNotification.removeFirst nid u (notifications db)) as [r2 ns2].
  cbn [fst snd notifications setNotifications] in *.
  destruct HM as (M1 & M2 & M3 & M4). destruct HD as (D1 & D2 & D3).
  split; [exact M1|]. split; [exact D1|].
  split; [|split; [|split; [exact M2|split]]].
  - intros HF. specialize (M3 HF). specialize (D2 HF).
    injection M3 as -> ->. injection D2 as -> ->.
    rewrite setNotifications_same. split; reflexivity.
  - intros Hex. destruct (FM Hex) as (m & A1 & A2 & A3 & A4).
    destruct (FD Hex) as (d & B1 & B2 & B3).
    exists m, d. repeat split; assumption.
  - exact M4.
  - exact D3.
Qed.

Lemma X24_only_own_notifications_witness :
  exists m d,
    (markAsRead.run mutedStore 1 "student-1").1 = Some (Notification.markRead m)
    /\ m ∈ notifications mutedStore /\ ownedBy 1 "student-1" m = true
    /\ Notification.markRead m
       ∈ notifications (markAsRead.run mutedStore 1 "student-1").2
    /\ (deleteNotification.run mutedStore 1 "student-1").1 = Some d
    /\ ownedBy 1 "student-1" d = true
    /\ notifications mutedStore
       ≡ₚ d :: notifications (deleteNotification.run mutedStore 1 "student-1").2.
Proof.
  apply (X24_only_own_notifications mutedStore 1 "student-1").
  exists (sampleAssigned 1 (Js.dateTime 2025 3 9 8 0)).
  split; [left | reflexivity].
Defined.

(** The same request by another user: not found, nothing changed. *)
Example other_users_notification_is_not_found :
  markAsRead.run mutedStore 1 "student-2" = (None, mutedStore)
  /\ deleteNotification.run mutedStore 1 "student-2" = (None, mutedStore).
Proof. vm_compute. split; reflexivity. Qed.

(** ** Removing stored duplicates *)

Lemma insertByAge_Permutation (x : Notification.t) (l : list Notification.t) :
  cleanupDuplicateNotifications.insertByAge x l ≡ₚ x :: l.
Proof.
  induction l as [|y l IH]; [reflexivity|]. cbn.
  destruct (Notification.createdAt x <=? Notification.createdAt y); [reflexivity|].
  rewrite IH. apply Permutation_swap.
Qed.

Lemma sortByAge_Permutation (l : list Notification.t) :
  cleanupDuplicateNotifications.sortByAge l ≡ₚ l.
Proof.
  induction l as [|x l IH]; [reflexivity|]. cbn.
  rewrite insertByAge_Permutation, IH. reflexivity.
Qed.

Lemma sortByAge_head_oldest (l : list Notification.t) (h : Notification.t)
    (t : list Notification.t) :
  cleanupDuplicateNotifications.sortByAge l = h :: t ->
  forall x, x ∈ l -> Notification.createdAt h <= Notification.createdAt x.
Proof.
  revert h t. induction l as [|y l IH]; intros h t Hs x Hx; [inversion Hx|].
  cbn in Hs.
  destruct (cleanupDuplicateNotifications.sortByAge l) as [|h' t'] eqn:Hl.
  - pose proof (sortByAge_Permutation l) as HP. rewrite Hl in HP.
    apply Permutation_nil_l in HP. subst l. cbn in Hs. injection Hs as <- <-.
    apply list_elem_of_singleton in Hx. subst x. lia.
  - specialize (IH h' t' eq_refl). cbn in Hs.
    destruct (Notification.createdAt y <=? Notification.createdAt h') eqn:E.
    + injection Hs as <- <-. apply Z.leb_le in E.
      apply elem_of_cons in Hx as [-> | Hx]; [lia|].
      specialize (IH x Hx). lia.
    + injection Hs as <- <-. apply Z.leb_gt in E.
      apply elem_of_cons in Hx as [-> | Hx]; [lia|].
      exact (IH x Hx).
Qed.

Lemma filter_filter_swap {A} (f g : A -> bool) (l : list A) :
  List.filter f (List.filter g l) = List.filter g (List.filter f l).
Proof.
  induction l as [|x l IH]; [reflexivity|]. cbn.
  destruct (f x) eqn:Ef, (g x) eqn:Eg; cbn; rewrite ?Ef, ?Eg, IH; reflexivity.
Qed.

Lemma filter_none {A} (f : A -> bool) (l : list A) :
  (forall x, x ∈ l -> f x = false) -> List.filter f l = [].
Proof.
  induction l as [|x l IH]; intros H; [reflexivity|]. cbn.
  rewrite (H x) by left. apply IH. intros y Hy. apply H. right. exact Hy.
Qed.

Lemma filter_all {A} (f : A -> bool) (l : list A) :
  (forall x, x ∈ l -> f x = true) -> List.filter f l = l.
Proof.
  induction l as [|x l IH]; intros H; [reflexivity|]. cbn.
  rewrite (H x) by left. f_equal. apply IH. intros y Hy. apply H. right. exact Hy.
Qed.

Lemma elem_of_List_filter {A} (f : A -> bool) (l : list A) (x : A) :
  x ∈ List.filter f l <-> x ∈ l /\ f x = true.
Proof. rewrite !list_elem_of_In. apply List.filter_In. Qed.

Lemma same_id_same (ns : list Notification.t) (x y : Notification.t) :
  NoDup (Notification._id <$> ns) -> x ∈ ns -> y ∈ ns ->
  Notification._id x = Notification._id y -> x = y.
Proof.
  induction ns as [|n ns IH]; intros Hnd Hx Hy Hid; [inversion Hx|].
  cbn in Hnd. apply NoDup_cons in Hnd as [Hn Hnd].
  apply elem_of_cons in Hx as [-> | Hx]; apply elem_of_cons in Hy as [-> | Hy].
  - reflexivity.
  - exfalso. apply Hn. rewrite Hid. apply list_elem_of_fmap_2. exact Hy.
  - exfalso. apply Hn. rewrite <- Hid. apply list_elem_of_fmap_2. exact Hx.
  - apply IH; assumption.
Qed.

Lemma all_equal_short (l : list Notification.t) (h : Notification.t) :
  NoDup (Notification._id <$> l) -> (forall x, x ∈ l -> x = h) ->
  (length l <= 1)%nat.
Proof.
  intros Hnd Hall. destruct l as [|a [|b l]]; cbn; try lia.
  exfalso. cbn in Hnd. apply NoDup_cons in Hnd as [Ha _]. apply Ha.
  rewrite (Hall a) by left. rewrite (Hall b) by (right; left). left.
Qed.

Lemma filter_not_in_app (a b : list nat) (l : list Notification.t) :
  List.filter (fun n => negb (bool_decide (Notification._id n ∈ b)))
    (List.filter (fun n => negb (bool_decide (Notification._id n ∈ a))) l)
  = List.filter (fun n => negb (bool_decide (Notification._id n ∈ a ++ b))) l.
Proof.
  induction l as [|n l IHl]; [reflexivity|]. cbn [List.filter].
  destruct (bool_decide (Notification._id n ∈ a)) eqn:E1; cbn [negb].
  - apply bool_decide_eq_true in E1.
    rewrite (bool_decide_eq_true_2 (Notification._id n ∈ a ++ b))
      by (apply elem_of_app; left; exact E1).
    cbn [negb]. exact IHl.
  - apply bool_decide_eq_false in E1. cbn [List.filter].
    destruct (bool_decide (Notification._id n ∈ b)) eqn:E2.
    + apply bool_decide_eq_true in E2.
      rewrite (bool_decide_eq_true_2 (Notification._id n ∈ a ++ b))
        by (apply elem_of_app; right; exact E2).
      cbn [negb]. exact IHl.
    + apply bool_decide_eq_false in E2.
      rewrite (bool_decide_eq_false_2 (Notification._id n ∈ a ++ b))
        by (rewrite elem_of_app; tauto).
      cbn [negb]. f_equal. exact IHl.
Qed.

(** One turn of the loop deletes the notifications whose identifier was
    collected from the group, and counts them. *)
Lemma cleanup_step (acc : Z * Db) (g : list Notification.t) :
  let r := cleanupDuplicateNotifications.step acc g in
  notifications r.2
  = List.filter (fun n => negb (bool_decide
        (Notification._id n ∈ cleanupDuplicateNotifications.idsToDelete g)))
      (notifications acc.2)
  /\ r.1 + Z.of_nat (length (notifications r.2))
     = acc.1 + Z.of_nat (length (notifications acc.2)).
Proof.
  cbn zeta. unfold cleanupDuplicateNotifications.step.
  destruct (cleanupDuplicateNotifications.idsToDelete g) as [|i ids] eqn:Hi.
  - split; [|reflexivity]. symmetry. apply filter_all. intros x _.
    rewrite bool_decide_eq_false_2; [reflexivity|]. intros H. inversion H.
  - cbn [cleanupDuplicateNotifications.deleteMany fst snd notifications
         setNotifications].
    split; [reflexivity|].
    pose proof (length_filter_split
                  (fun n => bool_decide (Notification._id n ∈ i :: ids))
                  (notifications acc.2)) as HL.
    lia.
Qed.

Lemma cleanup_fold (gs : list (list Notification.t)) (acc : Z * Db) :
  let r := foldl cleanupDuplicateNotifications.step acc gs in
  notifications r.2
  = List.filter (fun n => negb (bool_decide
        (Notification._id n ∈ doomed gs))) (notifications acc.2)
  /\ r.1 + Z.of_nat (length (notifications r.2))
     = acc.1 + Z.of_nat (length (notifications acc.2)).
Proof.
  cbn zeta. revert acc. induction gs as [|g gs IH]; intros acc.
  - cbn [foldl]. split; [|reflexivity]. symmetry. apply filter_all. intros x _.
    rewrite bool_decide_eq_false_2; [reflexivity|]. intros H. inversion H.
  - cbn [foldl]. destruct (IH (cleanupDuplicateNotifications.step acc g)) as [H1 H2].
    destruct (cleanup_step acc g) as [S1 S2]. split.
    + rewrite H1, S1, filter_not_in_app. reflexivity.
    + rewrite H2. exact S2.
Qed.

Lemma run_notifications (db : Db) :
  notifications (cleanupDuplicateNotifications.run db).2
  = survivors (notifications db).
Proof.
  unfold cleanupDuplicateNotifications.run, survivors.
  apply (cleanup_fold _ (0, db)).
Qed.

(** An identifier collected for deletion is that of a later member of a
    group. *)
Lemma doomed_inv (ns : list Notification.t) (i : nat) :
  i ∈ doomed (cleanupDuplicateNotifications.duplicates ns) ->
  exists k h t,
    cleanupDuplicateNotifications.sortByAge
      (List.filter (cleanupDuplicateNotifications.inGroup k) ns) = h :: t
    /\ i ∈ Notification._id <$> t.
Proof.
  unfold doomed. intros Hi. apply list_elem_of_join in Hi as (ids & Hi & Hids).
  apply list_elem_of_fmap in Hids as (g & -> & Hg).
  unfold cleanupDuplicateNotifications.duplicates in Hg.
  apply elem_of_List_filter in Hg as [Hg _].
  apply list_elem_of_fmap in Hg as (k & -> & _).
  unfold cleanupDuplicateNotifications.idsToDelete in Hi.
  destruct (cleanupDuplicateNotifications.sortByAge
              (List.filter (cleanupDuplicateNotifications.inGroup k) ns))
    as [|h t] eqn:Hs; [inversion Hi|].
  exists k, h, t. split; [exact Hs | exact Hi].
Qed.

(** The later members of a group with more than one member are collected. *)
Lemma doomed_intro (ns : list Notification.t) (k : string * string)
    (h : Notification.t) (t : list Notification.t) (i : nat) :
  cleanupDuplicateNotifications.sortByAge
    (List.filter (cleanupDuplicateNotifications.inGroup k) ns) = h :: t ->
  i ∈ Notification._id <$> t ->
  i ∈ doomed (cleanupDuplicateNotifications.duplicates ns).
Proof.
  intros Hs Hi. set (G := List.filter (cleanupDuplicateNotifications.inGroup k) ns) in *.
  pose proof (sortByAge_Permutation G) as HP. rewrite Hs in HP.
  assert (Hlen : (1 < length G)%nat).
  { rewrite <- HP. destruct t; [inversion Hi | cbn; lia]. }
  assert (HhG : h ∈ G) by (rewrite <- HP; left).
  apply elem_of_List_filter in HhG as [Hh Hk].
  unfold cleanupDuplicateNotifications.inGroup in Hk.
  apply andb_prop in Hk as [Hm Hk]. apply bool_decide_eq_true in Hk.
  unfold doomed. apply list_elem_of_join.
  exists (cleanupDuplicateNotifications.idsToDelete G). split.
  - unfold cleanupDuplicateNotifications.idsToDelete. rewrite Hs. exact Hi.
  - apply list_elem_of_fmap_2.
    unfold cleanupDuplicateNotifications.duplicates.
    apply elem_of_List_filter. split; [|apply Nat.ltb_lt; exact Hlen].
    apply (list_elem_of_fmap_2
             (fun k => List.filter (cleanupDuplicateNotifications.inGroup k) ns)).
    apply elem_of_remove_dups. rewrite <- Hk. apply list_elem_of_fmap_2.
    apply elem_of_List_filter. split; assumption.
Qed.

Lemma filter_the_one (p : Notification.t -> bool) (l : list Notification.t)
    (h : Notification.t) :
  NoDup (Notification._id <$> l) -> h ∈ l ->
  (forall x, x ∈ l -> p x = true <-> x = h) ->
  List.filter p l = [h].
Proof.
  induction l as [|x l IH]; intros Hnd Hh Hp; [inversion Hh|].
  cbn in Hnd. apply NoDup_cons in Hnd as [Hx Hnd]. cbn [List.filter].
  destruct (p x) eqn:Epx.
  - assert (x = h) as -> by (apply (Hp x); [left | exact Epx]).
    f_equal. apply filter_none. intros y Hy.
    destruct (p y) eqn:Epy; [|reflexivity]. exfalso.
    assert (y = h) as -> by (apply (Hp y); [right; exact Hy | exact Epy]).
    apply Hx. apply list_elem_of_fmap_2. exact Hy.
  - apply elem_of_cons in Hh as [-> | Hh].
    + assert (p x = true) by (apply (Hp x); [left | reflexivity]). congruence.
    + apply IH; [exact Hnd | exact Hh |].
      intros y Hy. apply Hp. right. exact Hy.
Qed.

(** An identifier collected for deletion belongs to no other notification
    than a later member of a group. *)
Lemma doomed_member (ns : list Notification.t) (x : Notification.t) :
  NoDup (Notification._id <$> ns) -> x ∈ ns ->
  Notification._id x ∈ doomed (cleanupDuplicateNotifications.duplicates ns) ->
  exists h t,
    cleanupDuplicateNotifications.sortByAge
      (List.filter (cleanupDuplicateNotifications.inGroup
                      (cleanupDuplicateNotifications.groupKey x)) ns) = h :: t
    /\ x ∈ t /\ cleanupDuplicateNotifications.matched x = true.
Proof.
  intros Hnd Hx Hd. apply doomed_inv in Hd as (k & h & t & Hs & Hi).
  apply list_elem_of_fmap in Hi as (y & Hid & Hy).
  pose proof (sortByAge_Permutation
                (List.filter (cleanupDuplicateNotifications.inGroup k) ns)) as HP.
  rewrite Hs in HP.
  assert (HyG : y ∈ List.filter (cleanupDuplicateNotifications.inGroup k) ns)
    by (rewrite <- HP; right; exact Hy).
  apply elem_of_List_filter in HyG as [Hyns Hk].
  assert (x = y) as <- by (apply (same_id_same ns); assumption).
  unfold cleanupDuplicateNotifications.inGroup in Hk.
  apply andb_prop in Hk as [Hm Hk]. apply bool_decide_eq_true in Hk.
  rewrite Hk. exists h, t. repeat split; assumption.
Qed.

(** What the clean-up keeps of a group: its oldest member, alone. *)
Lemma group_after_cleanup (ns : list Notification.t) (k : string * string) :
  NoDup (Notification._id <$> ns) ->
  List.filter (cleanupDuplicateNotifications.inGroup k) (survivors ns)
  = option_list (head (cleanupDuplicateNotifications.sortByAge
                   (List.filter (cleanupDuplicateNotifications.inGroup k) ns))).
Proof.
  intros Hnd. unfold survivors. rewrite filter_filter_swap.
  set (G := List.filter (cleanupDuplicateNotifications.inGroup k) ns).
  pose proof (sortByAge_Permutation G) as HP.
  destruct (cleanupDuplicateNotifications.sortByAge G) as [|h t] eqn:Hs.
  - apply Permutation_nil_l in HP. rewrite <- HP. reflexivity.
  - cbn [head option_list].
    assert (HndG : NoDup (Notification._id <$> G)) by (apply filter_ids_NoDup; exact Hnd).
    assert (Hndht : NoDup (Notification._id <$> h :: t)) by (rewrite HP; exact HndG).
    cbn in Hndht. apply NoDup_cons in Hndht as [Hht _].
    assert (HhG : h ∈ G) by (rewrite <- HP; left).
    apply filter_the_one; [exact HndG | exact HhG |].
    intros x Hx. split.
    + intros Hkeep. apply negb_true_iff, bool_decide_eq_false in Hkeep.
      rewrite <- HP in Hx. apply elem_of_cons in Hx as [-> | Hx]; [reflexivity|].
      exfalso. apply Hkeep. apply (doomed_intro ns k h t); [exact Hs|].
      apply list_elem_of_fmap_2. exact Hx.
    + intros ->. apply negb_true_iff, bool_decide_eq_false. intros Hd.
      apply elem_of_List_filter in HhG as [Hhns Hk].
      apply (doomed_member ns h Hnd Hhns) in Hd as (h' & t' & Hs' & Hin & _).
      unfold cleanupDuplicateNotifications.inGroup in Hk.
      apply andb_prop in Hk as [_ Hk]. apply bool_decide_eq_true in Hk.
      rewrite Hk in Hs'. fold G in Hs'. rewrite Hs in Hs'.
      injection Hs' as <- <-. apply Hht. apply list_elem_of_fmap_2. exact Hin.
Qed.

(** The clean-up leaves alone what the [$match] stage does not select. *)
Lemma unmatched_after_cleanup (ns : list Notification.t) :
  NoDup (Notification._id <$> ns) ->
  List.filter (fun n => negb (cleanupDuplicateNotifications.matched n)) (survivors ns)
  = List.filter (fun n => negb (cleanupDuplicateNotifications.matched n)) ns.
Proof.
  intros Hnd. unfold survivors. rewrite filter_filter_swap.
  apply filter_all. intros x Hx. apply elem_of_List_filter in Hx as [Hx Hm].
  apply negb_true_iff, bool_decide_eq_false. intros Hd.
  apply (doomed_member ns x Hnd Hx) in Hd as (_ & _ & _ & _ & Hm').
  rewrite Hm' in Hm. discriminate.
Qed.

Lemma survivors_no_duplicates (ns : list Notification.t) :
  NoDup (Notification._id <$> ns) ->
  cleanupDuplicateNotifications.duplicates (survivors ns) = [].
Proof.
  intros Hnd. unfold cleanupDuplicateNotifications.duplicates.
  apply filter_none. intros g Hg.
  apply list_elem_of_fmap in Hg as (k & -> & _).
  rewrite (group_after_cleanup ns k Hnd). apply Nat.ltb_ge.
  destruct (head _); cbn; lia.
Qed.

(** X25: [cleanupDuplicateNotifications] on notifications with distinct
    identifiers.  Of the quiz_assigned notifications of one recipient for one
    quiz exactly one is left when there was any, and it is an oldest one;
    every notification that is not a quiz_assigned notification of a quiz
    stays as it was; the reported deletedCount is the number of notifications
    that are gone. *)
Theorem X25_cleanup_keeps_the_oldest (db : Db) (k : string * string) :
  NoDup (Notification._id <$> notifications db) ->
  let before := notifications db in
  let after := notifications (cleanupDuplicateNotifications.run db).2 in
  length (List.filter (cleanupDuplicateNotifications.inGroup k) after)
  = Nat.min 1 (length (List.filter (cleanupDuplicateNotifications.inGroup k) before))
  /\ (forall n m,
        n ∈ List.filter (cleanupDuplicateNotifications.inGroup k) after ->
        m ∈ List.filter (cleanupDuplicateNotifications.inGroup k) before ->
        n ∈ before /\ Notification.createdAt n <= Notification.createdAt m)
  /\ List.filter (fun n => negb (cleanupDuplicateNotifications.matched n)) after
     = List.filter (fun n => negb (cleanupDuplicateNotifications.matched n)) before
  /\ (cleanupDuplicateNotifications.run db).1
     = Z.of_nat (length before) - Z.of_nat (length after).
Proof.
  intros Hnd. cbn zeta. rewrite run_notifications.
  rewrite (group_after_cleanup _ k Hnd).
  set (G := List.filter (cleanupDuplicateNotifications.inGroup k) (notifications db)).
  pose proof (sortByAge_Permutation G) as HP.
  split; [|split; [|split]].
  - rewrite <- (Permutation_length HP).
    destruct (cleanupDuplicateNotifications.sortByAge G); reflexivity.
  - intros n m Hn Hm.
    destruct (cleanupDuplicateNotifications.sortByAge G) as [|h t] eqn:Hs;
      [inversion Hn|].
    cbn in Hn. apply list_elem_of_singleton in Hn. subst n. split.
    + assert (HhG : h ∈ G) by (rewrite <- HP; left).
      apply elem_of_List_filter in HhG as [HhG _]. exact HhG.
    + exact (sortByAge_head_oldest G h t Hs m Hm).
  - apply unmatched_after_cleanup. exact Hnd.
  - pose proof (cleanup_fold
                  (cleanupDuplicateNotifications.duplicates (notifications db))
                  (0, db)) as [_ HC].
    cbn [fst snd] in HC. fold (cleanupDuplicateNotifications.run db) in HC.
    rewrite run_notifications in HC. lia.
Qed.

Lemma X25_cleanup_keeps_the_oldest_witness :
  NoDup (Notification._id <$> notifications duplicatedStore)
  /\ (cleanupDuplicateNotifications.run duplicatedStore).1
     = Z.of_nat (length (notifications duplicatedStore))
       - Z.of_nat (length (notifications
                     (cleanupDuplicateNotifications.run duplicatedStore).2)).
Proof.
  assert (Hnd : NoDup (Notification._id <$> notifications duplicatedStore))
    by (apply (bool_decide_unpack _); vm_compute; exact I).
  split; [exact Hnd|].
  apply (X25_cleanup_keeps_the_oldest duplicatedStore
           ("student-1"%string, "quiz-1"%string) Hnd).
Defined.

(** X26: a second [cleanupDuplicateNotifications] right after the first
    finds no group with more than one notification: it deletes nothing and
    reports a deletedCount of 0 (notifications with distinct identifiers). *)
Theorem X26_cleanup_twice_deletes_nothing (db : Db) :
  NoDup (Notification._id <$> notifications db) ->
  let once := (cleanupDuplicateNotifications.run db).2 in
  cleanupDuplicateNotifications.run once = (0, once).
Proof.
  intros Hnd. cbn zeta. unfold cleanupDuplicateNotifications.run at 1.
  rewrite run_notifications, (survivors_no_duplicates _ Hnd). reflexivity.
Qed.

Lemma X26_cleanup_twice_deletes_nothing_witness :
  cleanupDuplicateNotifications.run
    (cleanupDuplicateNotifications.run duplicatedStore).2
  = (0, (cleanupDuplicateNotifications.run duplicatedStore).2).
Proof.
  apply (X26_cleanup_twice_deletes_nothing duplicatedStore).
  apply (bool_decide_unpack _). vm_compute. exact I.
Defined.

(** ** The latest submission *)

Lemma latest_facts (db : Db) (id userId : string) :
  match getQuizSubmission.latest db id userId with
  | None =>
      List.filter (submitQuizAnswers.ofUserQuiz userId id) (quizResults db) = []
  | Some r =>
      r ∈ quizResults db
      /\ submitQuizAnswers.ofUserQuiz userId id r = true
      /\ forall r', r' ∈ quizResults db ->
           submitQuizAnswers.ofUserQuiz userId id r' = true ->
           QuizResult.submittedAt r' <= QuizResult.submittedAt r
  end.
Proof.
  unfold getQuizSubmission.latest.
  set (own := List.filter (submitQuizAnswers.ofUserQuiz userId id) (quizResults db)).
  assert (Htrans : Transitive getQuizSubmission.laterFirst)
    by (intros a b c; unfold getQuizSubmission.laterFirst; lia).
  assert (Htotal : Total getQuizSubmission.laterFirst)
    by (intros a b; unfold getQuizSubmission.laterFirst; lia).
  pose proof (merge_sort_Permutation getQuizSubmission.laterFirst own) as HP.
  pose proof (StronglySorted_merge_sort getQuizSubmission.laterFirst own) as HS.
  destruct (merge_sort getQuizSubmission.laterFirst own) as [|h t] eqn:Hm; cbn [head].
  - apply Permutation_nil_l in HP. symmetry. exact HP.
  - assert (Hh : h ∈ own) by (rewrite <- HP; left).
    apply elem_of_List_filter in Hh as [Hh1 Hh2].
    split; [exact Hh1|]. split; [exact Hh2|].
    intros r' Hr' Ho.
    assert (Hin : r' ∈ h :: t)
      by (rewrite HP; apply elem_of_List_filter; split; assumption).
    apply StronglySorted_inv in HS as [_ HF].
    apply elem_of_cons in Hin as [-> | Hin]; [lia|].
    rewrite Forall_forall in HF. exact (HF r' Hin).
Qed.

(** X27: [getQuizSubmission] answers with the user's record for the quiz
    that has the greatest submittedAt, whether it is a graded submission or
    an abandoned attempt; it answers that there is no submission exactly
    when the user has no record for the quiz, and that the quiz is not found
    when there are records but the quiz is gone. *)
Theorem X27_submission_shown_is_the_latest (db : Db) (id userId : string) :
  match getQuizSubmission.run db id userId with
  | getQuizSubmission.NoSubmission =>
      forall r, r ∈ quizResults db ->
        submitQuizAnswers.ofUserQuiz userId id r = false
  | getQuizSubmission.NoQuiz =>
      submitQuizAnswers.findQuiz db id = None
      /\ exists r, r ∈ quizResults db
           /\ submitQuizAnswers.ofUserQuiz userId id r = true
  | getQuizSubmission.Found submission quiz =>
      submitQuizAnswers.findQuiz db id = Some quiz
      /\ submission ∈ quizResults db
      /\ submitQuizAnswers.ofUserQuiz userId id submission = true
      /\ forall r, r ∈ quizResults db ->
           submitQuizAnswers.ofUserQuiz userId id r = true ->
           QuizResult.submittedAt r <= QuizResult.submittedAt submission
  end.
Proof.
  unfold getQuizSubmission.run.
  pose proof (latest_facts db id userId) as HL.
  destruct (getQuizSubmission.latest db id userId) as [s|].
  - destruct HL as (H1 & H2 & H3).
    destruct (submitQuizAnswers.findQuiz db id) as [q|].
    + repeat split; assumption.
    + split; [reflexivity|]. exists s. split; assumption.
  - intros r Hr. destruct (submitQuizAnswers.ofUserQuiz userId id r) eqn:E;
      [|reflexivity].
    exfalso. assert (Hin : r ∈ List.filter (submitQuizAnswers.ofUserQuiz userId id)
                                 (quizResults db))
      by (apply elem_of_List_filter; split; assumption).
    rewrite HL in Hin. inversion Hin.
Qed.

(** ** The recipients of an assignment *)

Lemma insertMany_facts quizId data now sts :
  forall db,
    let db' := NotificationController.insertMany db quizId data now sts in
    users db' = users db /\ students db' = students db /\ teachers db' = teachers db
    /\ outbox db' = outbox db
    /\ exists new,
         notifications db' = notifications db ++ new
         /\ Notification.recipientId <$> new = Account._id <$> sts
         /\ Forall (freshAssignment quizId now) new.
Proof.
  cbn zeta. induction sts as [|s sts IH]; intros db.
  - cbn. repeat split. exists []. rewrite app_nil_r. repeat split. constructor.
  - unfold NotificationController.insertMany in *. cbn [foldl].
    destruct (IH (createNotification db
                    (NotificationController.assignmentFor quizId data now s)))
      as (U & S & T & O & new & N1 & N2 & N3).
    rewrite U, S, T, O. repeat split.
    exists (NotificationController.assignmentFor quizId data now s (nextId db) :: new).
    split; [|split].
    + rewrite N1. cbn [createNotification notifications setNotifications].
      rewrite <- app_assoc. reflexivity.
    + cbn. f_equal. exact N2.
    + constructor; [|exact N3]. repeat split.
Qed.

Lemma findAnyUser_emailStudent data db s id :
  findAnyUser (NotificationController.emailStudent data db s) id = findAnyUser db id.
Proof.
  unfold NotificationController.emailStudent, sendEmailNotification.
  destruct (_ && _); [|reflexivity].
  destruct (findAnyUser db (Account._id s)); reflexivity.
Qed.

Lemma emailStudents_facts data sts :
  forall db,
    (forall s, s ∈ sts -> is_Some (findAnyUser db (Account._id s))) ->
    exists mails,
      outbox (foldl (NotificationController.emailStudent data) db sts)
      = outbox db ++ mails
      /\ (fun m => (mailUser m, mailTo m)) <$> mails
         = (fun s => (Account._id s, Js.str (Account.email s)))
             <$> List.filter mailable sts
      /\ Forall (fun m => mailKind m = QuizAssignedMail) mails.
Proof.
  induction sts as [|s sts IH]; intros db Hknown.
  - exists []. cbn. rewrite app_nil_r. repeat split. constructor.
  - cbn [foldl].
    destruct (IH (NotificationController.emailStudent data db s))
      as (mails & M1 & M2 & M3).
    { intros s' Hs'. rewrite findAnyUser_emailStudent. apply Hknown. right. exact Hs'. }
    rewrite M1. cbn [List.filter].
    unfold NotificationController.emailStudent. fold (mailable s).
    destruct (mailable s).
    + unfold sendEmailNotification.
      destruct (Hknown s) as [u Hu]; [left|]. rewrite Hu.
      cbn [outbox setOutbox]. rewrite <- app_assoc.
      eexists. split; [reflexivity|]. split.
      * cbn. f_equal. exact M2.
      * constructor; [reflexivity | exact M3].
    + exists mails. repeat split; assumption.
Qed.

Lemma student_is_known db s :
  s ∈ students db -> is_Some (findAnyUser db (Account._id s)).
Proof.
  intros Hs. unfold findAnyUser.
  destruct (findById (users db) (Account._id s)); [eauto|].
  assert (Hf : is_Some (findById (students db) (Account._id s))).
  { unfold findById. induction (students db) as [|a l IH]; [inversion Hs|].
    cbn. destruct (bool_decide (Account._id a = Account._id s)) eqn:E; [eauto|].
    apply elem_of_cons in Hs as [-> | Hs].
    - rewrite bool_decide_eq_true_2 in E by reflexivity. discriminate.
    - apply IH. exact Hs. }
  destruct Hf as [u ->]. eauto.
Qed.

(** X28: what a [createQuizNotification] that reports [n] created
    notifications has done.  [n] is the number of students who match the
    semester and year of the quiz; the notifications are appended, one
    unread quiz_assigned notification per matching student in their order,
    whatever the student's in-app preference; the mails are appended to the
    calls of the transport, one per matching student who has not switched
    email notifications off and has an address, to that address. *)
Theorem X28_assignment_reaches_matching_students
    (db db' : Db) (now : Z) (quizId : string)
    (data : NotificationController.QuizData) (n : Z) :
  NotificationController.createQuizNotification db now quizId data
  = (NotificationController.Created n, db') ->
  let sts := List.filter (NotificationController.matchesFilter data) (students db) in
  n = Z.of_nat (length sts)
  /\ (exists new,
        notifications db' = notifications db ++ new
        /\ Notification.recipientId <$> new = Account._id <$> sts
        /\ Forall (freshAssignment quizId now) new)
  /\ (exists mails,
        outbox db' = outbox db ++ mails
        /\ (fun m => (mailUser m, mailTo m)) <$> mails
           = (fun s => (Account._id s, Js.str (Account.email s)))
               <$> List.filter mailable sts
        /\ Forall (fun m => mailKind m = QuizAssignedMail) mails).
Proof.
  cbn zeta. unfold NotificationController.createQuizNotification.
  destruct (0 <? NotificationController.existingNotifications db quizId);
    [discriminate|].
  set (sts := List.filter (NotificationController.matchesFilter data) (students db)).
  assert (Hsts : forall s, s ∈ sts -> s ∈ students db).
  { intros s Hs. apply elem_of_List_filter in Hs as [Hs _]. exact Hs. }
  destruct sts as [|s0 sts0] eqn:Es; [discriminate|]. rewrite <- Es in *.
  intros H. apply pair_equal_spec in H as [Hn <-]. injection Hn as <-.
  destruct (insertMany_facts quizId data now sts db)
    as (U & S & T & O & new & N1 & N2 & N3).
  split; [reflexivity|]. split.
  - exists new. rewrite emailStudents_notifications. repeat split; assumption.
  - destruct (emailStudents_facts data sts
                (NotificationController.insertMany db quizId data now sts))
      as (mails & M1 & M2 & M3).
    { intros s Hs. unfold findAnyUser, findById. rewrite U, S, T.
      apply student_is_known. apply Hsts. exact Hs. }
    exists mails. rewrite M1, O. repeat split; assumption.
Qed.

Lemma X28_assignment_reaches_matching_students_witness :
  let r := NotificationController.createQuizNotification
             classWithoutAddress noon "quiz-1" algebraData in
  r.1 = NotificationController.Created 1
  /\ exists new,
       notifications r.2 = notifications classWithoutAddress ++ new
       /\ Notification.recipientId <$> new
          = Account._id <$> List.filter (NotificationController.matchesFilter algebraData)
                              (students classWithoutAddress)
       /\ Forall (freshAssignment "quiz-1" noon) new.
Proof.
  intros r. split; [vm_compute; reflexivity|].
  assert (Hr : NotificationController.createQuizNotification
                 classWithoutAddress noon "quiz-1" algebraData
               = (NotificationController.Created 1, r.2))
    by (vm_compute; reflexivity).
  exact (proj1 (proj2 (X28_assignment_reaches_matching_students
                         classWithoutAddress r.2 noon "quiz-1" algebraData 1 Hr))).
Defined.

(** ** What a scheduling request stores *)








(** A request for five attempts fails at the save: the answer is the
    failure and neither the quiz nor a notification is written. *)
Example scheduleQuiz_five_attempts_fails :
  scheduleQuiz.run classOfFour noon "quiz-1"
    {| scheduleQuiz.scheduleDate := Some (Js.dateOf 2025 3 10);
       scheduleQuiz.startTime := Some "09:00"%string;
       scheduleQuiz.endTime := Some "17:00"%string;
       scheduleQuiz.dueDate := None;
       scheduleQuiz.semester := Some "1st semester"%string;
       scheduleQuiz.academicYear := Some 1;
       scheduleQuiz.maxAttempts := Some 5 |}
  = (scheduleQuiz.SaveFailed, classOfFour).
Proof. vm_compute. reflexivity. Qed.

(** ** Clock texts *)

Lemma leadingDigits_all (s : string) :
  forall acc v, Js.digitsValue acc s = Some v -> formatTime12Hour.leadingDigits s = s.
Proof.
  induction s as [|c s IH]; intros acc v H; [reflexivity|].
  cbn in *. destruct (Js.isDigit c); [|discriminate].
  f_equal. exact (IH _ _ H).
Qed.

Lemma parseInt_Number (s : string) (v : Z) :
  s <> EmptyString -> Js.Number s = Some v -> formatTime12Hour.parseInt s = Some v.
Proof.
  intros Hne H. unfold formatTime12Hour.parseInt.
  rewrite (leadingDigits_all s 0 v H).
  destruct s; [congruence | exact H].
Qed.

(** X30: [formatTime12Hour] on a time of day.  When the text before the
    first colon is a non-empty string of digits with value [h] from 0 to 23,
    the result is a display hour from 1 to 12, a colon, the text between the
    first and the second colon unchanged, a blank and AM or PM, and the hour
    [h] is recovered from the display hour and the period: 0 is shown as
    12 AM and 12 as 12 PM.  When there is nothing before the colon, where
    [Number] reads the hour 0, the text starts with NaN. *)
Theorem X30_clock_text_round_trip (s hh mm : string) (rest : list string) :
  Js.split s = hh :: mm :: rest ->
  (forall h, hh <> EmptyString -> Js.Number hh = Some h -> 0 <= h <= 23 ->
     exists dh,
       formatTime12Hour.run (Some s)
       = (pretty dh +:+ ":" +:+ mm +:+ " " +:+ (if (h <? 12)%Z then "AM" else "PM"))%string
       /\ 1 <= dh <= 12
       /\ h = dh mod 12 + (if h <? 12 then 0 else 12))
  /\ (hh = EmptyString ->
      Js.Number hh = Some 0
      /\ formatTime12Hour.run (Some s) = ("NaN:" +:+ mm +:+ " AM")%string).
Proof.
  intros Hs.
  assert (Ht : Js.truthy (Some s) = true).
  { destruct s; [cbn in Hs; discriminate | reflexivity]. }
  unfold formatTime12Hour.run. rewrite Ht. cbn [negb].
  change (Js.str (Some s)) with s. rewrite Hs.
  change ((hh :: mm :: rest) !! 0%nat) with (Some hh).
  change ((hh :: mm :: rest) !! 1%nat) with (Some mm).
  cbn [default]. unfold id. split.
  - intros h Hne Hn Hr. rewrite (parseInt_Number hh h Hne Hn).
    unfold formatTime12Hour.displayHour, formatTime12Hour.period,
      formatTime12Hour.numText, Js.seq, Js.gt, Js.ge, Js.lt, Js.le.
    cbn [fmap option_fmap option_map].
    destruct (Z.eqb_spec h 0) as [->|H0].
    + exists 12. cbn. repeat split; lia.
    + destruct (Z.ltb_spec 12 h) as [H12|H12].
      * exists (h - 12). cbn [option_fmap option_map fmap].
        destruct (Z.leb_spec 12 h); [|lia]. destruct (Z.ltb_spec h 12); [lia|].
        repeat split; try lia.
        rewrite Z.mod_small by lia. lia.
      * exists h. destruct (Z.leb_spec 12 h) as [Hle|Hle];
          destruct (Z.ltb_spec h 12) as [Hlt|Hlt]; try lia.
        -- assert (h = 12) as -> by lia. repeat split; lia.
        -- repeat split; try lia. rewrite Z.mod_small by lia. lia.
  - intros ->. split; reflexivity.
Qed.

Lemma X30_clock_text_round_trip_witness :
  exists dh,
    formatTime12Hour.run (Some "17:30"%string)
    = (pretty dh +:+ ":" +:+ "30" +:+ " " +:+ "PM")%string
    /\ 1 <= dh <= 12 /\ 17 = dh mod 12 + 12.
Proof.
  apply (proj1 (X30_clock_text_round_trip "17:30" "17" "30" [] eq_refl) 17).
  - discriminate.
  - reflexivity.
  - lia.
Defined.
